(** * vu: device resource binder, mesh store and visibility cullers

    A shallow embedding of three parts of the engine:
    - [culler.go]   : the front and radius cullers attached to a camera;
    - [render/opengl.go] : the OpenGL binder ([Render], [bindUniforms],
      [BindMesh], [BindTexture], [BindTarget], [BindMap], ...);
    - [mesh.go]     : the CPU side mesh store ([InitData], [SetData],
      [SetFaces], [counts], [bind]).

    The graphics device is outside the program.  Every call the code makes
    into package [gl] is recorded, in order, in a trace, and the answers the
    device gives to queries ([GetError], [CheckFramebufferStatus], the link
    result of [BindProgram]) are read from an oracle, so that every
    behaviour of the device is covered. *)

From Stdlib Require Import ZArith QArith Floats Bool List String Ascii Lia.
From stdpp Require Import base option list gmap strings.
Import ListNotations.

Local Open Scope Z_scope.

(* ===================================================================== *)
(** * Part I -- definitions                                               *)
(* ===================================================================== *)

(** ** float64 arithmetic

    The cullers only add, subtract, multiply, negate and compare float64
    values.  The operations are taken through an interface so that the
    same function bodies run on IEEE binary64 ([binary64]) and can be
    reasoned about on exact rationals ([exact]). *)

Class Float64 (F : Type) := {
  f0    : F;                 (* the literal 0 *)
  f0_8  : F;                 (* the literal 0.8 *)
  fneg  : F -> F;
  fadd  : F -> F -> F;
  fsub  : F -> F -> F;
  fmul  : F -> F -> F;
  fltb  : F -> F -> bool     (* x < y, false when unordered *)
}.

Declare Scope f64_scope.
Delimit Scope f64_scope with f64.
Notation "x + y" := (fadd x y) : f64_scope.
Notation "x - y" := (fsub x y) : f64_scope.
Notation "x * y" := (fmul x y) : f64_scope.
Notation "- x" := (fneg x) : f64_scope.
Notation "x <? y" := (fltb x y) : f64_scope.
Notation "x >? y" := (fltb y x) : f64_scope.

#[export] Instance binary64 : Float64 float := {
  f0 := 0%float;
  f0_8 := 0x1.999999999999ap-1%float;   (* float64(0.8) *)
  fneg := PrimFloat.opp;
  fadd := PrimFloat.add;
  fsub := PrimFloat.sub;
  fmul := PrimFloat.mul;
  fltb := PrimFloat.ltb
}.

Definition Qltb (x y : Q) : bool := negb (Qle_bool y x).

#[export] Instance exact : Float64 Q := {
  f0 := 0%Q;
  f0_8 := (8 # 10)%Q;
  fneg := Qopp;
  fadd := Qplus;
  fsub := Qminus;
  fmul := Qmult;
  fltb := Qltb
}.

(** ** Package lin and the camera (culler.go's collaborators) *)

Section Geometry.
Context {F : Type} `{Float64 F}.
Local Open Scope f64_scope.

(** lin.V3 and lin.Q: a point and a rotation quaternion. *)
Record V3 := mkV3 { vX : F; vY : F; vZ : F }.
Record Quat := mkQuat { qX : F; qY : F; qZ : F; qW : F }.

(** lin.T: a transform; the camera keeps one in its field [at]. *)
Record T := mkT { Loc : V3; Rot : Quat }.
Record Camera := mkCamera { at_ : T }.

(** Modelled from the spec: [Camera.Distance] (camera.go is not among the
    sources).  The "distance to a point" operation of the camera: the
    squared straight-line distance from the camera's own position to
    the point, no square root taken. *)
Definition Distance (c : Camera) (px py pz : F) : F :=
  let dx := px - vX (Loc (at_ c)) in
  let dy := py - vY (Loc (at_ c)) in
  let dz := pz - vZ (Loc (at_ c)) in
  dx * dx + dy * dy + dz * dz.

(** The rotation of a point by a quaternion, [lin.MultSQ], is an operation
    of package lin, which is not among the sources: it is a parameter
    of the front culler. *)
Definition rotation := F -> F -> F -> Quat -> F * F * F.

(** *** culler.go *)

Record frontCull := mkFrontCull {
  radius : F;     (* regular radius. *)
  fc_rr  : F      (* radius squared. *)
}.

Definition NewFrontCull (r : F) : frontCull :=
  let r := if r <? f0 then f0 else r in
  {| radius := r; fc_rr := r * r |}.

Definition frontCull_Culled (MultSQ : rotation)
    (fc : frontCull) (cam : Camera) (wx wy wz : F) : bool :=
  let fudgeFactor := f0_8 in
  let '(cx, cy, cz) := MultSQ f0 f0 (- radius fc * fudgeFactor) (Rot (at_ cam)) in
  let '(wx, wy, wz) := (wx - cx, wy - cy, wz - cz) in
  let toc := Distance cam wx wy wz in
  toc >? fc_rr fc.

Record radiusCull := mkRadiusCull {
  rc_rr : F       (* radius squared. *)
}.

Definition NewRadiusCull (r : F) : radiusCull :=
  let r := if r <? f0 then f0 else r in
  {| rc_rr := r * r |}.

Definition radiusCull_Culled (rc : radiusCull) (cam : Camera) (wx wy wz : F) : bool :=
  Distance cam wx wy wz >? rc_rr rc.

(** The words of the specification, for comparison with the code: the
    squared straight-line distance between two points. *)
Definition sqdist (a b : V3) : F :=
  let dx := vX a - vX b in
  let dy := vY a - vY b in
  let dz := vZ a - vZ b in
  dx * dx + dy * dy + dz * dz.


End Geometry.

Arguments V3 F : clear implicits.
Arguments Quat F : clear implicits.
Arguments T F : clear implicits.
Arguments Camera F : clear implicits.
Arguments frontCull F : clear implicits.
Arguments radiusCull F : clear implicits.
Arguments rotation F : clear implicits.

(** The identity orientation and a camera at the origin. *)
Definition QI_float : Quat float := mkQuat 0%float 0%float 0%float 1%float.
Definition QI_exact : Quat Q := mkQuat 0%Q 0%Q 0%Q 1%Q.
Definition origin_float : Camera float :=
  mkCamera (mkT (mkV3 0%float 0%float 0%float) QI_float).
Definition origin_exact : Camera Q :=
  mkCamera (mkT (mkV3 0%Q 0%Q 0%Q) QI_exact).




(** ** Machine integers *)

Definition uint32 (z : Z) : Z := z mod 2 ^ 32.
Definition int32 (z : Z) : Z := (z + 2 ^ 31) mod 2 ^ 32 - 2 ^ 31.

(** A float32 is only ever copied by the binder: it is kept as its 32 bit
    pattern. *)
Definition float32 := Z.

(** ** Package gl: constants, calls, device *)

Module gl.
Definition NO_ERROR : Z := 0.
Definition NONE : Z := 0.
Definition POINTS : Z := 0x0000.
Definition LINES : Z := 0x0001.
Definition TRIANGLES : Z := 0x0004.
Definition DEPTH_BUFFER_BIT : Z := 0x00000100.
Definition COLOR_BUFFER_BIT : Z := 0x00004000.
Definition LEQUAL : Z := 0x0203.
Definition SRC_ALPHA : Z := 0x0302.
Definition ONE_MINUS_SRC_ALPHA : Z := 0x0303.
Definition FRONT_AND_BACK : Z := 0x0408.
Definition CULL_FACE : Z := 0x0B44.
Definition DEPTH_TEST : Z := 0x0B71.
Definition BLEND : Z := 0x0BE2.
Definition SCISSOR_TEST : Z := 0x0C11.
Definition TEXTURE_2D : Z := 0x0DE1.
Definition UNSIGNED_BYTE : Z := 0x1401.
Definition UNSIGNED_SHORT : Z := 0x1403.
Definition FLOAT : Z := 0x1406.
Definition DEPTH_COMPONENT : Z := 0x1902.
Definition RGBA : Z := 0x1908.
Definition LINE : Z := 0x1B01.
Definition FILL : Z := 0x1B02.
Definition NEAREST : Z := 0x2600.
Definition LINEAR : Z := 0x2601.
Definition NEAREST_MIPMAP_LINEAR : Z := 0x2702.
Definition TEXTURE_MAG_FILTER : Z := 0x2800.
Definition TEXTURE_MIN_FILTER : Z := 0x2801.
Definition TEXTURE_WRAP_S : Z := 0x2802.
Definition TEXTURE_WRAP_T : Z := 0x2803.
Definition REPEAT : Z := 0x2901.
Definition CLAMP_TO_EDGE : Z := 0x812F.
Definition TEXTURE_MAX_LEVEL : Z := 0x813D.
Definition DEPTH_COMPONENT16 : Z := 0x81A5.
Definition TEXTURE0 : Z := 0x84C0.
Definition PROGRAM_POINT_SIZE : Z := 0x8642.
Definition TEXTURE_COMPARE_MODE : Z := 0x884C.
Definition TEXTURE_COMPARE_FUNC : Z := 0x884D.
Definition COMPARE_REF_TO_TEXTURE : Z := 0x884E.
Definition ARRAY_BUFFER : Z := 0x8892.
Definition ELEMENT_ARRAY_BUFFER : Z := 0x8893.
Definition STATIC_DRAW : Z := 0x88E4.
Definition DYNAMIC_DRAW : Z := 0x88E8.
Definition FRAMEBUFFER_COMPLETE : Z := 0x8CD5.
Definition COLOR_ATTACHMENT0 : Z := 0x8CE0.
Definition DEPTH_ATTACHMENT : Z := 0x8D00.
Definition FRAMEBUFFER : Z := 0x8D40.
Definition RENDERBUFFER : Z := 0x8D41.

(** What a call hands to the device through a [gl.Pointer]. *)
Inductive pointer :=
| Null
| Floats (data : list float32)
| Bytes (data : list Z)
| Shorts (data : list Z).

(** One constructor per function of package gl the binder calls.  A call
    that returns a value carries the value it returned. *)
Inductive call :=
| Enable (cap : Z)
| Disable (cap : Z)
| BlendFunc (sfactor dfactor : Z)
| Clear (mask : Z)
| Scissor (x y w h : Z)
| Viewport (x y w h : Z)
| BindFramebuffer (target fbo : Z)
| UseProgram (program : Z)
| BindVertexArray (vao : Z)
| PolygonMode (face mode : Z)
| DrawElements (mode count type offset : Z)
| DrawArrays (mode first count : Z)
| DrawElementsInstanced (mode count type offset instances : Z)
| Uniform1i (ref v : Z)
| Uniform1f (ref : Z) (a : float32)
| Uniform2f (ref : Z) (a b : float32)
| Uniform3f (ref : Z) (a b c : float32)
| Uniform4f (ref : Z) (a b c d : float32)
| UniformMatrix4fv (ref count : Z) (transpose : bool) (data : list float32)
| UniformMatrix3x4fv (ref count : Z) (transpose : bool) (data : list float32)
| ActiveTexture (unit : Z)
| BindTexture (target tid : Z)
| GetError (result : Z)
| GenVertexArrays (result : Z)
| GenBuffers (result : Z)
| BindBuffer (target ref : Z)
| BufferData (target size : Z) (data : pointer) (usage : Z)
| BufferSubData (target offset size : Z) (data : pointer)
| VertexAttribPointer (lloc span type : Z) (normalize : bool) (stride offset : Z)
| EnableVertexAttribArray (lloc : Z)
| VertexAttribDivisor (lloc divisor : Z)
| CreateProgram (result : Z)
| BindProgram (program : Z) (vsh fsh : list string) (result : option string)
| Uniforms (program : Z)
| Layouts (program : Z)
| GenTextures (result : Z)
| TexImage2D (target level internal width height border format type : Z)
             (data : pointer)
| GenerateMipmap (target : Z)
| TexParameteri (target pname param : Z)
| GenFramebuffers (result : Z)
| GenRenderbuffers (result : Z)
| BindRenderbuffer (target rb : Z)
| RenderbufferStorage (target format width height : Z)
| FramebufferRenderbuffer (target attachment rbtarget rb : Z)
| FramebufferTexture (target attachment tid level : Z)
| DrawBuffers (bufs : list Z)
| DrawBuffer (buf : Z)
| CheckFramebufferStatus (target result : Z).

(** The part of the device state the binder's calls act on, and the
    answers the device will give to the queries still to come. *)
Record device := mkDevice {
  enabled      : gset Z;            (* capabilities switched on *)
  scissor_box  : Z * Z * Z * Z;
  viewport     : Z * Z * Z * Z;
  framebuffer  : Z;                 (* bound framebuffer object *)
  program      : Z;                 (* program in use *)
  vertex_array : Z;                 (* bound vertex array object *)
  textures     : gset Z;            (* texture names generated *)
  next_name    : Z;                 (* the next object name to hand out *)
  pending_errors   : list Z;            (* answers to GetError *)
  pending_status   : list Z;            (* answers to CheckFramebufferStatus *)
  pending_links    : list (option string) (* answers to BindProgram *)
}.

Definition set_enabled (f : gset Z -> gset Z) (s : device) : device :=
  mkDevice (f (enabled s)) (scissor_box s) (viewport s) (framebuffer s)
    (program s) (vertex_array s) (textures s) (next_name s)
    (pending_errors s) (pending_status s) (pending_links s).
Definition set_scissor_box (b : Z * Z * Z * Z) (s : device) : device :=
  mkDevice (enabled s) b (viewport s) (framebuffer s)
    (program s) (vertex_array s) (textures s) (next_name s)
    (pending_errors s) (pending_status s) (pending_links s).
Definition set_viewport (b : Z * Z * Z * Z) (s : device) : device :=
  mkDevice (enabled s) (scissor_box s) b (framebuffer s)
    (program s) (vertex_array s) (textures s) (next_name s)
    (pending_errors s) (pending_status s) (pending_links s).
Definition set_framebuffer (f : Z) (s : device) : device :=
  mkDevice (enabled s) (scissor_box s) (viewport s) f
    (program s) (vertex_array s) (textures s) (next_name s)
    (pending_errors s) (pending_status s) (pending_links s).
Definition set_program (p : Z) (s : device) : device :=
  mkDevice (enabled s) (scissor_box s) (viewport s) (framebuffer s)
    p (vertex_array s) (textures s) (next_name s)
    (pending_errors s) (pending_status s) (pending_links s).
Definition set_vertex_array (v : Z) (s : device) : device :=
  mkDevice (enabled s) (scissor_box s) (viewport s) (framebuffer s)
    (program s) v (textures s) (next_name s)
    (pending_errors s) (pending_status s) (pending_links s).
Definition set_textures (t : gset Z) (s : device) : device :=
  mkDevice (enabled s) (scissor_box s) (viewport s) (framebuffer s)
    (program s) (vertex_array s) t (next_name s)
    (pending_errors s) (pending_status s) (pending_links s).
Definition set_next_name (n : Z) (s : device) : device :=
  mkDevice (enabled s) (scissor_box s) (viewport s) (framebuffer s)
    (program s) (vertex_array s) (textures s) n
    (pending_errors s) (pending_status s) (pending_links s).
Definition set_pending_errors (l : list Z) (s : device) : device :=
  mkDevice (enabled s) (scissor_box s) (viewport s) (framebuffer s)
    (program s) (vertex_array s) (textures s) (next_name s)
    l (pending_status s) (pending_links s).
Definition set_pending_status (l : list Z) (s : device) : device :=
  mkDevice (enabled s) (scissor_box s) (viewport s) (framebuffer s)
    (program s) (vertex_array s) (textures s) (next_name s)
    (pending_errors s) l (pending_links s).
Definition set_pending_links (l : list (option string)) (s : device) : device :=
  mkDevice (enabled s) (scissor_box s) (viewport s) (framebuffer s)
    (program s) (vertex_array s) (textures s) (next_name s)
    (pending_errors s) (pending_status s) l.

Definition is_enabled (cap : Z) (s : device) : bool :=
  bool_decide (cap ∈ enabled s).

(** The effect of a call on the device state: a state switch takes
    effect, a query consumes the answer it was given, and a generated
    name is used up. *)
Definition apply (c : call) (s : device) : device :=
  match c with
  | Enable cap => set_enabled (fun e => {[cap]} ∪ e) s
  | Disable cap => set_enabled (fun e => e ∖ {[cap]}) s
  | Scissor x y w h => set_scissor_box (x, y, w, h) s
  | Viewport x y w h => set_viewport (x, y, w, h) s
  | BindFramebuffer _ fbo => set_framebuffer fbo s
  | UseProgram p => set_program p s
  | BindVertexArray v => set_vertex_array v s
  | GetError _ => set_pending_errors (tl (pending_errors s)) s
  | CheckFramebufferStatus _ _ => set_pending_status (tl (pending_status s)) s
  | BindProgram _ _ _ _ => set_pending_links (tl (pending_links s)) s
  | GenTextures n => set_textures ({[n]} ∪ textures s) (set_next_name (n + 1) s)
  | GenVertexArrays n | GenBuffers n | CreateProgram n
  | GenFramebuffers n | GenRenderbuffers n => set_next_name (n + 1) s
  | _ => s
  end.
End gl.


(** ** The binder's effects: device calls and log lines *)

(** The lines the binder writes with [log.Printf], by format. *)
Inductive logline :=
| AnimationDataExpected (tag : Z)
| NoUniformData (tag : Z) (key : string)
| FailedToBind (tag : Z) (key : string) (len : Z)
| BindUniformsFailed (ref tag glerr : Z) (key : string)
| ShaderBindError (glerr : Z)
| BindTexturePriorError (glerr : Z).

Inductive event :=
| Gl (c : gl.call)
| Log (l : logline).

(** The errors the binder returns, by format. *)
Inductive error :=
| BindMeshPriorError (glerr : Z)
| BindMeshVbFailed (glerr : Z)
| BindMeshFbFailed (glerr : Z)
| ShaderProgramFailed (msg : string)
| UnsupportedImageFormat (type : string)
| FailedBindingTexture (glerr : Z)
| BindFrameError (status : Z)
| FailedBindingFramebuffer (glerr : Z).

(** A computation runs against the device and yields a result, the new
    device state and the events it produced, oldest first. *)
Definition M (A : Type) : Type := gl.device -> A * gl.device * list event.

Definition ret {A : Type} (a : A) : M A := fun s => (a, s, []).

Definition bind {A B : Type} (m : M A) (k : A -> M B) : M B :=
  fun s =>
    let '(a, s1, t1) := m s in
    let '(b, s2, t2) := k a s1 in
    (b, s2, t1 ++ t2).

#[export] Instance M_ret : MRet M := @ret.
#[export] Instance M_bind : MBind M := fun A B k m => bind m k.

Definition result_of {A : Type} (r : A * gl.device * list event) : A := r.1.1.
Definition device_of {A : Type} (r : A * gl.device * list event) : gl.device := r.1.2.
Definition events_of {A : Type} (r : A * gl.device * list event) : list event := r.2.

(** A call that returns nothing. *)
Definition call (c : gl.call) : M unit :=
  fun s => (tt, gl.apply c s, [Gl c]).

Definition log (l : logline) : M unit :=
  fun s => (tt, s, [Log l]).

(** [gl.GetError]: the device answers with its next pending error, or
    [NO_ERROR] when none is pending. *)
Definition GetError : M Z :=
  fun s =>
    let e := hd gl.NO_ERROR (gl.pending_errors s) in
    (e, gl.apply (gl.GetError e) s, [Gl (gl.GetError e)]).

Definition CheckFramebufferStatus (target : Z) : M Z :=
  fun s =>
    let r := hd gl.FRAMEBUFFER_COMPLETE (gl.pending_status s) in
    (r, gl.apply (gl.CheckFramebufferStatus target r) s,
     [Gl (gl.CheckFramebufferStatus target r)]).

Definition BindProgram (program : Z) (vsh fsh : list string) : M (option string) :=
  fun s =>
    let r := hd None (gl.pending_links s) in
    (r, gl.apply (gl.BindProgram program vsh fsh r) s,
     [Gl (gl.BindProgram program vsh fsh r)]).

(** [gl.Gen...(1, &name)] and [gl.CreateProgram]: the device hands out a
    name it has not used before.  Which name that is, is the device's
    business: the model keeps it in [next_name], and no statement below
    relates the names of two calls. *)
Definition gen (c : Z -> gl.call) : M Z :=
  fun s =>
    let n := gl.next_name s in
    (n, gl.apply (c n) s, [Gl (c n)]).

(** [if cond { body }] *)
Definition when (cond : bool) (body : M unit) : M unit :=
  if cond then body else ret tt.

(** The device state a trace leads to. *)
Definition replay1 (s : gl.device) (e : event) : gl.device :=
  match e with
  | Gl c => gl.apply c s
  | Log _ => s
  end.

Definition replay (t : list event) (s : gl.device) : gl.device :=
  fold_left replay1 t s.

(** ** render: the draw descriptor *)

Inductive Mode := Triangles | Points | Lines | OtherMode (m : Z).

Record tex := mkTex { order : Z; tid : Z }.

Record Draw := mkDraw {
  Shader : Z;                          (* shader program handle *)
  Vao : Z;                             (* vertex array handle *)
  mode : Mode;
  FaceCnt : Z;
  VertCnt : Z;
  Instances : Z;
  Poses : list float32;                (* bone pose data *)
  NumPoses : Z;
  Texs : list tex;
  Shtex : Z;                           (* shadow map texture *)
  Uniforms : list (string * Z);        (* name to reference, in the order
                                          the range statement visits them *)
  UniformData : gmap Z (list float32); (* reference to payload *)
  Tag : Z;
  Scissor : bool;
  Sx : Z; Sy : Z; Sw : Z; Sh : Z;
  Fbo : Z;
  Depth : bool
}.

(** Modelled from the spec: [LayerSize], the "fixed square resolution" of
    an off-screen target; the constant is declared in a file that is not
    among the sources, and nothing below depends on its value. *)
Definition LayerSize : Z := 1024.

(** ** render/opengl.go *)

Record opengl := mkOpengl {
  depthTest : bool;   (* Track current depth setting to reduce state switching. *)
  shader : Z;         (* Track the current shader to reduce shader switching. *)
  fbo : Z;            (* Track current framebuffer object to reduce switching. *)
  vw : Z;             (* Remember the viewport size for framebuffer switching. *)
  vh : Z
}.

Definition newRenderer : opengl := mkOpengl false 0 0 0 0.

Definition set_depthTest (b : bool) (gc : opengl) : opengl :=
  mkOpengl b (shader gc) (fbo gc) (vw gc) (vh gc).
Definition set_shader (p : Z) (gc : opengl) : opengl :=
  mkOpengl (depthTest gc) p (fbo gc) (vw gc) (vh gc).
Definition set_fbo (f : Z) (gc : opengl) : opengl :=
  mkOpengl (depthTest gc) (shader gc) f (vw gc) (vh gc).

Definition Blend : Z := gl.BLEND.
Definition CullFace : Z := gl.CULL_FACE.
Definition DepthTest : Z := gl.DEPTH_TEST.
Definition PointSize : Z := gl.PROGRAM_POINT_SIZE.
Definition StaticDraw : Z := gl.STATIC_DRAW.
Definition DynamicDraw : Z := gl.DYNAMIC_DRAW.

Definition Clear (gc : opengl) : M unit :=
  call (gl.Clear (Z.lor gl.COLOR_BUFFER_BIT gl.DEPTH_BUFFER_BIT)).

Definition Viewport (gc : opengl) (width height : Z) : M opengl :=
  let gc := mkOpengl (depthTest gc) (shader gc) (fbo gc) (int32 width) (int32 height) in
  call (gl.Viewport 0 0 (int32 width) (int32 height)) ;;
  mret gc.

Definition Enable (gc : opengl) (attribute : Z) (enabled : bool) : M unit :=
  if bool_decide (attribute = CullFace) || bool_decide (attribute = DepthTest) then
    if enabled then call (gl.Enable attribute) else call (gl.Disable attribute)
  else if bool_decide (attribute = Blend) then
    if enabled then
      call (gl.Enable attribute) ;;
      call (gl.BlendFunc gl.SRC_ALPHA gl.ONE_MINUS_SRC_ALPHA)
    else call (gl.Disable attribute)
  else mret tt.

(** [fmt.Sscanf(key, "uv%d", &index)] with [index] starting at 0: after
    the two characters of the prefix, blanks are skipped, one sign is
    accepted, and the longest run of decimal digits is read as an int;
    when there is no digit or the number does not fit, [index] keeps its
    0.  Names are taken to be ASCII. *)
Definition is_digit (c : ascii) : bool :=
  let n := Z.of_nat (nat_of_ascii c) in (48 <=? n) && (n <=? 57).

Definition is_blank (c : ascii) : bool :=
  let n := Z.of_nat (nat_of_ascii c) in
  (n =? 32) || (n =? 9) || (n =? 11) || (n =? 12) || (n =? 13).

Fixpoint skip_blanks (s : string) : string :=
  match s with
  | String c r => if is_blank c then skip_blanks r else s
  | EmptyString => s
  end.

Fixpoint number_token (s : string) : list ascii :=
  match s with
  | String c r =>
      if is_digit c then c :: number_token r else []
  | EmptyString => []
  end.

Definition decimal (tok : list ascii) : Z :=
  fold_left (fun acc c => 10 * acc + (Z.of_nat (nat_of_ascii c) - 48)) tok 0.

Definition scan_int (s : string) : option Z :=
  let s := skip_blanks s in
  let '(neg, s) :=
    match s with
    | String c r =>
        if Ascii.eqb c "-" then (true, r)
        else if Ascii.eqb c "+" then (false, r) else (false, s)
    | EmptyString => (false, s)
    end in
  let tok := number_token s in
  if bool_decide (tok = []) then None
  else
    let v := if neg then - decimal tok else decimal tok in
    if (- 2 ^ 63 <=? v) && (v <? 2 ^ 63) then Some v else None.

Definition Sscanf_uv (key : string) : Z :=
  match key with
  | String _ (String _ rest) => default 0 (scan_int rest)
  | _ => 0
  end.

(** The check that closes an iteration of [bindUniforms]. *)
Definition check_uniform (d : Draw) (key : string) (ref : Z) : M unit :=
  glerr ← GetError;
  when (negb (glerr =? gl.NO_ERROR)) (log (BindUniformsFailed ref (Tag d) glerr key)).

(** One iteration of the loop of [bindUniforms]. *)
Definition bindUniform (d : Draw) (key : string) (ref : Z) : M unit :=
  if String.eqb key "bpos" then
    (if negb (bool_decide (Poses d = [])) then
       call (gl.UniformMatrix3x4fv ref (int32 (NumPoses d)) false (Poses d))
     else log (AnimationDataExpected (Tag d))) ;;
    check_uniform d key ref
  else if String.eqb key "sm" then
    call (gl.Uniform1i ref 15) ;;      (* Convention for shadow maps. *)
    call (gl.ActiveTexture (uint32 (gl.TEXTURE0 + 15))) ;;
    call (gl.BindTexture gl.TEXTURE_2D (Shtex d)) ;;
    check_uniform d key ref
  else if String.prefix "uv" key then
    (* Map the texture order to the texture variable names. *)
    let index := Sscanf_uv key in
    match List.find (fun t => order t =? index) (Texs d) with
    | Some t =>
        call (gl.Uniform1i ref (int32 (order t))) ;;
        call (gl.ActiveTexture (uint32 (gl.TEXTURE0 + uint32 (order t)))) ;;
        call (gl.BindTexture gl.TEXTURE_2D (tid t))
    | None => mret tt
    end ;;
    check_uniform d key ref
  else
    (* Everything else is uniform float or matrix data. *)
    match UniformData d !! ref with
    | None => log (NoUniformData (Tag d) key)       (* continue *)
    | Some data =>
        match data with
        | [a] => call (gl.Uniform1f ref a)
        | [a; b] => call (gl.Uniform2f ref a b)
        | [a; b; c] => call (gl.Uniform3f ref a b c)
        | [a; b; c; e] => call (gl.Uniform4f ref a b c e)
        | _ =>
            if (Z.of_nat (length data) =? 16) then
              call (gl.UniformMatrix4fv ref 1 false data)   (* 4x4 matrix. *)
            else log (FailedToBind (Tag d) key (Z.of_nat (length data)))
        end ;;
        check_uniform d key ref
    end.

Fixpoint bindUniforms_loop (d : Draw) (us : list (string * Z)) : M unit :=
  match us with
  | [] => mret tt
  | (key, ref) :: us => bindUniform d key ref ;; bindUniforms_loop d us
  end.

Definition bindUniforms (gc : opengl) (d : Draw) : M unit :=
  bindUniforms_loop d (Uniforms d).

Definition Render (gc : opengl) (d : Draw) : M opengl :=
  when (Scissor d)
    (call (gl.Enable gl.SCISSOR_TEST) ;;          (* Each scissor draw needs to... *)
     call (gl.Scissor (Sx d) (Sy d) (Sw d) (Sh d))) ;; (* ... define its own area. *)
  (* switch state only if necessary. *)
  gc ← (if negb (eqb (depthTest gc) (Depth d)) then
          (if Depth d then call (gl.Enable gl.DEPTH_TEST)
           else call (gl.Disable gl.DEPTH_TEST)) ;;
          mret (set_depthTest (Depth d) gc)
        else mret gc);
  (* switch render framebuffer only if necessary. *)
  gc ← (if negb (fbo gc =? Fbo d) then
          call (gl.BindFramebuffer gl.FRAMEBUFFER (Fbo d)) ;;
          (if Fbo d =? 0 then call (gl.Viewport 0 0 (vw gc) (vh gc))
           else
             call (gl.Clear gl.DEPTH_BUFFER_BIT) ;;
             call (gl.Viewport 0 0 LayerSize LayerSize)) ;; (* framebuffer texture. *)
          mret (set_fbo (Fbo d) gc)
        else mret gc);
  (* switch shaders only if necessary. *)
  gc ← (if negb (shader gc =? Shader d) then
          call (gl.UseProgram (Shader d)) ;;
          mret (set_shader (Shader d) gc)
        else mret gc);
  (* Ask the model to bind its provisioned uniforms. *)
  bindUniforms gc d ;;
  (* bind the data buffers and render. *)
  call (gl.BindVertexArray (Vao d)) ;;
  match mode d with
  | Lines =>
      call (gl.PolygonMode gl.FRONT_AND_BACK gl.LINE) ;;
      call (gl.DrawElements gl.LINES (FaceCnt d) gl.UNSIGNED_SHORT 0) ;;
      call (gl.PolygonMode gl.FRONT_AND_BACK gl.FILL)
  | Points =>
      call (gl.Enable gl.PROGRAM_POINT_SIZE) ;;
      call (gl.DrawArrays gl.POINTS 0 (VertCnt d)) ;;
      call (gl.Disable gl.PROGRAM_POINT_SIZE)
  | Triangles =>
      if 0 <? Instances d then
        call (gl.DrawElementsInstanced gl.TRIANGLES (FaceCnt d) gl.UNSIGNED_SHORT 0 (Instances d))
      else call (gl.DrawElements gl.TRIANGLES (FaceCnt d) gl.UNSIGNED_SHORT 0)
  | OtherMode _ => mret tt
  end ;;
  call (gl.BindVertexArray 0) ;;
  when (Scissor d) (call (gl.Disable gl.SCISSOR_TEST)) ;;
  mret gc.


(** *** Mesh buffers (render.Data)

    The two implementations of the interface [render.Data] are declared in
    a file that is not among the sources; their fields are the ones the
    binder reads and writes. *)

Record vertexData := mkVertexData {
  vd_lloc : Z;                 (* layout location *)
  vd_span : Z;                 (* values per vertex *)
  vd_usage : Z;                (* StaticDraw or DynamicDraw *)
  vd_normalize : bool;
  vd_instanced : bool;
  vd_floats : list float32;
  vd_floats_cap : Z;           (* cap(vd.floats) *)
  vd_bytes : list Z;
  vd_ref : Z;                  (* GPU buffer, 0 when there is none *)
  vd_rebind : bool             (* data needs to be sent to the GPU *)
}.

Record faceData := mkFaceData {
  fd_usage : Z;
  fd_data : list Z;            (* uint16 indices *)
  fd_ref : Z;
  fd_rebind : bool
}.

Inductive Data :=
| VD (vd : vertexData)
| FD (fd : faceData).

Definition vd_set_ref (r : Z) (vd : vertexData) : vertexData :=
  mkVertexData (vd_lloc vd) (vd_span vd) (vd_usage vd) (vd_normalize vd)
    (vd_instanced vd) (vd_floats vd) (vd_floats_cap vd) (vd_bytes vd) r (vd_rebind vd).
Definition vd_set_rebind (b : bool) (vd : vertexData) : vertexData :=
  mkVertexData (vd_lloc vd) (vd_span vd) (vd_usage vd) (vd_normalize vd)
    (vd_instanced vd) (vd_floats vd) (vd_floats_cap vd) (vd_bytes vd) (vd_ref vd) b.
Definition fd_set_ref (r : Z) (fd : faceData) : faceData :=
  mkFaceData (fd_usage fd) (fd_data fd) r (fd_rebind fd).
Definition fd_set_rebind (b : bool) (fd : faceData) : faceData :=
  mkFaceData (fd_usage fd) (fd_data fd) (fd_ref fd) b.

Definition len {A : Type} (l : list A) : Z := Z.of_nat (length l).

(** The four rows of an instanced transform matrix. *)
Definition instanced_rows (vd : vertexData) : M unit :=
  let rowBytes := 4 * 4 in           (* 4 floats of 4 bytes each per row. *)
  let matrixBytes := 4 * 4 * 4 in    (* 4 rows of 4 floats of 4 bytes. *)
  foldr (fun cnt rest =>
           call (gl.EnableVertexAttribArray (uint32 (vd_lloc vd + cnt))) ;;
           call (gl.VertexAttribPointer (uint32 (vd_lloc vd + cnt)) 4 gl.FLOAT false
                   matrixBytes (uint32 (cnt * rowBytes))) ;;
           call (gl.VertexAttribDivisor (uint32 (vd_lloc vd + cnt)) 1) ;;
           rest)
        (mret tt) [0; 1; 2; 3].

(** bindVertexBuffer copies per-vertex data from the CPU to the GPU. *)
Definition bindVertexBuffer (gc : opengl) (vdata : Data) : M Data :=
  match vdata with
  | VD vd =>
      vd ← (if vd_ref vd =? 0 then
              r ← gen gl.GenBuffers; mret (vd_set_ref r vd)
            else mret vd);
      let bytes := 4 in   (* 4 bytes for float32 (gl.FLOAT) *)
      (if vd_usage vd =? StaticDraw then
         if 0 <? len (vd_floats vd) then
           call (gl.BindBuffer gl.ARRAY_BUFFER (vd_ref vd)) ;;
           call (gl.BufferData gl.ARRAY_BUFFER (len (vd_floats vd) * bytes)
                   (gl.Floats (vd_floats vd)) (vd_usage vd)) ;;
           call (gl.VertexAttribPointer (vd_lloc vd) (vd_span vd) gl.FLOAT false 0 0) ;;
           (if vd_instanced vd then instanced_rows vd
            else call (gl.EnableVertexAttribArray (vd_lloc vd)))
         else if 0 <? len (vd_bytes vd) then
           call (gl.BindBuffer gl.ARRAY_BUFFER (vd_ref vd)) ;;
           call (gl.BufferData gl.ARRAY_BUFFER (len (vd_bytes vd))
                   (gl.Bytes (vd_bytes vd)) (vd_usage vd)) ;;
           call (gl.VertexAttribPointer (vd_lloc vd) (vd_span vd) gl.UNSIGNED_BYTE
                   (vd_normalize vd) 0 0) ;;
           call (gl.EnableVertexAttribArray (vd_lloc vd))
         else mret tt
       else if vd_usage vd =? DynamicDraw then
         if 0 <? len (vd_floats vd) then
           call (gl.BindBuffer gl.ARRAY_BUFFER (vd_ref vd)) ;;
           (* Buffer orphaning, a common way to improve streaming perf. *)
           call (gl.BufferData gl.ARRAY_BUFFER (vd_floats_cap vd * bytes)
                   gl.Null (vd_usage vd)) ;;
           call (gl.BufferSubData gl.ARRAY_BUFFER 0 (len (vd_floats vd) * bytes)
                   (gl.Floats (vd_floats vd))) ;;
           call (gl.VertexAttribPointer (vd_lloc vd) (vd_span vd) gl.FLOAT false 0 0) ;;
           call (gl.EnableVertexAttribArray (vd_lloc vd))
         else mret tt
       else mret tt) ;;
      call (gl.BindBuffer gl.ARRAY_BUFFER 0) ;;
      mret (VD vd)
  | FD _ => mret vdata
  end.

(** bindFaceBuffer copies triangle face data from the CPU to the GPU.
    Its only caller passes a [*faceData]. *)
Definition bindFaceBuffer (gc : opengl) (fd : faceData) : M faceData :=
  if 0 <? len (fd_data fd) then
    fd ← (if fd_ref fd =? 0 then
            r ← gen gl.GenBuffers; mret (fd_set_ref r fd)
          else mret fd);
    call (gl.BindBuffer gl.ELEMENT_ARRAY_BUFFER (fd_ref fd)) ;;
    let bytes := 2 in   (* 2 bytes for uint16 (gl.UNSIGNED_SHORT) *)
    call (gl.BufferData gl.ELEMENT_ARRAY_BUFFER (len (fd_data fd) * bytes)
            (gl.Shorts (fd_data fd)) (fd_usage fd)) ;;
    mret fd
  else mret fd.

(** The loop of [BindMesh] over the vertex buffers.  [keys] is the order in
    which the range statement visits the map; the buffers are pointers,
    so each iteration reads the buffer as it is by then. *)
Fixpoint bindVertexBuffers (gc : opengl) (keys : list Z) (vdata : gmap Z Data)
    : M (gmap Z Data) :=
  match keys with
  | [] => mret vdata
  | k :: keys =>
      vdata ← match vdata !! k with
              | Some (VD vd) =>
                  if vd_rebind vd then
                    vbuff ← bindVertexBuffer gc (VD vd);
                    match vbuff with
                    | VD vd => mret (<[k := VD (vd_set_rebind false vd)]> vdata)
                    | FD _ => mret vdata
                    end
                  else mret vdata
              | _ => mret vdata
              end;
      bindVertexBuffers gc keys vdata
  end.

(** BindMesh copies the given mesh data to the GPU and initializes the vao
    and buffer references.  The result carries what the call leaves in
    [*vao], in the buffers of [vdata] and in [fdata]. *)
Definition BindMesh (gc : opengl) (keys : list Z)
    (vao : Z) (vdata : gmap Z Data) (fdata : option Data)
    : M (option error * Z * gmap Z Data * option Data) :=
  glerr ← GetError;
  if negb (glerr =? gl.NO_ERROR) then
    mret (Some (BindMeshPriorError glerr), vao, vdata, fdata)
  else
    (* Reuse existing vao's. *)
    vao ← (if vao =? 0 then gen gl.GenVertexArrays else mret vao);
    call (gl.BindVertexArray vao) ;;
    vdata ← bindVertexBuffers gc keys vdata;
    glerr ← GetError;
    if negb (glerr =? gl.NO_ERROR) then
      mret (Some (BindMeshVbFailed glerr), vao, vdata, fdata)
    else
      fdata ← match fdata with
              | Some (FD fd) =>
                  if fd_rebind fd then
                    fd ← bindFaceBuffer gc fd;
                    mret (Some (FD (fd_set_rebind false fd)))
                  else mret fdata
              | _ => mret fdata
              end;
      glerr ← GetError;
      if negb (glerr =? gl.NO_ERROR) then
        mret (Some (BindMeshFbFailed glerr), vao, vdata, fdata)
      else
        call (gl.BindVertexArray 0) ;;
        mret (None, vao, vdata, fdata).

(** BindShader compiles the shader and makes it available to the GPU.  The
    uniform and layout tables [gl.Uniforms] and [gl.Layouts] fill in are
    the device's and are not followed here. *)
Definition BindShader (gc : opengl) (vsh fsh : list string) : M (Z * option error) :=
  program ← gen gl.CreateProgram;
  (* compile and link the shader program. *)
  glerr ← BindProgram program vsh fsh;
  match glerr with
  | Some msg => mret (program, Some (ShaderProgramFailed msg))
  | None =>
      (* initialize the uniform and layout references *)
      call (gl.Uniforms program) ;;
      call (gl.Layouts program) ;;
      glerr ← GetError;
      when (negb (glerr =? gl.NO_ERROR)) (log (ShaderBindError glerr)) ;;
      mret (program, None)
  end.

(** SetTextureMode is used to switch to a clamped texture instead of a
    repeating texture. *)
Definition SetTextureMode (gc : opengl) (tid : Z) (clamp : bool) : M unit :=
  call (gl.BindTexture gl.TEXTURE_2D tid) ;;
  call (gl.TexParameteri gl.TEXTURE_2D gl.TEXTURE_MAX_LEVEL 7) ;;
  (if clamp then
     call (gl.TexParameteri gl.TEXTURE_2D gl.TEXTURE_WRAP_S gl.CLAMP_TO_EDGE) ;;
     call (gl.TexParameteri gl.TEXTURE_2D gl.TEXTURE_WRAP_T gl.CLAMP_TO_EDGE)
   else
     call (gl.TexParameteri gl.TEXTURE_2D gl.TEXTURE_WRAP_S gl.REPEAT) ;;
     call (gl.TexParameteri gl.TEXTURE_2D gl.TEXTURE_WRAP_T gl.REPEAT)) ;;
  call (gl.TexParameteri gl.TEXTURE_2D gl.TEXTURE_MAG_FILTER gl.LINEAR) ;;
  call (gl.TexParameteri gl.TEXTURE_2D gl.TEXTURE_MIN_FILTER gl.NEAREST_MIPMAP_LINEAR).

(** An [image.Image] as [BindTexture] looks at it: its dynamic type, the
    width and height of its bounds, and for the two RGBA types the pixel
    bytes. *)
Inductive image :=
| RGBA (dx dy : Z) (Pix : list Z)
| NRGBA (dx dy : Z) (Pix : list Z)
| OtherImage (type : string) (dx dy : Z).

Definition image_size (img : image) : Z * Z :=
  match img with
  | RGBA dx dy _ | NRGBA dx dy _ | OtherImage _ dx dy => (dx, dy)
  end.

(** How a call ends: it returns, or the Go runtime panics. *)
Inductive outcome (A : Type) :=
| Returned (a : A)
| Panicked (why : string).
Arguments Returned {A} a.
Arguments Panicked {A} why.

(** BindTexture makes the texture available on the GPU.  The second
    component of the result is what the call leaves in [*tid]. *)
Definition BindTexture (gc : opengl) (tid : Z) (img : image)
    : M (outcome (option error) * Z) :=
  glerr ← GetError;
  when (negb (glerr =? gl.NO_ERROR)) (log (BindTexturePriorError glerr)) ;;
  tid ← (if tid =? 0 then gen gl.GenTextures else mret tid);
  call (gl.BindTexture gl.TEXTURE_2D tid) ;;
  let '(width, height) := (int32 (image_size img).1, int32 (image_size img).2) in
  let upload (Pix : list Z) : M (outcome (option error) * Z) :=
    match Pix with
    | [] => mret (Panicked "index out of range", tid)     (* &(i.Pix[0]) *)
    | _ =>
        call (gl.TexImage2D gl.TEXTURE_2D 0 gl.RGBA width height 0 gl.RGBA
                gl.UNSIGNED_BYTE (gl.Bytes Pix)) ;;
        call (gl.GenerateMipmap gl.TEXTURE_2D) ;;
        SetTextureMode gc tid false ;;    (* no repeat by default. *)
        glerr ← GetError;
        if negb (glerr =? gl.NO_ERROR) then
          mret (Returned (Some (FailedBindingTexture glerr)), tid)
        else mret (Returned None, tid)
    end in
  match img with
  | RGBA _ _ Pix => upload Pix
  | NRGBA _ _ Pix => upload Pix
  | OtherImage type _ _ => mret (Returned (Some (UnsupportedImageFormat type)), tid)
  end.

(** BindTarget creates a framebuffer object that can be used as render
    target. The buffer has both color and depth.  The result carries what
    the call leaves in [*fbo], [*tid] and [*db]. *)
Definition BindTarget (gc : opengl) (fbo0 tid0 db0 : Z) : M (option error * Z * Z * Z) :=
  let size := int32 LayerSize in
  fbo ← gen gl.GenFramebuffers;
  call (gl.BindFramebuffer gl.FRAMEBUFFER fbo) ;;
  (* Create a texture specifically for the framebuffer. *)
  tid ← gen gl.GenTextures;
  call (gl.BindTexture gl.TEXTURE_2D tid) ;;
  call (gl.TexImage2D gl.TEXTURE_2D 0 gl.RGBA size size 0 gl.RGBA gl.UNSIGNED_BYTE gl.Null) ;;
  call (gl.TexParameteri gl.TEXTURE_2D gl.TEXTURE_MAG_FILTER gl.NEAREST) ;;
  call (gl.TexParameteri gl.TEXTURE_2D gl.TEXTURE_MIN_FILTER gl.NEAREST) ;;
  (* Add a depth buffer to mimic the normal framebuffer behaviour for 3D objects. *)
  db ← gen gl.GenRenderbuffers;
  call (gl.BindRenderbuffer gl.RENDERBUFFER db) ;;
  call (gl.RenderbufferStorage gl.RENDERBUFFER gl.DEPTH_COMPONENT size size) ;;
  call (gl.FramebufferRenderbuffer gl.FRAMEBUFFER gl.DEPTH_ATTACHMENT gl.RENDERBUFFER db) ;;
  (* Associate the texture with the framebuffer. *)
  call (gl.FramebufferTexture gl.FRAMEBUFFER gl.COLOR_ATTACHMENT0 tid 0) ;;
  call (gl.DrawBuffers [gl.COLOR_ATTACHMENT0]) ;;
  (* Report any problems. *)
  glerr ← CheckFramebufferStatus gl.FRAMEBUFFER;
  if negb (glerr =? gl.FRAMEBUFFER_COMPLETE) then
    mret (Some (BindFrameError glerr), fbo, tid, db)
  else
    glerr ← GetError;
    let err := if negb (glerr =? gl.NO_ERROR)
               then Some (FailedBindingFramebuffer glerr) else None in
    call (gl.BindFramebuffer gl.FRAMEBUFFER 0) ;; (* clean up by resetting to default framebuffer. *)
    mret (err, fbo, tid, db).

(** BindMap creates a framebuffer object with an associated texture.  This
    has depth, but no color. Expected to be used for shadow maps. *)
Definition BindMap (gc : opengl) (fbo0 tid0 : Z) : M (option error * Z * Z) :=
  let size := int32 LayerSize in
  fbo ← gen gl.GenFramebuffers;
  call (gl.BindFramebuffer gl.FRAMEBUFFER fbo) ;;
  (* Create a texture specifically for the framebuffer. *)
  tid ← gen gl.GenTextures;
  call (gl.BindTexture gl.TEXTURE_2D tid) ;;
  call (gl.TexImage2D gl.TEXTURE_2D 0 gl.DEPTH_COMPONENT16 size size 0
          gl.DEPTH_COMPONENT gl.FLOAT gl.Null) ;;
  call (gl.TexParameteri gl.TEXTURE_2D gl.TEXTURE_MAG_FILTER gl.LINEAR) ;;
  call (gl.TexParameteri gl.TEXTURE_2D gl.TEXTURE_MIN_FILTER gl.LINEAR) ;;
  call (gl.TexParameteri gl.TEXTURE_2D gl.TEXTURE_WRAP_S gl.CLAMP_TO_EDGE) ;;
  call (gl.TexParameteri gl.TEXTURE_2D gl.TEXTURE_WRAP_T gl.CLAMP_TO_EDGE) ;;
  call (gl.TexParameteri gl.TEXTURE_2D gl.TEXTURE_COMPARE_FUNC gl.LEQUAL) ;;
  call (gl.TexParameteri gl.TEXTURE_2D gl.TEXTURE_COMPARE_MODE gl.COMPARE_REF_TO_TEXTURE) ;;
  (* Associate the texture with the framebuffer. *)
  call (gl.FramebufferTexture gl.FRAMEBUFFER gl.DEPTH_ATTACHMENT tid 0) ;;
  call (gl.DrawBuffer gl.NONE) ;;
  (* Report any problems. *)
  glerr ← CheckFramebufferStatus gl.FRAMEBUFFER;
  if negb (glerr =? gl.FRAMEBUFFER_COMPLETE) then
    mret (Some (BindFrameError glerr), fbo, tid)
  else
    glerr ← GetError;
    let err := if negb (glerr =? gl.NO_ERROR)
               then Some (FailedBindingFramebuffer glerr) else None in
    call (gl.BindFramebuffer gl.FRAMEBUFFER 0) ;; (* clean up by resetting to default framebuffer. *)
    mret (err, fbo, tid).


(** ** mesh.go *)

(** What [SetData] and [SetFaces] are handed as [interface{}]. *)
Inductive payload :=
| PFloats (data : list float32)
| PBytes (data : list Z)
| PShorts (data : list Z)       (* []uint16 *)
| POther.

(** The methods and constructors of [render.Data] the mesh store calls.
    Their file is not among the sources, so they are parameters. *)
Class DataOps := {
  Len : Data -> Z;
  Set_ : Data -> payload -> Data;
  NewVertexData : Z -> Z -> Z -> bool -> Data;
  NewFaceData : Z -> Data
}.

Record Mesh := mkMesh {
  name : string;            (* Unique mesh name. *)
  tag : Z;                  (* name and type as a number. *)
  vao : Z;                  (* GPU reference for the mesh and all buffers. *)
  rebind : bool;            (* True if data needs to be sent to the GPU. *)
  faces : option Data;      (* Triangle face indicies; None is nil. *)
  vdata : gmap Z Data       (* Per-vertex data values. *)
}.

Definition set_rebind (b : bool) (m : Mesh) : Mesh :=
  mkMesh (name m) (tag m) (vao m) b (faces m) (vdata m).
Definition set_faces (f : option Data) (m : Mesh) : Mesh :=
  mkMesh (name m) (tag m) (vao m) (rebind m) f (vdata m).
Definition set_vdata (v : gmap Z Data) (m : Mesh) : Mesh :=
  mkMesh (name m) (tag m) (vao m) (rebind m) (faces m) v.

(** newMesh allocates space for a mesh structure; [tag] is the asset
    identifier [assetID(msh, name)], computed outside these sources. *)
Definition newMesh (name : string) (tag : Z) : Mesh :=
  mkMesh name tag 0 false None ∅.

Section MeshStore.
Context `{DataOps}.

Definition counts (m : Mesh) : outcome (Z * Z) :=
  let faces := match faces m with Some f => Len f | None => 0 end in
  if (0 <? Z.of_nat (size (vdata m))) then
    match vdata m !! 0 with
    | Some v => Returned (faces, Len v)
    | None => Panicked "nil pointer dereference"   (* m.vdata[0] is nil *)
    end
  else Returned (faces, 0).

(** InitData creates a vertex data buffer. *)
Definition InitData (m : Mesh) (lloc span usage : Z) (normalize : bool) : Mesh :=
  match vdata m !! lloc with
  | Some _ => m
  | None => set_vdata (<[lloc := NewVertexData lloc span usage normalize]> (vdata m)) m
  end.

(** SetData stores data in the specified vertex buffer.  Marks the mesh as
    needing a rebind. *)
Definition SetData (m : Mesh) (lloc : Z) (data : payload) : Mesh :=
  match vdata m !! lloc with
  | Some v => set_rebind true (set_vdata (<[lloc := Set_ v data]> (vdata m)) m)
  | None => m
  end.

(** InitFaces creates a triangle face index buffer. *)
Definition InitFaces (m : Mesh) (usage : Z) : Mesh :=
  match faces m with
  | None => set_faces (Some (NewFaceData usage)) m
  | Some _ => m
  end.

(** SetFaces stores data for a triangle face index buffer.  Marks the mesh
    as needing a rebind. *)
Definition SetFaces (m : Mesh) (data : list Z) : Mesh :=
  match faces m with
  | Some f => set_rebind true (set_faces (Some (Set_ f (PShorts data))) m)
  | None => m
  end.
End MeshStore.

(** Modelled from the spec: [engine.bind] for a mesh (the engine is not
    among the sources): "Device Resource Binder ensures underlying GPU
    objects are current (uploading any dirty vertex/index data via the
    Buffer Store)", that is, the engine hands the mesh's vertex array
    handle, vertex buffers and face buffer to the binder's [BindMesh]. *)
Definition engine_bind (gc : opengl) (keys : list Z) (m : Mesh) : M (option error * Mesh) :=
  '(err, vao, vdata, fdata) ← BindMesh gc keys (vao m) (vdata m) (faces m);
  mret (err, mkMesh (name m) (tag m) vao (rebind m) fdata vdata).

(** bind updates the mesh on the GPU. *)
Definition Mesh_bind (gc : opengl) (keys : list Z) (m : Mesh) : M (option error * Mesh) :=
  let m := set_rebind false m in
  engine_bind gc keys m.

(** The order in which a range statement may visit a map: its keys, each
    once, in any order. *)
Definition range_order (keys : list Z) (vdata : gmap Z Data) : Prop :=
  keys ≡ₚ (map_to_list vdata).*1.

(** Modelled from the spec: render/data.go, used to run the mesh store on
    examples.  [Set] "replaces payload and marks [the buffer] dirty"; [Len]
    of a vertex buffer is its "vertex count", the values held divided by
    the "stride (values per vertex)" (0 for stride 0), and [Len] of the
    face buffer is "the face buffer length"; a new buffer holds no data. *)
#[export] Instance data_go : DataOps := {
  Len d := match d with
           | VD vd => Z.quot (len (vd_floats vd) + len (vd_bytes vd)) (vd_span vd)
           | FD fd => len (fd_data fd)
           end;
  Set_ d p :=
    match d, p with
    | VD vd, PFloats l =>
        VD (mkVertexData (vd_lloc vd) (vd_span vd) (vd_usage vd) (vd_normalize vd)
              (vd_instanced vd) l (len l) (vd_bytes vd) (vd_ref vd) true)
    | VD vd, PBytes l =>
        VD (mkVertexData (vd_lloc vd) (vd_span vd) (vd_usage vd) (vd_normalize vd)
              (vd_instanced vd) (vd_floats vd) (vd_floats_cap vd) l (vd_ref vd) true)
    | FD fd, PShorts l => FD (mkFaceData (fd_usage fd) l (fd_ref fd) true)
    | _, _ => d
    end;
  NewVertexData lloc span usage normalize :=
    VD (mkVertexData lloc span usage normalize false [] 0 [] 0 false);
  NewFaceData usage := FD (mkFaceData usage [] 0 false)
}.

(** ** Counting device calls in a trace *)

Definition is_UseProgram (e : event) : bool :=
  match e with Gl (gl.UseProgram _) => true | _ => false end.
Definition is_BindFramebuffer (e : event) : bool :=
  match e with Gl (gl.BindFramebuffer _ _) => true | _ => false end.
Definition is_depth_toggle (e : event) : bool :=
  match e with
  | Gl (gl.Enable cap) | Gl (gl.Disable cap) => cap =? gl.DEPTH_TEST
  | _ => false
  end.
Definition is_scissor_enable (e : event) : bool :=
  match e with Gl (gl.Enable cap) => cap =? gl.SCISSOR_TEST | _ => false end.
Definition is_BufferData (e : event) : bool :=
  match e with Gl (gl.BufferData _ _ _ _) => true | _ => false end.
Definition is_upload (e : event) : bool :=
  match e with
  | Gl (gl.BufferData _ _ _ _) | Gl (gl.BufferSubData _ _ _ _) => true
  | _ => false
  end.
Definition is_uniform_call (e : event) : bool :=
  match e with
  | Gl (gl.Uniform1i _ _) | Gl (gl.Uniform1f _ _) | Gl (gl.Uniform2f _ _ _)
  | Gl (gl.Uniform3f _ _ _ _) | Gl (gl.Uniform4f _ _ _ _ _)
  | Gl (gl.UniformMatrix4fv _ _ _ _) | Gl (gl.UniformMatrix3x4fv _ _ _ _) => true
  | _ => false
  end.

Definition count (p : event -> bool) (t : list event) : nat :=
  length (List.filter p t).

(** A sequence of draws submitted through [Render] on one context. *)
Fixpoint RenderAll (gc : opengl) (ds : list Draw) : M opengl :=
  match ds with
  | [] => mret gc
  | d :: ds => gc ← Render gc d; RenderAll gc ds
  end.


(** ** The events of one [Render] call, piece by piece *)

Definition scissor_on (d : Draw) : list event :=
  if Scissor d then
    [Gl (gl.Enable gl.SCISSOR_TEST); Gl (gl.Scissor (Sx d) (Sy d) (Sw d) (Sh d))]
  else [].

Definition depth_switch (gc : opengl) (d : Draw) : list event :=
  if negb (eqb (depthTest gc) (Depth d)) then
    [Gl (if Depth d then gl.Enable gl.DEPTH_TEST else gl.Disable gl.DEPTH_TEST)]
  else [].

Definition fbo_switch (gc : opengl) (d : Draw) : list event :=
  if negb (fbo gc =? Fbo d) then
    Gl (gl.BindFramebuffer gl.FRAMEBUFFER (Fbo d)) ::
    (if Fbo d =? 0 then [Gl (gl.Viewport 0 0 (vw gc) (vh gc))]
     else [Gl (gl.Clear gl.DEPTH_BUFFER_BIT); Gl (gl.Viewport 0 0 LayerSize LayerSize)])
  else [].

Definition shader_switch (gc : opengl) (d : Draw) : list event :=
  if negb (shader gc =? Shader d) then [Gl (gl.UseProgram (Shader d))] else [].

Definition draw_calls (d : Draw) : list event :=
  match mode d with
  | Lines =>
      [Gl (gl.PolygonMode gl.FRONT_AND_BACK gl.LINE);
       Gl (gl.DrawElements gl.LINES (FaceCnt d) gl.UNSIGNED_SHORT 0);
       Gl (gl.PolygonMode gl.FRONT_AND_BACK gl.FILL)]
  | Points =>
      [Gl (gl.Enable gl.PROGRAM_POINT_SIZE);
       Gl (gl.DrawArrays gl.POINTS 0 (VertCnt d));
       Gl (gl.Disable gl.PROGRAM_POINT_SIZE)]
  | Triangles =>
      if 0 <? Instances d then
        [Gl (gl.DrawElementsInstanced gl.TRIANGLES (FaceCnt d) gl.UNSIGNED_SHORT 0
               (Instances d))]
      else [Gl (gl.DrawElements gl.TRIANGLES (FaceCnt d) gl.UNSIGNED_SHORT 0)]
  | OtherMode _ => []
  end.

Definition scissor_off (d : Draw) : list event :=
  if Scissor d then [Gl (gl.Disable gl.SCISSOR_TEST)] else [].

Definition state_switches (gc : opengl) (d : Draw) : list event :=
  scissor_on d ++ depth_switch gc d ++ fbo_switch gc d ++ shader_switch gc d.

(** The events an iteration of [bindUniforms] can produce. *)
Definition uniform_event (e : event) : bool :=
  match e with
  | Gl (gl.Uniform1i _ _) | Gl (gl.Uniform1f _ _) | Gl (gl.Uniform2f _ _ _)
  | Gl (gl.Uniform3f _ _ _ _) | Gl (gl.Uniform4f _ _ _ _ _)
  | Gl (gl.UniformMatrix4fv _ _ _ _) | Gl (gl.UniformMatrix3x4fv _ _ _ _)
  | Gl (gl.ActiveTexture _) | Gl (gl.BindTexture _ _) | Gl (gl.GetError _)
  | Log _ => true
  | _ => false
  end.

(** A computation whose final device state is the replay of its events. *)
Definition sound {A : Type} (m : M A) : Prop :=
  forall s, device_of (m s) = replay (events_of (m s)) s.

(** A computation all of whose events satisfy [p]. *)
Definition emits {A : Type} (p : event -> bool) (m : M A) : Prop :=
  forall s, forallb p (events_of (m s)) = true.

(** The steps of [Render], named. *)
Definition scissor_begin (d : Draw) : M unit :=
  when (Scissor d)
    (call (gl.Enable gl.SCISSOR_TEST) ;;
     call (gl.Scissor (Sx d) (Sy d) (Sw d) (Sh d))).

Definition switch_depth (gc : opengl) (d : Draw) : M opengl :=
  if negb (eqb (depthTest gc) (Depth d)) then
    (if Depth d then call (gl.Enable gl.DEPTH_TEST)
     else call (gl.Disable gl.DEPTH_TEST)) ;;
    mret (set_depthTest (Depth d) gc)
  else mret gc.

Definition switch_fbo (gc : opengl) (d : Draw) : M opengl :=
  if negb (fbo gc =? Fbo d) then
    call (gl.BindFramebuffer gl.FRAMEBUFFER (Fbo d)) ;;
    (if Fbo d =? 0 then call (gl.Viewport 0 0 (vw gc) (vh gc))
     else
       call (gl.Clear gl.DEPTH_BUFFER_BIT) ;;
       call (gl.Viewport 0 0 LayerSize LayerSize)) ;;
    mret (set_fbo (Fbo d) gc)
  else mret gc.

Definition switch_shader (gc : opengl) (d : Draw) : M opengl :=
  if negb (shader gc =? Shader d) then
    call (gl.UseProgram (Shader d)) ;;
    mret (set_shader (Shader d) gc)
  else mret gc.

Definition draw_primitive (d : Draw) : M unit :=
  match mode d with
  | Lines =>
      call (gl.PolygonMode gl.FRONT_AND_BACK gl.LINE) ;;
      call (gl.DrawElements gl.LINES (FaceCnt d) gl.UNSIGNED_SHORT 0) ;;
      call (gl.PolygonMode gl.FRONT_AND_BACK gl.FILL)
  | Points =>
      call (gl.Enable gl.PROGRAM_POINT_SIZE) ;;
      call (gl.DrawArrays gl.POINTS 0 (VertCnt d)) ;;
      call (gl.Disable gl.PROGRAM_POINT_SIZE)
  | Triangles =>
      if 0 <? Instances d then
        call (gl.DrawElementsInstanced gl.TRIANGLES (FaceCnt d) gl.UNSIGNED_SHORT 0 (Instances d))
      else call (gl.DrawElements gl.TRIANGLES (FaceCnt d) gl.UNSIGNED_SHORT 0)
  | OtherMode _ => mret tt
  end.

Definition scissor_end (d : Draw) : M unit :=
  when (Scissor d) (call (gl.Disable gl.SCISSOR_TEST)).

(** What [Render] does after the uniforms are bound. *)
Definition draw_events (d : Draw) : list event :=
  Gl (gl.BindVertexArray (Vao d)) ::
  draw_calls d ++ Gl (gl.BindVertexArray 0) :: scissor_off d.

(** The context [Render] leaves behind. *)
Definition rendered (gc : opengl) (d : Draw) : opengl :=
  mkOpengl (Depth d) (Shader d) (Fbo d) (vw gc) (vh gc).


(** The number of positions of a sequence of values at which the value
    differs from the one before it, [last] standing before the first. *)
Fixpoint switches {A : Type} (same : A -> A -> bool) (last : A) (vals : list A) : nat :=
  match vals with
  | [] => 0
  | v :: vals => ((if same last v then 0 else 1) + switches same v vals)%nat
  end.

(** Events that switch the capability [cap] on or off. *)
Definition touches_cap (cap : Z) (e : event) : bool :=
  match e with
  | Gl (gl.Enable c) | Gl (gl.Disable c) => c =? cap
  | _ => false
  end.

Definition leaves_cap (cap : Z) (e : event) : bool := negb (touches_cap cap e).


(** ** Sample values *)

(** A device on which nothing is enabled or bound yet, with a window of
    800 by 600 and no answers queued (every query then answers "no
    error", "complete"). *)
Definition dev0 : gl.device :=
  gl.mkDevice ∅ (0, 0, 800, 600) (0, 0, 800, 600) 0 0 0 ∅ 1 [] [] [].

(** A plain indexed triangle draw with shader 3 and vertex array 1. *)
Definition draw0 : Draw :=
  mkDraw 3 1 Triangles 36 24 0 [] 0 [] 0 [] ∅ 7 false 0 0 0 0 0 true.

Definition with_Shader (p : Z) (d : Draw) : Draw :=
  mkDraw p (Vao d) (mode d) (FaceCnt d) (VertCnt d) (Instances d) (Poses d)
    (NumPoses d) (Texs d) (Shtex d) (Uniforms d) (UniformData d) (Tag d)
    (Scissor d) (Sx d) (Sy d) (Sw d) (Sh d) (Fbo d) (Depth d).
Definition with_Scissor (x y w h : Z) (d : Draw) : Draw :=
  mkDraw (Shader d) (Vao d) (mode d) (FaceCnt d) (VertCnt d) (Instances d) (Poses d)
    (NumPoses d) (Texs d) (Shtex d) (Uniforms d) (UniformData d) (Tag d)
    true x y w h (Fbo d) (Depth d).
Definition with_Fbo (f : Z) (d : Draw) : Draw :=
  mkDraw (Shader d) (Vao d) (mode d) (FaceCnt d) (VertCnt d) (Instances d) (Poses d)
    (NumPoses d) (Texs d) (Shtex d) (Uniforms d) (UniformData d) (Tag d)
    (Scissor d) (Sx d) (Sy d) (Sw d) (Sh d) f (Depth d).
Definition with_Uniforms (us : list (string * Z)) (data : gmap Z (list float32))
    (d : Draw) : Draw :=
  mkDraw (Shader d) (Vao d) (mode d) (FaceCnt d) (VertCnt d) (Instances d) (Poses d)
    (NumPoses d) (Texs d) (Shtex d) us data (Tag d)
    (Scissor d) (Sx d) (Sy d) (Sw d) (Sh d) (Fbo d) (Depth d).


(** A uniform name that none of the three special cases of [bindUniforms]
    takes: not "bpos", not "sm", not starting with "uv". *)
Definition generic (key : string) : bool :=
  negb (String.eqb key "bpos") && negb (String.eqb key "sm")
  && negb (String.prefix "uv" key).

(** The lengths [bindUniforms] has a uniform call for. *)
Definition bindable (n : nat) : bool :=
  (n =? 1)%nat || (n =? 2)%nat || (n =? 3)%nat || (n =? 4)%nat || (n =? 16)%nat.


(** A draw whose shader expects five generic uniforms: a 4x4 matrix, a
    3-vector, a scalar, one supplied with five values and one supplied
    with nothing. *)
Definition mat16 : list float32 := List.repeat 0 16.
Definition draw_uniforms : Draw :=
  with_Uniforms
    [("mvpm"%string, 1); ("kd"%string, 2); ("alpha"%string, 3);
     ("five"%string, 4); ("none"%string, 5)]
    (<[1 := mat16]> (<[2 := [10; 20; 30]]> (<[3 := [40]]>
       (<[4 := [1; 2; 3; 4; 5]]> ∅))))
    draw0.

(** The specification's words for the dispatch of one generic uniform:
    16 values are bound as a 4x4 matrix, 1 to 4 values as a vector of
    that arity, any other number is reported, and a uniform without data
    is reported too. *)
Definition dispatched (d : Draw) (u : string * Z) : event :=
  let '(key, ref) := u in
  match UniformData d !! ref with
  | None => Log (NoUniformData (Tag d) key)
  | Some data =>
      if bool_decide (length data = 16%nat) then Gl (gl.UniformMatrix4fv ref 1 false data)
      else
        match data with
        | [a] => Gl (gl.Uniform1f ref a)
        | [a; b] => Gl (gl.Uniform2f ref a b)
        | [a; b; c] => Gl (gl.Uniform3f ref a b c)
        | [a; b; c; e] => Gl (gl.Uniform4f ref a b c e)
        | _ => Log (FailedToBind (Tag d) key (Z.of_nat (length data)))
        end
  end.

(** The events by which a generic uniform shows in a trace: the float and
    matrix uniform calls and the two reports. *)
Definition is_dispatch (e : event) : bool :=
  match e with
  | Gl (gl.Uniform1f _ _) | Gl (gl.Uniform2f _ _ _) | Gl (gl.Uniform3f _ _ _ _)
  | Gl (gl.Uniform4f _ _ _ _ _) | Gl (gl.UniformMatrix4fv _ _ _ _) => true
  | Log (NoUniformData _ _) | Log (FailedToBind _ _ _) => true
  | _ => false
  end.

Definition is_GetError (e : event) : bool :=
  match e with Gl (gl.GetError _) => true | _ => false end.

Definition generic_uniform (u : string * Z) : bool := generic u.1.

(** The uniforms whose iteration reaches the error check that closes the
    loop body: all but the generic ones without data, which [continue]. *)
Definition checked (d : Draw) (u : string * Z) : bool :=
  negb (generic u.1) || bool_decide (is_Some (UniformData d !! u.2)).


(** ** Textures *)



(** Calls that give a texture its contents or parameters. *)
Definition is_texture_upload (e : event) : bool :=
  match e with
  | Gl (gl.TexImage2D _ _ _ _ _ _ _ _ _) | Gl (gl.GenerateMipmap _)
  | Gl (gl.TexParameteri _ _ _) => true
  | _ => false
  end.

(** ** The cache of the binder and the state of the device *)



(** Events that leave program, framebuffer and viewport as they are. *)
Definition keeps_bindings (e : event) : bool :=
  match e with
  | Gl (gl.Viewport _ _ _ _) | Gl (gl.BindFramebuffer _ _) | Gl (gl.UseProgram _) => false
  | _ => true
  end.

Definition cache_neutral (e : event) : bool :=
  keeps_bindings e && leaves_cap gl.DEPTH_TEST e.

(** Whether a bind of a render target reported an incomplete framebuffer. *)
Definition incomplete (err : option error) : bool :=
  match err with Some (BindFrameError _) => true | _ => false end.

(** A context that has been given a window of 800 by 600; a draw into
    the off-screen framebuffer 5 on it; and a resize to 800 by 600 after
    that draw. *)
Definition gc_window : opengl := mkOpengl false 0 0 800 600.
Definition offscreen_draw : opengl * gl.device * list event :=
  Render gc_window (with_Fbo 5 draw0) dev0.
Definition resized : opengl * gl.device * list event :=
  Viewport (result_of offscreen_draw) 800 600 (device_of offscreen_draw).


(** A computation that, started in a state satisfying [P], ends with a
    result and a state satisfying [Q]. *)
Definition hoare {A : Type} (P : gl.device -> Prop) (m : M A)
    (Q : A -> gl.device -> Prop) : Prop :=
  forall s, P s -> Q (result_of (m s)) (device_of (m s)).




(** ** Dirty flags *)

(** A vertex buffer (resp. face buffer) whose own rebind flag is down. *)
Definition vd_clean (d : Data) : bool :=
  match d with VD vd => negb (vd_rebind vd) | FD _ => true end.
Definition fd_clean (d : Data) : bool :=
  match d with FD fd => negb (fd_rebind fd) | VD _ => true end.

Definition clean_at (vdata : gmap Z Data) (k : Z) : Prop :=
  forall d, vdata !! k = Some d -> vd_clean d = true.

Definition all_clean (vdata : gmap Z Data) (fdata : option Data) : Prop :=
  (forall k, clean_at vdata k) /\ (forall d, fdata = Some d -> fd_clean d = true).

Definition no_upload (e : event) : bool := negb (is_upload e).

(** Modelled from the spec: the engine's use of the mesh flag (the engine
    is not among the sources).  The buffer store "tracks a dirty flag,
    exposes upload if dirty semantics": a mesh is handed to [bind] only
    while its flag is up. *)
Definition rebind_if_dirty (gc : opengl) (keys : list Z) (m : Mesh)
    : M (option error * Mesh) :=
  if rebind m then Mesh_bind gc keys m else mret (None, m).

(** A mesh with a face buffer of two triangles and one vertex buffer of
    four vertices at layout location [lloc]. *)
Definition quad_at (lloc : Z) : Mesh :=
  SetFaces
    (SetData (InitData (InitFaces (newMesh "quad" 11) StaticDraw) lloc 3 StaticDraw false)
       lloc (PFloats [0; 0; 0; 1; 0; 0; 1; 1; 0; 0; 1; 0]))
    [0; 1; 2; 0; 2; 3].


(** The first bind of the quad on a fresh device, and a device that has
    an error pending. *)
Definition first_bind : option error * Mesh * gl.device * list event :=
  Mesh_bind newRenderer [0] (quad_at 0) dev0.
Definition dev_error : gl.device := gl.set_pending_errors [0x0502] dev0.


(** ** The flow field example: grid cells and their identifiers

    [int] is 64 bits wide; arithmetic wraps, [/] truncates toward zero and
    [%] takes the sign of the dividend. *)

Definition int64 (z : Z) : Z := (z + 2 ^ 63) mod 2 ^ 64 - 2 ^ 63.

Definition is_int64 (z : Z) : Prop := - 2 ^ 63 <= z < 2 ^ 63.

(** fftag.id: Turn x,y map indicies to unique identifiers. *)
Definition ff_id (msize x y : Z) : Z := int64 (int64 (x * msize) + y).

(** fftag.at: Turn unique identifiers to x,y map indicies. *)
Definition ff_at (msize id : Z) : outcome (Z * Z) :=
  if msize =? 0 then Panicked "integer divide by zero"
  else Returned (int64 (Z.quot id msize), Z.rem id msize).


(** ** More on [Render] *)

Definition is_draw_call (e : event) : bool :=
  match e with
  | Gl (gl.DrawElements _ _ _ _) | Gl (gl.DrawArrays _ _ _)
  | Gl (gl.DrawElementsInstanced _ _ _ _ _) => true
  | _ => false
  end.

(** The draws whose mode is one of the three [Render] knows. *)
Definition known_mode (d : Draw) : bool :=
  match mode d with OtherMode _ => false | _ => true end.

Definition is_depth_clear (e : event) : bool :=
  match e with Gl (gl.Clear mask) => mask =? gl.DEPTH_BUFFER_BIT | _ => false end.


(** ** More on [BindMesh] *)

(** Calls that make the device hand out a new name. *)
Definition is_gen (e : event) : bool :=
  match e with
  | Gl (gl.GenVertexArrays _) | Gl (gl.GenBuffers _) | Gl (gl.GenTextures _)
  | Gl (gl.GenFramebuffers _) | Gl (gl.GenRenderbuffers _) | Gl (gl.CreateProgram _) => true
  | _ => false
  end.

Definition no_gen (e : event) : bool := negb (is_gen e).

Definition keeps_vao (e : event) : bool :=
  match e with Gl (gl.BindVertexArray _) => false | _ => true end.

(** Buffers that already have their GPU names. *)
Definition has_handles (vdata : gmap Z Data) (fdata : option Data) : Prop :=
  (forall k vd, vdata !! k = Some (VD vd) -> vd_ref vd <> 0) /\
  (forall fd, fdata = Some (FD fd) -> fd_ref fd <> 0).

(** The vertex buffers [bindVertexBuffer] has an upload for: static ones
    holding floats or bytes, dynamic ones holding floats. *)
Definition uploadable (vd : vertexData) : bool :=
  ((vd_usage vd =? StaticDraw)
   && ((0 <? len (vd_floats vd)) || (0 <? len (vd_bytes vd))))
  || ((vd_usage vd =? DynamicDraw) && (0 <? len (vd_floats vd))).

(** A dynamic vertex buffer holding four colour bytes, flagged for upload. *)
Definition dynamic_bytes : vertexData :=
  mkVertexData 3 4 DynamicDraw true false [] 0 [255; 0; 0; 255] 0 true.


(** A device whose second answer to [GetError] is INVALID_OPERATION. *)
Definition dev_late_error : gl.device := gl.set_pending_errors [0; 0x0502] dev0.

(** A computation all of whose events satisfy [p] and whose result
    satisfies [Q]. *)
Definition emits_with {A : Type} (p : event -> bool) (m : M A) (Q : A -> Prop) : Prop :=
  forall s, forallb p (events_of (m s)) = true /\ Q (result_of (m s)).


(** The quad after its first bind, given new vertex positions. *)
Definition quad_again : Mesh :=
  SetData (result_of first_bind).2 0 (PFloats [0; 0; 0; 2; 0; 0; 2; 2; 0; 0; 2; 0]).


(** ** More on textures, shaders and render targets *)

(** The calls by which [BindTexture] gives texture [tid] its pixels and
    its sampling parameters. *)
Definition texture_upload_events (tid width height : Z) (Pix : list Z) : list event :=
  [Gl (gl.BindTexture gl.TEXTURE_2D tid);
   Gl (gl.TexImage2D gl.TEXTURE_2D 0 gl.RGBA width height 0 gl.RGBA gl.UNSIGNED_BYTE
         (gl.Bytes Pix));
   Gl (gl.GenerateMipmap gl.TEXTURE_2D);
   Gl (gl.BindTexture gl.TEXTURE_2D tid);
   Gl (gl.TexParameteri gl.TEXTURE_2D gl.TEXTURE_MAX_LEVEL 7);
   Gl (gl.TexParameteri gl.TEXTURE_2D gl.TEXTURE_WRAP_S gl.REPEAT);
   Gl (gl.TexParameteri gl.TEXTURE_2D gl.TEXTURE_WRAP_T gl.REPEAT);
   Gl (gl.TexParameteri gl.TEXTURE_2D gl.TEXTURE_MAG_FILTER gl.LINEAR);
   Gl (gl.TexParameteri gl.TEXTURE_2D gl.TEXTURE_MIN_FILTER gl.NEAREST_MIPMAP_LINEAR)].

(** How [BindTexture] opens: the check for a prior error and, for a
    texture without a name, the generation of one. *)
Definition texture_open_events (tid : Z) (s : gl.device) : list event :=
  let e := hd gl.NO_ERROR (gl.pending_errors s) in
  [Gl (gl.GetError e)]
  ++ (if e =? gl.NO_ERROR then [] else [Log (BindTexturePriorError e)])
  ++ (if tid =? 0 then [Gl (gl.GenTextures (gl.next_name s))] else []).

Definition is_rgba (img : image) : bool :=
  match img with RGBA _ _ _ | NRGBA _ _ _ => true | OtherImage _ _ _ => false end.

Definition pixels (img : image) : list Z :=
  match img with RGBA _ _ Pix | NRGBA _ _ Pix => Pix | OtherImage _ _ _ => [] end.


(** ** validate: is OpenGL there, at the right version *)

(** [strings.Contains]: [sub] occurs somewhere in [s]. *)
Fixpoint Contains (s sub : string) : bool :=
  String.prefix sub s
  || match s with
     | String _ rest => Contains rest sub
     | EmptyString => false
     end.

Inductive init_error :=
| NeedOpenGL32           (* "Need OpenGL 3.2 or higher" *)
| OpenGLUnavailable.     (* "OpenGL unavailable" *)

(** The loop of [validate] over the lines of the report, with its break. *)
Fixpoint validate_loop (want : string) (report : list string) : bool :=
  match report with
  | [] => false
  | line :: report =>
      if Contains line want then true else validate_loop want report
  end.

(** validate that OpenGL is available at the right version; [report] is
    what [gl.BindingReport] returns. *)
Definition validate (gc : opengl) (report : list string) : option init_error :=
  if 0 <? len report then
    let valid := false in
    let want := "[+] glFramebufferTexture"%string in
    let valid := if validate_loop want report then true else valid in
    if negb valid then Some NeedOpenGL32 else None
  else Some OpenGLUnavailable.


(** ** More on uniforms and uploads *)







(** Events by which nothing is created and nothing uploaded. *)
Definition draws_only (e : event) : bool :=
  no_gen e && no_upload e && negb (is_texture_upload e).

(** A vertex buffer the loop of [BindMesh] uploads: flagged and
    uploadable. *)
Definition uploads (d : option Data) : bool :=
  match d with
  | Some (VD vd) => vd_rebind vd && uploadable vd
  | _ => false
  end.


(* ===================================================================== *)
(** * Part II -- theorems                                                 *)
(* ===================================================================== *)

(** ** The cullers *)

Lemma Qltb_lt (x y : Q) : Qltb x y = true <-> (x < y)%Q.
Proof.
  unfold Qltb. rewrite negb_true_iff. split.
  - intros Hb. apply Qnot_le_lt. intros Hle.
    apply Qle_bool_iff in Hle. congruence.
  - intros Hlt. destruct (Qle_bool y x) eqn:E; [|reflexivity].
    apply Qle_bool_iff in E. exfalso. apply (Qlt_not_le _ _ Hlt E).
Qed.

Lemma Qltb_nlt (x y : Q) : Qltb x y = false <-> (y <= x)%Q.
Proof.
  unfold Qltb. rewrite negb_false_iff. apply Qle_bool_iff.
Qed.








(** C5.  Radius cull: on any float64 arithmetic, [Culled] is the strict
    comparison "squared distance from the candidate to the camera's own
    position > R * R", R being the configured radius clamped at 0; in
    exact arithmetic that is the order on rationals.  On binary64, for
    the camera at (0,0,0) and radius 5: (3,3,0) is kept, (4,4,0) is
    culled and the boundary candidate (3,4,0) is kept. *)
Theorem radiusCull_Culled_spec :
  (forall (F : Type) (ops : Float64 F) (r : F) (cam : Camera F) (wx wy wz : F),
     let R := if fltb r f0 then f0 else r in
     radiusCull_Culled (NewRadiusCull r) cam wx wy wz
     = fltb (fmul R R) (sqdist (mkV3 wx wy wz) (Loc (at_ cam))))
  /\
  (forall (r : Q) (cam : Camera Q) (wx wy wz : Q),
     let R := if Qltb r 0 then 0%Q else r in
     radiusCull_Culled (NewRadiusCull r) cam wx wy wz = true
     <-> (R * R < sqdist (mkV3 wx wy wz) (Loc (at_ cam)))%Q)
  /\
  (let Culled := radiusCull_Culled (NewRadiusCull 5%float) origin_float in
   Culled 3%float 3%float 0%float = false /\
   Culled 4%float 4%float 0%float = true /\
   Culled 3%float 4%float 0%float = false).
Proof.
  split; [|split].
  - intros F ops r cam wx wy wz R. reflexivity.
  - intros r cam wx wy wz R. unfold radiusCull_Culled. apply Qltb_lt.
  - vm_compute. repeat split; reflexivity.
Qed.

(** ** Running computations *)

Lemma run_bind {A B : Type} (m : M A) (k : A -> M B) (s : gl.device) :
  (m ≫= k) s =
  (result_of (k (result_of (m s)) (device_of (m s))),
   device_of (k (result_of (m s)) (device_of (m s))),
   events_of (m s) ++ events_of (k (result_of (m s)) (device_of (m s)))).
Proof.
  unfold mbind, M_bind, bind, result_of, device_of, events_of.
  destruct (m s) as [[a s1] t1]. simpl.
  destruct (k a s1) as [[b s2] t2]. reflexivity.
Qed.

Lemma replay_app (t1 t2 : list event) (s : gl.device) :
  replay (t1 ++ t2) s = replay t2 (replay t1 s).
Proof. unfold replay. apply fold_left_app. Qed.

Lemma sound_ret {A : Type} (a : A) : sound (mret a).
Proof. intros s. reflexivity. Qed.

Lemma sound_bind {A B : Type} (m : M A) (k : A -> M B) :
  sound m -> (forall a, sound (k a)) -> sound (m ≫= k).
Proof.
  intros Hm Hk s. rewrite run_bind. unfold device_of at 1, events_of at 1. simpl.
  rewrite replay_app, <- Hm. apply Hk.
Qed.

Lemma sound_call (c : gl.call) : sound (call c).
Proof. intros s. reflexivity. Qed.

Lemma sound_log (l : logline) : sound (log l).
Proof. intros s. reflexivity. Qed.

Lemma sound_GetError : sound GetError.
Proof. intros s. reflexivity. Qed.

Lemma sound_CheckFramebufferStatus (target : Z) : sound (CheckFramebufferStatus target).
Proof. intros s. reflexivity. Qed.

Lemma sound_BindProgram (p : Z) (vsh fsh : list string) : sound (BindProgram p vsh fsh).
Proof. intros s. reflexivity. Qed.

Lemma sound_gen (c : Z -> gl.call) : sound (gen c).
Proof. intros s. reflexivity. Qed.

Lemma sound_when (b : bool) (m : M unit) : sound m -> sound (when b m).
Proof. intros Hm. destruct b; [exact Hm | apply sound_ret]. Qed.

Create HintDb sound discriminated.
#[export] Hint Resolve sound_ret sound_call sound_log sound_GetError
  sound_CheckFramebufferStatus sound_BindProgram sound_gen sound_when : sound.

(** Splits a goal [sound m] along the structure of [m]. *)
Ltac sound_step :=
  match goal with
  | |- sound (mret _) => apply sound_ret
  | |- sound (_ ≫= _) => apply sound_bind; [| intros ?]
  | |- sound (when _ _) => apply sound_when
  | |- sound (if ?b then _ else _) => destruct b
  | |- sound (match ?x with _ => _ end) => destruct x
  | |- sound _ => solve [auto with sound]
  end.
Ltac sound_auto := repeat sound_step.

Lemma emits_ret {A : Type} (p : event -> bool) (a : A) : emits p (mret a).
Proof. intros s. reflexivity. Qed.

Lemma emits_bind {A B : Type} (p : event -> bool) (m : M A) (k : A -> M B) :
  emits p m -> (forall a, emits p (k a)) -> emits p (m ≫= k).
Proof.
  intros Hm Hk s. rewrite run_bind. unfold events_of at 1. simpl.
  rewrite forallb_app, Hm, Hk. reflexivity.
Qed.

Lemma emits_call (p : event -> bool) (c : gl.call) : p (Gl c) = true -> emits p (call c).
Proof. intros Hp s. simpl. rewrite Hp. reflexivity. Qed.

Lemma emits_log (p : event -> bool) (l : logline) : p (Log l) = true -> emits p (log l).
Proof. intros Hp s. simpl. rewrite Hp. reflexivity. Qed.

Lemma emits_when (p : event -> bool) (b : bool) (m : M unit) :
  emits p m -> emits p (when b m).
Proof. intros Hm. destruct b; [exact Hm | apply emits_ret]. Qed.

Lemma emits_GetError (p : event -> bool) :
  (forall e, p (Gl (gl.GetError e)) = true) -> emits p GetError.
Proof. intros Hp s. simpl. rewrite Hp. reflexivity. Qed.

Lemma emits_gen (p : event -> bool) (c : Z -> gl.call) :
  (forall n, p (Gl (c n)) = true) -> emits p (gen c).
Proof. intros Hp s. simpl. rewrite Hp. reflexivity. Qed.

Ltac emits_step :=
  match goal with
  | |- emits _ (mret _) => apply emits_ret
  | |- emits _ (_ ≫= _) => apply emits_bind; [| intros ?]
  | |- emits _ (when _ _) => apply emits_when
  | |- emits _ (call _) => apply emits_call; reflexivity
  | |- emits _ (log _) => apply emits_log; reflexivity
  | |- emits _ GetError => apply emits_GetError; intros ?; reflexivity
  | |- emits _ (gen _) => apply emits_gen; intros ?; reflexivity
  | |- emits _ (if ?b then _ else _) => destruct b
  | |- emits _ (match ?x with _ => _ end) => destruct x
  end.
Ltac emits_auto := repeat emits_step.

Lemma bindUniform_emits (d : Draw) (key : string) (ref : Z) :
  emits uniform_event (bindUniform d key ref).
Proof. unfold bindUniform, check_uniform. emits_auto. Qed.

Lemma bindUniforms_loop_emits (d : Draw) (us : list (string * Z)) :
  emits uniform_event (bindUniforms_loop d us).
Proof.
  induction us as [|[key ref] us IH]; simpl.
  - apply emits_ret.
  - apply emits_bind; [apply bindUniform_emits | intros _; exact IH].
Qed.

Lemma bindUniform_sound (d : Draw) (key : string) (ref : Z) :
  sound (bindUniform d key ref).
Proof. unfold bindUniform, check_uniform. sound_auto. Qed.

Lemma bindUniforms_loop_sound (d : Draw) (us : list (string * Z)) :
  sound (bindUniforms_loop d us).
Proof.
  induction us as [|[key ref] us IH]; simpl.
  - apply sound_ret.
  - apply sound_bind; [apply bindUniform_sound | intros _; exact IH].
Qed.

Lemma Render_sound (gc : opengl) (d : Draw) : sound (Render gc d).
Proof.
  unfold Render, bindUniforms.
  repeat first [apply bindUniforms_loop_sound | sound_step].
Qed.

Lemma events_bind {A B : Type} (m : M A) (k : A -> M B) (s : gl.device) :
  events_of ((m ≫= k) s)
  = events_of (m s) ++ events_of (k (result_of (m s)) (device_of (m s))).
Proof. rewrite run_bind. reflexivity. Qed.

Lemma bind_eq {A B : Type} (m : M A) (k : A -> M B) (s : gl.device)
    (a : A) (s1 : gl.device) (t1 : list event) (r : B * gl.device * list event) :
  m s = (a, s1, t1) ->
  k a s1 = r ->
  (m ≫= k) s = (result_of r, device_of r, t1 ++ events_of r).
Proof.
  intros Hm Hk. rewrite run_bind, Hm. unfold result_of, device_of, events_of.
  simpl. rewrite Hk. reflexivity.
Qed.

Lemma bind_run {A B : Type} (m : M A) (k : A -> M B) (s : gl.device)
    (a : A) (s1 : gl.device) (t1 : list event)
    (b : B) (s2 : gl.device) (t2 : list event) :
  m s = (a, s1, t1) ->
  k a s1 = (b, s2, t2) ->
  (m ≫= k) s = (b, s2, t1 ++ t2).
Proof. intros Hm Hk. rewrite run_bind, Hm. cbn. rewrite Hk. reflexivity. Qed.

Lemma run_eta {A : Type} (m : M A) (s : gl.device) :
  m s = (result_of (m s), device_of (m s), events_of (m s)).
Proof. destruct (m s) as [[a s1] t1]. reflexivity. Qed.

(** ** The steps of [Render] *)

Lemma Render_steps (gc : opengl) (d : Draw) :
  Render gc d =
  (scissor_begin d ;;
   gc ← switch_depth gc d;
   gc ← switch_fbo gc d;
   gc ← switch_shader gc d;
   bindUniforms gc d ;;
   call (gl.BindVertexArray (Vao d)) ;;
   draw_primitive d ;;
   call (gl.BindVertexArray 0) ;;
   scissor_end d ;;
   mret gc).
Proof. reflexivity. Qed.

Lemma scissor_begin_run (d : Draw) (s : gl.device) :
  scissor_begin d s = (tt, replay (scissor_on d) s, scissor_on d).
Proof. unfold scissor_begin, scissor_on. destruct (Scissor d); reflexivity. Qed.

Lemma switch_depth_run (gc : opengl) (d : Draw) (s : gl.device) :
  switch_depth gc d s
  = (set_depthTest (Depth d) gc, replay (depth_switch gc d) s, depth_switch gc d).
Proof.
  unfold switch_depth, depth_switch.
  destruct (eqb (depthTest gc) (Depth d)) eqn:E; simpl.
  - apply eqb_prop in E. rewrite <- E. destruct gc; reflexivity.
  - destruct (Depth d); reflexivity.
Qed.

Lemma switch_fbo_run (gc : opengl) (d : Draw) (s : gl.device) :
  switch_fbo gc d s
  = (set_fbo (Fbo d) gc, replay (fbo_switch gc d) s, fbo_switch gc d).
Proof.
  unfold switch_fbo, fbo_switch.
  destruct (fbo gc =? Fbo d) eqn:E; simpl.
  - apply Z.eqb_eq in E. rewrite <- E. destruct gc; reflexivity.
  - destruct (Fbo d =? 0); reflexivity.
Qed.

Lemma switch_shader_run (gc : opengl) (d : Draw) (s : gl.device) :
  switch_shader gc d s
  = (set_shader (Shader d) gc, replay (shader_switch gc d) s, shader_switch gc d).
Proof.
  unfold switch_shader, shader_switch.
  destruct (shader gc =? Shader d) eqn:E; simpl.
  - apply Z.eqb_eq in E. rewrite <- E. destruct gc; reflexivity.
  - reflexivity.
Qed.

Lemma draw_primitive_run (d : Draw) (s : gl.device) :
  draw_primitive d s = (tt, replay (draw_calls d) s, draw_calls d).
Proof.
  unfold draw_primitive, draw_calls.
  destruct (mode d); try reflexivity. destruct (0 <? Instances d); reflexivity.
Qed.

Lemma scissor_end_run (d : Draw) (s : gl.device) :
  scissor_end d s = (tt, replay (scissor_off d) s, scissor_off d).
Proof. unfold scissor_end, scissor_off. destruct (Scissor d); reflexivity. Qed.

(** One [Render] call, in full: the context it leaves, the device state
    and the events, around the run of [bindUniforms]. *)
Lemma Render_run (gc : opengl) (d : Draw) (s : gl.device) :
  let u := bindUniforms (rendered gc d) d (replay (state_switches gc d) s) in
  Render gc d s
  = (rendered gc d,
     replay (draw_events d) (device_of u),
     state_switches gc d ++ events_of u ++ draw_events d).
Proof.
  intros u. rewrite Render_steps. etransitivity.
  { eapply bind_run; [apply scissor_begin_run|].
    eapply bind_run; [apply switch_depth_run|].
    eapply bind_run; [apply switch_fbo_run|].
    eapply bind_run; [apply switch_shader_run|].
    eapply bind_run; [apply run_eta|].
    eapply bind_run; [reflexivity|].
    eapply bind_run; [apply draw_primitive_run|].
    eapply bind_run; [reflexivity|].
    eapply bind_run; [apply scissor_end_run|].
    reflexivity. }
  change (fbo_switch (set_depthTest (Depth d) gc) d) with (fbo_switch gc d).
  change (shader_switch (set_fbo (Fbo d) (set_depthTest (Depth d) gc)) d)
    with (shader_switch gc d).
  change (set_shader (Shader d) (set_fbo (Fbo d) (set_depthTest (Depth d) gc)))
    with (rendered gc d).
  rewrite <- !replay_app.
  change (replay (scissor_on d ++ depth_switch gc d ++ fbo_switch gc d
                  ++ shader_switch gc d) s)
    with (replay (state_switches gc d) s).
  fold u. generalize u. clear u. intros u.
  unfold draw_events, state_switches. f_equal; [f_equal|].
  - change (Gl (gl.BindVertexArray (Vao d)) :: draw_calls d ++
            Gl (gl.BindVertexArray 0) :: scissor_off d)
      with ([Gl (gl.BindVertexArray (Vao d))] ++ draw_calls d ++
            [Gl (gl.BindVertexArray 0)] ++ scissor_off d).
    rewrite !replay_app. reflexivity.
  - rewrite <- !app_assoc. cbn [app]. rewrite app_nil_r. reflexivity.
Qed.

(** ** Counting *)

Lemma count_app (p : event -> bool) (t1 t2 : list event) :
  count p (t1 ++ t2) = (count p t1 + count p t2)%nat.
Proof. unfold count. rewrite List.filter_app, length_app. reflexivity. Qed.

Lemma count_none (p q : event -> bool) (t : list event) :
  (forall e, q e = true -> p e = false) ->
  forallb q t = true -> count p t = 0%nat.
Proof.
  intros Hpq. unfold count. induction t as [|e t IH]; simpl; [reflexivity|].
  intros Hq. apply andb_true_iff in Hq as [He Ht].
  rewrite (Hpq e He). apply IH, Ht.
Qed.

Lemma uniform_event_not_UseProgram (e : event) :
  uniform_event e = true -> is_UseProgram e = false.
Proof. destruct e as [[]|]; simpl; congruence. Qed.

Lemma uniform_event_not_BindFramebuffer (e : event) :
  uniform_event e = true -> is_BindFramebuffer e = false.
Proof. destruct e as [[]|]; simpl; congruence. Qed.

Lemma uniform_event_not_depth_toggle (e : event) :
  uniform_event e = true -> is_depth_toggle e = false.
Proof. destruct e as [[]|]; simpl; congruence. Qed.

Lemma uniform_event_leaves_cap (cap : Z) (e : event) :
  uniform_event e = true -> touches_cap cap e = false.
Proof. destruct e as [[]|]; simpl; congruence. Qed.

Lemma bindUniforms_count (p : event -> bool) (gc : opengl) (d : Draw) (s : gl.device) :
  (forall e, uniform_event e = true -> p e = false) ->
  count p (events_of (bindUniforms gc d s)) = 0%nat.
Proof.
  intros Hp. apply (count_none p uniform_event); [exact Hp|].
  apply bindUniforms_loop_emits.
Qed.

Lemma Render_events (gc : opengl) (d : Draw) (s : gl.device) :
  events_of (Render gc d s)
  = state_switches gc d
    ++ events_of (bindUniforms (rendered gc d) d (replay (state_switches gc d) s))
    ++ draw_events d.
Proof. rewrite Render_run. reflexivity. Qed.

Lemma Render_result (gc : opengl) (d : Draw) (s : gl.device) :
  result_of (Render gc d s) = rendered gc d.
Proof. rewrite Render_run. reflexivity. Qed.

Lemma Render_count_UseProgram (gc : opengl) (d : Draw) (s : gl.device) :
  count is_UseProgram (events_of (Render gc d s))
  = if shader gc =? Shader d then 0%nat else 1%nat.
Proof.
  rewrite Render_events, !count_app.
  rewrite (bindUniforms_count _ _ _ _ uniform_event_not_UseProgram).
  unfold state_switches, scissor_on, depth_switch, fbo_switch, shader_switch,
    draw_events, draw_calls, scissor_off.
  destruct (Scissor d), (negb (eqb (depthTest gc) (Depth d))),
    (negb (fbo gc =? Fbo d)), (Fbo d =? 0), (shader gc =? Shader d), (mode d),
    (0 <? Instances d), (Depth d); reflexivity.
Qed.

Lemma Render_count_BindFramebuffer (gc : opengl) (d : Draw) (s : gl.device) :
  count is_BindFramebuffer (events_of (Render gc d s))
  = if fbo gc =? Fbo d then 0%nat else 1%nat.
Proof.
  rewrite Render_events, !count_app.
  rewrite (bindUniforms_count _ _ _ _ uniform_event_not_BindFramebuffer).
  unfold state_switches, scissor_on, depth_switch, fbo_switch, shader_switch,
    draw_events, draw_calls, scissor_off.
  destruct (Scissor d), (negb (eqb (depthTest gc) (Depth d))),
    (fbo gc =? Fbo d), (Fbo d =? 0), (negb (shader gc =? Shader d)), (mode d),
    (0 <? Instances d), (Depth d); reflexivity.
Qed.

Lemma Render_count_depth_toggle (gc : opengl) (d : Draw) (s : gl.device) :
  count is_depth_toggle (events_of (Render gc d s))
  = if eqb (depthTest gc) (Depth d) then 0%nat else 1%nat.
Proof.
  rewrite Render_events, !count_app.
  rewrite (bindUniforms_count _ _ _ _ uniform_event_not_depth_toggle).
  unfold state_switches, scissor_on, depth_switch, fbo_switch, shader_switch,
    draw_events, draw_calls, scissor_off.
  destruct (Scissor d), (eqb (depthTest gc) (Depth d)),
    (negb (fbo gc =? Fbo d)), (Fbo d =? 0), (negb (shader gc =? Shader d)), (mode d),
    (0 <? Instances d), (Depth d); reflexivity.
Qed.

Lemma RenderAll_count (p : event -> bool) {A : Type} (same : A -> A -> bool)
    (cached : opengl -> A) (wanted : Draw -> A) :
  (forall gc d s,
     count p (events_of (Render gc d s))
     = if same (cached gc) (wanted d) then 0%nat else 1%nat) ->
  (forall gc d, cached (rendered gc d) = wanted d) ->
  forall ds gc s,
    count p (events_of (RenderAll gc ds s))
    = switches same (cached gc) (List.map wanted ds).
Proof.
  intros Hone Hcache. induction ds as [|d ds IH]; intros gc s.
  - reflexivity.
  - cbn [RenderAll List.map switches]. rewrite events_bind, count_app, Hone.
    rewrite Render_result, IH, Hcache. reflexivity.
Qed.

(** C1.  State-switch elision.  For every sequence of draws submitted
    through [Render] on one context, from any device state: a draw issues
    [UseProgram] (resp. [BindFramebuffer], a depth-test toggle) exactly
    once when its shader (resp. framebuffer, depth flag) differs from the
    value the context has cached and not at all when it is the same; the
    context caches the values of the draw; so, over the sequence, the
    number of such calls is the number of draws whose value differs from
    that of the draw before (the cached value standing before the first).
    In particular two consecutive draws with one shader handle, not the
    cached one, give exactly one [UseProgram], and two draws with different
    handles give two. *)
Theorem Render_state_switch_elision :
  (forall (gc : opengl) (d : Draw) (s : gl.device),
     count is_UseProgram (events_of (Render gc d s))
       = (if shader gc =? Shader d then 0%nat else 1%nat) /\
     count is_BindFramebuffer (events_of (Render gc d s))
       = (if fbo gc =? Fbo d then 0%nat else 1%nat) /\
     count is_depth_toggle (events_of (Render gc d s))
       = (if eqb (depthTest gc) (Depth d) then 0%nat else 1%nat) /\
     shader (result_of (Render gc d s)) = Shader d /\
     fbo (result_of (Render gc d s)) = Fbo d /\
     depthTest (result_of (Render gc d s)) = Depth d)
  /\
  (forall (ds : list Draw) (gc : opengl) (s : gl.device),
     count is_UseProgram (events_of (RenderAll gc ds s))
       = switches Z.eqb (shader gc) (List.map Shader ds) /\
     count is_BindFramebuffer (events_of (RenderAll gc ds s))
       = switches Z.eqb (fbo gc) (List.map Fbo ds) /\
     count is_depth_toggle (events_of (RenderAll gc ds s))
       = switches eqb (depthTest gc) (List.map Depth ds))
  /\
  (forall (gc : opengl) (d1 d2 : Draw) (s : gl.device),
     shader gc <> Shader d1 ->
     (Shader d1 = Shader d2 ->
      count is_UseProgram (events_of (RenderAll gc [d1; d2] s)) = 1%nat) /\
     (Shader d1 <> Shader d2 ->
      count is_UseProgram (events_of (RenderAll gc [d1; d2] s)) = 2%nat)).
Proof.
  assert (Hall : forall ds gc s,
     count is_UseProgram (events_of (RenderAll gc ds s))
       = switches Z.eqb (shader gc) (List.map Shader ds) /\
     count is_BindFramebuffer (events_of (RenderAll gc ds s))
       = switches Z.eqb (fbo gc) (List.map Fbo ds) /\
     count is_depth_toggle (events_of (RenderAll gc ds s))
       = switches eqb (depthTest gc) (List.map Depth ds)).
  { intros ds gc s. repeat split.
    - apply (RenderAll_count is_UseProgram Z.eqb shader Shader);
        [apply Render_count_UseProgram | reflexivity].
    - apply (RenderAll_count is_BindFramebuffer Z.eqb fbo Fbo);
        [apply Render_count_BindFramebuffer | reflexivity].
    - apply (RenderAll_count is_depth_toggle eqb depthTest Depth);
        [apply Render_count_depth_toggle | reflexivity]. }
  split; [|split].
  - intros gc d s. rewrite Render_result.
    repeat split.
    + apply Render_count_UseProgram.
    + apply Render_count_BindFramebuffer.
    + apply Render_count_depth_toggle.
  - exact Hall.
  - intros gc d1 d2 s Hne. destruct (Hall [d1; d2] gc s) as [-> _].
    cbn [List.map switches].
    destruct (Z.eqb_spec (shader gc) (Shader d1)) as [|_]; [contradiction|].
    split; intros H12; destruct (Z.eqb_spec (Shader d1) (Shader d2)); try contradiction;
      reflexivity.
Qed.

Lemma Render_state_switch_elision_witness :
  count is_UseProgram (events_of (RenderAll newRenderer [draw0; draw0] dev0)) = 1%nat
  /\ count is_UseProgram
       (events_of (RenderAll newRenderer [draw0; with_Shader 4 draw0] dev0)) = 2%nat.
Proof.
  destruct Render_state_switch_elision as (_ & _ & H).
  split.
  - refine (proj1 (H newRenderer draw0 draw0 dev0 _) _); [simpl; lia | reflexivity].
  - refine (proj2 (H newRenderer draw0 (with_Shader 4 draw0) dev0 _) _); simpl; lia.
Defined.

(** ** Capabilities and the scissor test *)

Lemma is_enabled_apply (cap : Z) (c : gl.call) (s : gl.device) :
  touches_cap cap (Gl c) = false ->
  gl.is_enabled cap (gl.apply c s) = gl.is_enabled cap s.
Proof.
  unfold gl.is_enabled. destruct c; simpl; try reflexivity;
    intros Hc; apply Z.eqb_neq in Hc; apply bool_decide_ext.
  - rewrite elem_of_union, elem_of_singleton. intuition congruence.
  - rewrite elem_of_difference, elem_of_singleton. intuition congruence.
Qed.

Lemma is_enabled_replay (cap : Z) (t : list event) (s : gl.device) :
  forallb (leaves_cap cap) t = true ->
  gl.is_enabled cap (replay t s) = gl.is_enabled cap s.
Proof.
  revert s. induction t as [|e t IH]; intros s; simpl; [reflexivity|].
  intros Ht. apply andb_true_iff in Ht as [He Ht].
  unfold replay in *. simpl. rewrite (IH _ Ht).
  unfold leaves_cap in He. apply negb_true_iff in He.
  destruct e as [c|l]; [apply is_enabled_apply, He | reflexivity].
Qed.

Lemma is_enabled_Disable (cap : Z) (s : gl.device) :
  gl.is_enabled cap (gl.apply (gl.Disable cap) s) = false.
Proof.
  unfold gl.is_enabled. simpl. apply bool_decide_eq_false.
  rewrite elem_of_difference, elem_of_singleton. intuition congruence.
Qed.

Lemma is_enabled_Enable (cap : Z) (s : gl.device) :
  gl.is_enabled cap (gl.apply (gl.Enable cap) s) = true.
Proof.
  unfold gl.is_enabled. simpl. apply bool_decide_eq_true.
  rewrite elem_of_union, elem_of_singleton. left. reflexivity.
Qed.

Lemma forallb_weaken (p q : event -> bool) (t : list event) :
  (forall e, p e = true -> q e = true) -> forallb p t = true -> forallb q t = true.
Proof.
  intros Hpq. induction t as [|e t IH]; simpl; [reflexivity|].
  intros H. apply andb_true_iff in H as [He Ht].
  rewrite (Hpq e He), (IH Ht). reflexivity.
Qed.

Lemma bindUniforms_leaves_cap (cap : Z) (gc : opengl) (d : Draw) (s : gl.device) :
  forallb (leaves_cap cap) (events_of (bindUniforms gc d s)) = true.
Proof.
  apply (forallb_weaken uniform_event).
  - intros e He. unfold leaves_cap. rewrite (uniform_event_leaves_cap cap e He). reflexivity.
  - apply bindUniforms_loop_emits.
Qed.

(** Without a scissor rectangle, no event of [Render] touches the scissor
    test. *)
Lemma Render_leaves_scissor (gc : opengl) (d : Draw) (s : gl.device) :
  Scissor d = false ->
  forallb (leaves_cap gl.SCISSOR_TEST) (events_of (Render gc d s)) = true.
Proof.
  intros Hsc. rewrite Render_events, !forallb_app, bindUniforms_leaves_cap.
  unfold state_switches, scissor_on, depth_switch, fbo_switch, shader_switch,
    draw_events, draw_calls, scissor_off. rewrite Hsc.
  destruct (negb (eqb (depthTest gc) (Depth d))),
    (negb (fbo gc =? Fbo d)), (Fbo d =? 0), (negb (shader gc =? Shader d)), (mode d),
    (0 <? Instances d), (Depth d); reflexivity.
Qed.

Lemma forallb_prefix (p : event -> bool) (t1 t2 : list event) :
  forallb p (t1 ++ t2) = true -> forallb p t1 = true.
Proof. rewrite forallb_app. intros H. apply andb_true_iff in H. tauto. Qed.

Lemma Render_device (gc : opengl) (d : Draw) (s : gl.device) :
  device_of (Render gc d s)
  = replay (scissor_off d)
      (gl.apply (gl.BindVertexArray 0)
         (replay (draw_calls d)
            (gl.apply (gl.BindVertexArray (Vao d))
               (device_of (bindUniforms (rendered gc d) d
                             (replay (state_switches gc d) s)))))).
Proof.
  rewrite Render_run. unfold device_of at 1. cbn [fst snd]. unfold draw_events.
  change (Gl (gl.BindVertexArray (Vao d)) :: draw_calls d ++
          Gl (gl.BindVertexArray 0) :: scissor_off d)
    with ([Gl (gl.BindVertexArray (Vao d))] ++ draw_calls d ++
          [Gl (gl.BindVertexArray 0)] ++ scissor_off d).
  rewrite !replay_app. reflexivity.
Qed.

(** C8.  Per-draw scissor scoping.  For every [Render gc d], from any
    device state and in every drawing branch (every [mode d]):
    - with [Scissor d] set, the call opens by enabling the scissor test
      and giving it the rectangle of [d], closes by disabling it, and the
      test is disabled on the device when [Render] returns;
    - with [Scissor d] unset, no event of the call enables (or disables)
      the scissor test, and the test is, after any part of the call, as
      it was before; so after a scissored draw a following draw without
      scissor runs, throughout, with the test disabled;
    - the vertex array bound when [Render] returns is 0. *)
Theorem Render_scissor_scoped :
  forall (gc : opengl) (d : Draw) (s : gl.device),
    (Scissor d = true ->
       (exists middle,
          events_of (Render gc d s)
          = [Gl (gl.Enable gl.SCISSOR_TEST); Gl (gl.Scissor (Sx d) (Sy d) (Sw d) (Sh d))]
            ++ middle ++ [Gl (gl.Disable gl.SCISSOR_TEST)]
          /\ forallb (leaves_cap gl.SCISSOR_TEST) middle = true) /\
       gl.is_enabled gl.SCISSOR_TEST (device_of (Render gc d s)) = false)
    /\
    (Scissor d = false ->
       count is_scissor_enable (events_of (Render gc d s)) = 0%nat /\
       (forall done rest, events_of (Render gc d s) = done ++ rest ->
          gl.is_enabled gl.SCISSOR_TEST (replay done s)
          = gl.is_enabled gl.SCISSOR_TEST s) /\
       (forall (gc0 : opengl) (d0 : Draw) (s0 : gl.device),
          Scissor d0 = true -> s = device_of (Render gc0 d0 s0) ->
          forall done rest, events_of (Render gc d s) = done ++ rest ->
            gl.is_enabled gl.SCISSOR_TEST (replay done s) = false))
    /\
    gl.vertex_array (device_of (Render gc d s)) = 0.
Proof.
  intros gc d s.
  assert (Hon : Scissor d = true ->
     (exists middle,
          events_of (Render gc d s)
          = [Gl (gl.Enable gl.SCISSOR_TEST); Gl (gl.Scissor (Sx d) (Sy d) (Sw d) (Sh d))]
            ++ middle ++ [Gl (gl.Disable gl.SCISSOR_TEST)]
          /\ forallb (leaves_cap gl.SCISSOR_TEST) middle = true) /\
       gl.is_enabled gl.SCISSOR_TEST (device_of (Render gc d s)) = false).
  { intros Hsc. split.
    - exists (depth_switch gc d ++ fbo_switch gc d ++ shader_switch gc d
              ++ events_of (bindUniforms (rendered gc d) d (replay (state_switches gc d) s))
              ++ Gl (gl.BindVertexArray (Vao d)) :: draw_calls d
              ++ [Gl (gl.BindVertexArray 0)]).
      split.
      + rewrite Render_events. unfold state_switches, draw_events, scissor_on, scissor_off.
        rewrite Hsc. rewrite <- ?app_assoc. cbn [app]. rewrite <- ?app_assoc.
        cbn [app]. rewrite <- ?app_assoc. reflexivity.
      + rewrite !forallb_app, bindUniforms_leaves_cap.
        unfold depth_switch, fbo_switch, shader_switch, draw_calls.
        destruct (negb (eqb (depthTest gc) (Depth d))),
          (negb (fbo gc =? Fbo d)), (Fbo d =? 0), (negb (shader gc =? Shader d)),
          (mode d), (0 <? Instances d), (Depth d); reflexivity.
    - rewrite Render_device. unfold scissor_off. rewrite Hsc.
      apply (is_enabled_Disable gl.SCISSOR_TEST). }
  split; [exact Hon|]. split.
  - intros Hsc.
    assert (Hprefix : forall done rest, events_of (Render gc d s) = done ++ rest ->
              gl.is_enabled gl.SCISSOR_TEST (replay done s)
              = gl.is_enabled gl.SCISSOR_TEST s).
    { intros done rest Hsplit. apply is_enabled_replay.
      apply (forallb_prefix _ done rest). rewrite <- Hsplit.
      apply Render_leaves_scissor, Hsc. }
    split; [|split].
    + apply (count_none is_scissor_enable (leaves_cap gl.SCISSOR_TEST)).
      * intros [[]|] He; try reflexivity. unfold leaves_cap in He. simpl in *.
        apply negb_true_iff in He. exact He.
      * apply Render_leaves_scissor, Hsc.
    + exact Hprefix.
    + intros gc0 d0 s0 Hsc0 -> done rest Hsplit.
      rewrite (Hprefix done rest Hsplit).
      rewrite Render_device. unfold scissor_off. rewrite Hsc0.
      apply (is_enabled_Disable gl.SCISSOR_TEST).
  - rewrite Render_device. unfold scissor_off. destruct (Scissor d); reflexivity.
Qed.

Lemma Render_scissor_scoped_witness :
  gl.is_enabled gl.SCISSOR_TEST
    (device_of (Render newRenderer (with_Scissor 10 10 100 50 draw0) dev0)) = false
  /\ count is_scissor_enable (events_of (Render newRenderer draw0 dev0)) = 0%nat.
Proof.
  split.
  - refine (proj2 (proj1 (Render_scissor_scoped newRenderer
                            (with_Scissor 10 10 100 50 draw0) dev0) _)).
    reflexivity.
  - refine (proj1 (proj1 (proj2 (Render_scissor_scoped newRenderer draw0 dev0)) _)).
    reflexivity.
Defined.

(** ** Uniform dispatch *)

Lemma bindUniform_generic (d : Draw) (key : string) (ref : Z) :
  generic key = true ->
  bindUniform d key ref =
  match UniformData d !! ref with
  | None => log (NoUniformData (Tag d) key)
  | Some data =>
      match data with
      | [a] => call (gl.Uniform1f ref a)
      | [a; b] => call (gl.Uniform2f ref a b)
      | [a; b; c] => call (gl.Uniform3f ref a b c)
      | [a; b; c; e] => call (gl.Uniform4f ref a b c e)
      | _ =>
          if (Z.of_nat (length data) =? 16) then
            call (gl.UniformMatrix4fv ref 1 false data)
          else log (FailedToBind (Tag d) key (Z.of_nat (length data)))
      end ;;
      check_uniform d key ref
  end.
Proof.
  unfold generic, bindUniform. intros Hg.
  apply andb_true_iff in Hg as [Hg Huv]. apply andb_true_iff in Hg as [Hb Hs].
  apply negb_true_iff in Hb, Hs, Huv. rewrite Hb, Hs, Huv. reflexivity.
Qed.

Lemma events_call_then {B : Type} (c : gl.call) (k : M B) (s : gl.device) :
  events_of ((call c ;; k) s) = Gl c :: events_of (k (gl.apply c s)).
Proof. rewrite events_bind. reflexivity. Qed.

Lemma events_log_then {B : Type} (l : logline) (k : M B) (s : gl.device) :
  events_of ((log l ;; k) s) = Log l :: events_of (k s).
Proof. rewrite events_bind. reflexivity. Qed.

Lemma check_uniform_count (d : Draw) (key : string) (ref : Z) (s : gl.device) :
  count is_uniform_call (events_of (check_uniform d key ref s)) = 0%nat.
Proof.
  unfold check_uniform. rewrite events_bind. simpl.
  destruct (negb _); reflexivity.
Qed.

Lemma check_uniform_dispatch (d : Draw) (key : string) (ref : Z) (s : gl.device) :
  List.filter is_dispatch (events_of (check_uniform d key ref s)) = []
  /\ count is_GetError (events_of (check_uniform d key ref s)) = 1%nat.
Proof.
  unfold check_uniform. rewrite events_bind. cbn.
  destruct (negb _); split; reflexivity.
Qed.

Lemma dispatched_code (d : Draw) (key : string) (ref : Z) (data : list float32)
    (s : gl.device) :
  UniformData d !! ref = Some data ->
  events_of
    (match data with
     | [a] => call (gl.Uniform1f ref a)
     | [a; b] => call (gl.Uniform2f ref a b)
     | [a; b; c] => call (gl.Uniform3f ref a b c)
     | [a; b; c; e] => call (gl.Uniform4f ref a b c e)
     | _ =>
         if (Z.of_nat (length data) =? 16) then
           call (gl.UniformMatrix4fv ref 1 false data)
         else log (FailedToBind (Tag d) key (Z.of_nat (length data)))
     end s) = [dispatched d (key, ref)].
Proof.
  intros E. unfold dispatched. rewrite E.
  destruct data as [|a [|b [|c [|e [|f data]]]]]; try reflexivity.
  destruct (Z.of_nat (length (a :: b :: c :: e :: f :: data)) =? 16) eqn:E16.
  - apply Z.eqb_eq in E16. rewrite bool_decide_eq_true_2 by lia. reflexivity.
  - apply Z.eqb_neq in E16. rewrite bool_decide_eq_false_2 by lia. reflexivity.
Qed.

Lemma is_dispatch_dispatched (d : Draw) (u : string * Z) :
  is_dispatch (dispatched d u) = true /\ is_GetError (dispatched d u) = false.
Proof.
  destruct u as [key ref]. unfold dispatched.
  destruct (UniformData d !! ref) as [data|]; [|split; reflexivity].
  destruct (bool_decide _); [split; reflexivity|].
  destruct data as [|a [|b [|c [|e [|f data]]]]]; split; reflexivity.
Qed.

(** One iteration of the loop: what it shows of the dispatch, and whether
    it reaches the error check. *)
Lemma bindUniform_dispatch (d : Draw) (key : string) (ref : Z) (s : gl.device) :
  List.filter is_dispatch (events_of (bindUniform d key ref s))
    = (if generic key then [dispatched d (key, ref)] else [])
  /\ count is_GetError (events_of (bindUniform d key ref s))
    = (if checked d (key, ref) then 1%nat else 0%nat).
Proof.
  unfold checked. cbn [fst snd].
  destruct (generic key) eqn:Hg.
  - rewrite (bindUniform_generic d key ref Hg). cbn [negb orb].
    destruct (UniformData d !! ref) as [data|] eqn:E.
    + rewrite bool_decide_eq_true_2 by (eexists; reflexivity).
      rewrite events_bind, (dispatched_code d key ref data s E).
      unfold count. rewrite !List.filter_app.
      destruct (check_uniform_dispatch d key ref
                  (device_of (match data with
                              | [a] => call (gl.Uniform1f ref a)
                              | [a; b] => call (gl.Uniform2f ref a b)
                              | [a; b; c] => call (gl.Uniform3f ref a b c)
                              | [a; b; c; e] => call (gl.Uniform4f ref a b c e)
                              | _ =>
                                  if (Z.of_nat (length data) =? 16) then
                                    call (gl.UniformMatrix4fv ref 1 false data)
                                  else log (FailedToBind (Tag d) key
                                              (Z.of_nat (length data)))
                              end s))) as [Hd Hc].
      unfold count in Hc. rewrite Hd, length_app, Hc.
      destruct (is_dispatch_dispatched d (key, ref)) as [H1 H2].
      cbn [List.filter]. rewrite H1, H2. split; reflexivity.
    + rewrite bool_decide_eq_false_2 by (intros [x Hx]; discriminate Hx).
      unfold dispatched. rewrite E. split; reflexivity.
  - cbn [negb orb]. unfold generic in Hg. unfold bindUniform.
    destruct (String.eqb key "bpos").
    + rewrite events_bind. unfold count. rewrite !List.filter_app, length_app.
      match goal with |- context [check_uniform d key ref ?s1] =>
        destruct (check_uniform_dispatch d key ref s1) as [Hd Hc] end.
      unfold count in Hc. rewrite Hd, Hc.
      destruct (negb (bool_decide (Poses d = []))); split; reflexivity.
    + destruct (String.eqb key "sm").
      * rewrite !events_bind. unfold count. rewrite !List.filter_app, !length_app.
        match goal with |- context [check_uniform d key ref ?s1] =>
          destruct (check_uniform_dispatch d key ref s1) as [Hd Hc] end.
        unfold count in Hc. rewrite Hd, Hc. split; reflexivity.
      * destruct (String.prefix "uv" key); [|discriminate Hg].
        rewrite events_bind. unfold count. rewrite !List.filter_app, length_app.
        match goal with |- context [check_uniform d key ref ?s1] =>
          destruct (check_uniform_dispatch d key ref s1) as [Hd Hc] end.
        unfold count in Hc. rewrite Hd, Hc.
        destruct (List.find _ (Texs d)); split; reflexivity.
Qed.

Lemma bindUniforms_loop_dispatch (d : Draw) (us : list (string * Z)) (s : gl.device) :
  List.filter is_dispatch (events_of (bindUniforms_loop d us s))
    = List.map (dispatched d) (List.filter generic_uniform us)
  /\ count is_GetError (events_of (bindUniforms_loop d us s))
    = length (List.filter (checked d) us).
Proof.
  revert s. induction us as [|[key ref] us IH]; intros s; [split; reflexivity|].
  cbn [bindUniforms_loop]. rewrite events_bind, count_app, List.filter_app.
  destruct (bindUniform_dispatch d key ref s) as [Hd Hc].
  destruct (IH (device_of (bindUniform d key ref s))) as [IHd IHc].
  rewrite Hd, Hc, IHd, IHc. cbn [List.filter]. unfold generic_uniform at 2. cbn [fst].
  destruct (generic key), (checked d (key, ref)); split; reflexivity.
Qed.

(** C7.  Uniform dispatch in [bindUniforms].  For every draw, from any
    device state, the float and matrix uniform calls and the two reports
    that [bindUniforms] (and so [Render]) produces are, in the order of
    the uniforms the shader expects, one per generic uniform name:
    - [UniformMatrix4fv] (one 4x4 matrix) for a payload of 16 values,
      [Uniform1f] ... [Uniform4f] for a payload of 1, 2, 3 or 4 values;
    - for a payload of any other length only the report "Failed to bind",
      and no uniform call;
    - for a uniform without payload only the report "No uniform data";
    no uniform is left out after one of these, whatever the device
    answers.  The error check that closes the loop body runs once for
    every uniform but the ones without payload, and [Render] goes on to
    its draw calls. *)
Theorem bindUniforms_dispatch :
  forall (gc : opengl) (d : Draw) (s : gl.device),
    List.filter is_dispatch (events_of (bindUniforms gc d s))
      = List.map (dispatched d) (List.filter generic_uniform (Uniforms d))
    /\ count is_GetError (events_of (bindUniforms gc d s))
      = length (List.filter (checked d) (Uniforms d))
    /\ List.filter is_dispatch (events_of (Render gc d s))
      = List.map (dispatched d) (List.filter generic_uniform (Uniforms d))
    /\ (exists before, events_of (Render gc d s) = before ++ draw_events d)
    /\ (forall key ref,
          (UniformData d !! ref = None ->
             dispatched d (key, ref) = Log (NoUniformData (Tag d) key)) /\
          (forall data, UniformData d !! ref = Some data ->
             (length data = 16%nat ->
                dispatched d (key, ref) = Gl (gl.UniformMatrix4fv ref 1 false data)) /\
             (forall a, data = [a] ->
                dispatched d (key, ref) = Gl (gl.Uniform1f ref a)) /\
             (forall a b, data = [a; b] ->
                dispatched d (key, ref) = Gl (gl.Uniform2f ref a b)) /\
             (forall a b c, data = [a; b; c] ->
                dispatched d (key, ref) = Gl (gl.Uniform3f ref a b c)) /\
             (forall a b c e, data = [a; b; c; e] ->
                dispatched d (key, ref) = Gl (gl.Uniform4f ref a b c e)) /\
             (bindable (length data) = false ->
                dispatched d (key, ref)
                = Log (FailedToBind (Tag d) key (Z.of_nat (length data)))))).
Proof.
  intros gc d s.
  destruct (bindUniforms_loop_dispatch d (Uniforms d) s) as [Hd Hc].
  split; [exact Hd|]. split; [exact Hc|]. split; [|split].
  - rewrite Render_events, !List.filter_app.
    destruct (bindUniforms_loop_dispatch d (Uniforms d)
                (replay (state_switches gc d) s)) as [Hd' _].
    change (bindUniforms (rendered gc d) d) with (bindUniforms_loop d (Uniforms d)).
    rewrite Hd'.
    assert (Hsw : List.filter is_dispatch (state_switches gc d) = []).
    { unfold state_switches, scissor_on, depth_switch, fbo_switch, shader_switch.
      destruct (Scissor d), (negb (eqb (depthTest gc) (Depth d))),
        (negb (fbo gc =? Fbo d)), (Fbo d =? 0), (negb (shader gc =? Shader d)),
        (Depth d); reflexivity. }
    assert (Hdr : List.filter is_dispatch (draw_events d) = []).
    { unfold draw_events, draw_calls, scissor_off.
      destruct (Scissor d), (mode d), (0 <? Instances d); reflexivity. }
    rewrite Hsw, Hdr, app_nil_r. reflexivity.
  - rewrite Render_events. eexists. rewrite app_assoc. reflexivity.
  - intros key ref. unfold dispatched. split.
    + intros ->. reflexivity.
    + intros data ->. split; [|split; [|split; [|split; [|split]]]].
      * intros Hlen. rewrite bool_decide_eq_true_2 by exact Hlen. reflexivity.
      * intros a ->. reflexivity.
      * intros a b ->. reflexivity.
      * intros a b c ->. reflexivity.
      * intros a b c e ->. reflexivity.
      * intros Hnb.
        destruct (decide (length data = 16%nat)) as [H16|H16];
          [rewrite H16 in Hnb; discriminate Hnb|].
        rewrite bool_decide_eq_false_2 by exact H16.
        destruct data as [|a [|b [|c [|e [|f data]]]]]; try discriminate Hnb;
          reflexivity.
Qed.

Lemma bindUniforms_dispatch_witness :
  List.filter is_dispatch (events_of (Render newRenderer draw_uniforms dev0))
  = [Gl (gl.UniformMatrix4fv 1 1 false mat16); Gl (gl.Uniform3f 2 10 20 30);
     Gl (gl.Uniform1f 3 40); Log (FailedToBind 7 "five" 5);
     Log (NoUniformData 7 "none")]
  /\ count is_GetError (events_of (bindUniforms newRenderer draw_uniforms dev0)) = 4%nat.
Proof.
  destruct (bindUniforms_dispatch newRenderer draw_uniforms dev0)
    as (_ & Hc & Hd & _).
  split; [exact Hd | exact Hc].
Defined.

(** ** Textures *)



(** ** The cache of the binder *)

Lemma keeps_bindings_apply (c : gl.call) (s : gl.device) :
  keeps_bindings (Gl c) = true ->
  gl.program (gl.apply c s) = gl.program s /\
  gl.framebuffer (gl.apply c s) = gl.framebuffer s /\
  gl.viewport (gl.apply c s) = gl.viewport s.
Proof. destruct c; simpl; intros Hk; try discriminate Hk; repeat split. Qed.



Lemma uniform_event_neutral (e : event) :
  uniform_event e = true -> cache_neutral e = true.
Proof. destruct e as [[]|]; simpl; intros H; try discriminate H; reflexivity. Qed.

Lemma bindVertexBuffer_sound (gc : opengl) (vdata : Data) :
  sound (bindVertexBuffer gc vdata).
Proof. unfold bindVertexBuffer, instanced_rows. cbn [foldr]. sound_auto. Qed.


Lemma bindFaceBuffer_sound (gc : opengl) (fd : faceData) : sound (bindFaceBuffer gc fd).
Proof. unfold bindFaceBuffer. sound_auto. Qed.


Lemma bindVertexBuffers_sound (gc : opengl) (keys : list Z) (vdata : gmap Z Data) :
  sound (bindVertexBuffers gc keys vdata).
Proof.
  revert vdata. induction keys as [|k keys IH]; intros vdata; cbn [bindVertexBuffers].
  - apply sound_ret.
  - apply sound_bind; [|intros m; apply IH].
    destruct (vdata !! k) as [[vd|fd]|]; try apply sound_ret.
    destruct (vd_rebind vd); [|apply sound_ret].
    apply sound_bind; [apply bindVertexBuffer_sound|].
    intros [vd'|fd']; apply sound_ret.
Qed.









Lemma draw_events_neutral (d : Draw) : forallb cache_neutral (draw_events d) = true.
Proof.
  unfold draw_events, draw_calls, scissor_off.
  destruct (mode d), (0 <? Instances d), (Scissor d); reflexivity.
Qed.





(** *** Pre- and postconditions of computations *)

Lemma hoare_bind {A B : Type} (P : gl.device -> Prop) (R : A -> gl.device -> Prop)
    (Q : B -> gl.device -> Prop) (m : M A) (k : A -> M B) :
  hoare P m R -> (forall a, hoare (R a) (k a) Q) -> hoare P (m ≫= k) Q.
Proof.
  intros Hm Hk s Hs. rewrite run_bind. unfold result_of at 1, device_of at 1.
  cbn [fst snd]. apply Hk, Hm, Hs.
Qed.

Lemma hoare_ret {A : Type} (P : gl.device -> Prop) (Q : A -> gl.device -> Prop) (a : A) :
  (forall s, P s -> Q a s) -> hoare P (mret a) Q.
Proof. intros H s Hs. apply H, Hs. Qed.

Lemma hoare_call (P : gl.device -> Prop) (Q : unit -> gl.device -> Prop) (c : gl.call) :
  (forall s, P s -> Q tt (gl.apply c s)) -> hoare P (call c) Q.
Proof. intros H s Hs. apply H, Hs. Qed.
















(** ** The mesh store *)

Lemma Mesh_counts_slot0_aux `{DataOps} (m : Mesh) (v : Data) :
  vdata m !! 0 = Some v -> (0 <? Z.of_nat (size (vdata m))) = true.
Proof.
  intros Hv. apply Z.ltb_lt.
  destruct (size (vdata m)) eqn:E; [|lia].
  apply map_size_empty_inv in E. rewrite E in Hv. rewrite lookup_empty in Hv.
  discriminate Hv.
Qed.

(** C9, as the code has it.  For every mesh with an initialized face
    buffer and an initialized attribute channel at layout location 0,
    [counts] returns the face buffer's [Len] and the [Len] of the channel
    at location 0. *)
Theorem counts_slot0 :
  forall (ops : DataOps) (m : Mesh) (f v : Data),
    faces m = Some f -> vdata m !! 0 = Some v ->
    counts m = Returned (Len f, Len v).
Proof.
  intros ops m f v Hf Hv. unfold counts.
  rewrite (Mesh_counts_slot0_aux m v Hv), Hf, Hv. reflexivity.
Qed.

Lemma counts_slot0_witness : counts (quad_at 0) = Returned (6, 4).
Proof. exact (counts_slot0 data_go (quad_at 0) _ _ eq_refl eq_refl). Defined.

(** A mesh whose only attribute channel is at layout location 1: it has
    a face buffer and an initialized channel, and [counts] panics. *)
Lemma counts_first_channel_counterexample :
  is_Some (faces (quad_at 1))
  /\ is_Some (vdata (quad_at 1) !! 1)
  /\ counts (quad_at 1) = Panicked "nil pointer dereference"
  /\ ~ (exists fc vc, counts (quad_at 1) = Returned (fc, vc)).
Proof.
  split; [eexists; reflexivity|]. split; [eexists; reflexivity|].
  split; [reflexivity|]. intros (fc & vc & H). discriminate H.
Qed.

(** ** Dirty flags *)

Lemma result_bind {A B : Type} (m : M A) (k : A -> M B) (s : gl.device) :
  result_of ((m ≫= k) s) = result_of (k (result_of (m s)) (device_of (m s))).
Proof. rewrite run_bind. reflexivity. Qed.

Lemma device_bind {A B : Type} (m : M A) (k : A -> M B) (s : gl.device) :
  device_of ((m ≫= k) s) = device_of (k (result_of (m s)) (device_of (m s))).
Proof. rewrite run_bind. reflexivity. Qed.

Lemma hoare_conseq {A : Type} (P P' : gl.device -> Prop) (Q Q' : A -> gl.device -> Prop)
    (m : M A) :
  (forall s, P' s -> P s) -> (forall a s, Q a s -> Q' a s) ->
  hoare P m Q -> hoare P' m Q'.
Proof. intros HP HQ Hm s Hs. apply HQ, Hm, HP, Hs. Qed.

Lemma hoare_any {A : Type} (P : gl.device -> Prop) (m : M A) :
  hoare P m (fun _ _ => True).
Proof. intros s _. exact I. Qed.

(** [bindVertexBuffer] hands back the vertex buffer it was given. *)
Lemma bindVertexBuffer_VD (gc : opengl) (vd : vertexData) (s : gl.device) :
  exists vd', result_of (bindVertexBuffer gc (VD vd) s) = VD vd'.
Proof. unfold bindVertexBuffer. rewrite !result_bind. eexists. reflexivity. Qed.

(** The loop of [BindMesh] lowers the flag of every buffer it visits and
    raises none. *)
Lemma bindVertexBuffers_clears (gc : opengl) (keys : list Z) :
  forall (vdata : gmap Z Data) (s : gl.device) (k : Z),
    k ∈ keys \/ clean_at vdata k ->
    clean_at (result_of (bindVertexBuffers gc keys vdata s)) k.
Proof.
  induction keys as [|k0 keys IH]; intros vdata s k Hk.
  - destruct Hk as [Hin|Hc]; [|exact Hc]. apply elem_of_nil in Hin. contradiction.
  - cbn [bindVertexBuffers]. rewrite result_bind. apply IH.
    set (step := match vdata !! k0 with
                 | Some (VD vd) => _ | _ => _ end).
    assert (Hstep : clean_at (result_of (step s)) k0 /\
                    (forall k', clean_at vdata k' -> clean_at (result_of (step s)) k')).
    { subst step. destruct (vdata !! k0) as [[vd|fd]|] eqn:E0.
      - destruct (vd_rebind vd) eqn:Er.
        + rewrite result_bind.
          destruct (bindVertexBuffer_VD gc vd s) as [vd' ->].
          split.
          * intros d. change (<[k0:=VD (vd_set_rebind false vd')]> vdata !! k0 = Some d
                              -> vd_clean d = true).
            rewrite lookup_insert_eq. intros [= <-]. reflexivity.
          * intros k' Hc d.
            change (<[k0:=VD (vd_set_rebind false vd')]> vdata !! k' = Some d
                    -> vd_clean d = true).
            destruct (decide (k0 = k')) as [<-|Hne].
            -- rewrite lookup_insert_eq. intros [= <-]. reflexivity.
            -- rewrite lookup_insert_ne by exact Hne. apply Hc.
        + split; [|intros k' Hc; exact Hc].
          intros d. change (vdata !! k0 = Some d -> vd_clean d = true).
          rewrite E0. intros [= <-]. simpl. rewrite Er. reflexivity.
      - split; [|intros k' Hc; exact Hc].
        intros d. change (vdata !! k0 = Some d -> vd_clean d = true).
        rewrite E0. intros [= <-]. reflexivity.
      - split; [|intros k' Hc; exact Hc].
        intros d. change (vdata !! k0 = Some d -> vd_clean d = true).
        rewrite E0. discriminate. }
    destruct Hstep as [H0 Hrest].
    destruct Hk as [Hin|Hc].
    + apply elem_of_cons in Hin as [->|Hin]; [right; exact H0 | left; exact Hin].
    + right. apply Hrest, Hc.
Qed.

(** Over buffers whose flags are all down, the loop does nothing. *)
Lemma bindVertexBuffers_clean (gc : opengl) (keys : list Z) (vdata : gmap Z Data)
    (s : gl.device) :
  (forall k, clean_at vdata k) ->
  bindVertexBuffers gc keys vdata s = (vdata, s, []).
Proof.
  intros Hc. induction keys as [|k keys IH]; [reflexivity|].
  cbn [bindVertexBuffers].
  assert (Hstep : match vdata !! k with
                  | Some (VD vd) =>
                      if vd_rebind vd then
                        vbuff ← bindVertexBuffer gc (VD vd);
                        match vbuff with
                        | VD vd => mret (<[k := VD (vd_set_rebind false vd)]> vdata)
                        | FD _ => mret vdata
                        end
                      else mret vdata
                  | _ => mret vdata
                  end = mret vdata).
  { destruct (vdata !! k) as [[vd|fd]|] eqn:E; try reflexivity.
    specialize (Hc k _ E). simpl in Hc. apply negb_true_iff in Hc. rewrite Hc.
    reflexivity. }
  rewrite Hstep. erewrite bind_run; [|reflexivity|exact IH]. reflexivity.
Qed.

(** A [BindMesh] that returns no error has visited every buffer. *)
Lemma BindMesh_success_clean (gc : opengl) (keys : list Z) (vao : Z)
    (vdata : gmap Z Data) (fdata : option Data) (s : gl.device) :
  range_order keys vdata ->
  (result_of (BindMesh gc keys vao vdata fdata s)).1.1.1 = None ->
  all_clean (result_of (BindMesh gc keys vao vdata fdata s)).1.2
            (result_of (BindMesh gc keys vao vdata fdata s)).2.
Proof.
  intros Hord. unfold BindMesh. rewrite result_bind.
  destruct (negb (result_of (GetError s) =? gl.NO_ERROR)); [discriminate|].
  rewrite !result_bind.
  match goal with |- context [bindVertexBuffers gc keys vdata ?s1] =>
    set (vdata' := result_of (bindVertexBuffers gc keys vdata s1)) end.
  assert (Hv : forall k, clean_at vdata' k).
  { intros k. apply bindVertexBuffers_clears.
    destruct (vdata !! k) as [d|] eqn:E.
    - left. unfold range_order in Hord. rewrite Hord.
      apply list_elem_of_fmap. exists (k, d). split; [reflexivity|].
      apply elem_of_map_to_list, E.
    - right. intros d Hd. congruence. }
  match goal with |- context [if ?b then _ else _] => destruct b end;
    [discriminate|].
  rewrite !result_bind.
  match goal with |- context [if negb (result_of (GetError ?s3) =? _) then _ else _] =>
    destruct (negb (result_of (GetError s3) =? gl.NO_ERROR)) end;
    [discriminate|].
  rewrite !result_bind. intros _. cbn [result_of mret M_ret ret fst snd].
  split; [exact Hv|].
  destruct fdata as [[vd|fd]|]; cbn.
  - intros d [= <-]. reflexivity.
  - destruct (fd_rebind fd) eqn:Er.
    + rewrite result_bind. cbn. intros d [= <-]. reflexivity.
    + cbn. intros d [= <-]. simpl. rewrite Er. reflexivity.
  - discriminate.
Qed.

Lemma BindMesh_clean_no_upload (gc : opengl) (keys : list Z) (vao : Z)
    (vdata : gmap Z Data) (fdata : option Data) :
  all_clean vdata fdata ->
  emits no_upload (BindMesh gc keys vao vdata fdata).
Proof.
  intros [Hv Hf]. unfold BindMesh.
  assert (Hloop : forall (B : Type) (v : gmap Z Data -> M B),
             emits no_upload (v vdata) ->
             emits no_upload (bindVertexBuffers gc keys vdata ≫= v)).
  { intros B v H s.
    rewrite events_bind, (bindVertexBuffers_clean gc keys vdata s Hv). apply H. }
  assert (Hface : match fdata with
                  | Some (FD fd) =>
                      if fd_rebind fd then
                        fd ← bindFaceBuffer gc fd;
                        mret (Some (FD (fd_set_rebind false fd)))
                      else mret fdata
                  | _ => mret fdata
                  end = mret fdata).
  { destruct fdata as [[vd|fd]|]; try reflexivity.
    specialize (Hf _ eq_refl). simpl in Hf. apply negb_true_iff in Hf. rewrite Hf.
    reflexivity. }
  rewrite Hface.
  apply emits_bind; [emits_step|]. intros glerr.
  destruct (negb (glerr =? gl.NO_ERROR)); [apply emits_ret|].
  apply emits_bind; [emits_auto|]. intros vao'.
  apply emits_bind; [emits_step|]. intros _.
  apply Hloop. emits_auto.
Qed.

Lemma no_upload_not_BufferData (e : event) : no_upload e = true -> is_BufferData e = false.
Proof. destruct e as [[]|]; simpl; intros H; try discriminate H; reflexivity. Qed.

Lemma no_upload_not_upload (e : event) : no_upload e = true -> is_upload e = false.
Proof. unfold no_upload. apply negb_true_iff. Qed.

(** [bind] as a run of [BindMesh]. *)
Lemma Mesh_bind_run (gc : opengl) (keys : list Z) (m : Mesh) (s : gl.device) :
  let r := BindMesh gc keys (vao m) (vdata m) (faces m) s in
  Mesh_bind gc keys m s
  = ((result_of r).1.1.1,
     mkMesh (name m) (tag m) (result_of r).1.1.2 false (result_of r).2 (result_of r).1.2,
     device_of r, events_of r).
Proof.
  intros r. subst r. unfold Mesh_bind, engine_bind.
  cbn [vao vdata faces name tag rebind set_rebind].
  rewrite run_bind.
  destruct (BindMesh gc keys (vao m) (vdata m) (faces m) s) as [[[[[err v] vd] fd] s1] t1].
  cbn. rewrite app_nil_r. reflexivity.
Qed.

(** C3.  Dirty-flag protocol.  Whatever [Set] does to a buffer:
    [SetData] on an initialized attribute slot and [SetFaces] on an
    initialized face channel raise the mesh's rebind flag.  After a
    [bind] that returned no error (the range over the vertex buffers
    visiting every slot) the mesh's flag and the flag of every buffer are
    down, and a further [bind] of the resulting mesh, by any context, in
    any order and device state, makes no [BufferData] call (and no
    [BufferSubData] call). *)
Theorem mesh_dirty_flag_protocol :
  forall (ops : DataOps),
    (forall (m : Mesh) (lloc : Z) (data : payload),
       is_Some (vdata m !! lloc) -> rebind (SetData m lloc data) = true) /\
    (forall (m : Mesh) (data : list Z),
       is_Some (faces m) -> rebind (SetFaces m data) = true) /\
    (forall (gc : opengl) (keys : list Z) (m m' : Mesh) (s : gl.device),
       range_order keys (vdata m) ->
       result_of (Mesh_bind gc keys m s) = (None, m') ->
       rebind m' = false /\
       all_clean (vdata m') (faces m') /\
       (forall (gc2 : opengl) (keys2 : list Z) (s2 : gl.device),
          count is_BufferData (events_of (Mesh_bind gc2 keys2 m' s2)) = 0%nat /\
          count is_upload (events_of (Mesh_bind gc2 keys2 m' s2)) = 0%nat)).
Proof.
  intros ops. split; [|split].
  - intros m lloc data [v Hv]. unfold SetData. rewrite Hv. reflexivity.
  - intros m data [f Hf]. unfold SetFaces. rewrite Hf. reflexivity.
  - intros gc keys m m' s Hord Hres. rewrite Mesh_bind_run in Hres.
    unfold result_of at 1 in Hres. cbn [fst snd] in Hres.
    injection Hres as Herr Hm'.
    pose proof (BindMesh_success_clean gc keys (vao m) (vdata m) (faces m) s Hord Herr)
      as Hclean.
    subst m'. cbn [rebind vdata faces]. split; [reflexivity|]. split; [exact Hclean|].
    intros gc2 keys2 s2. rewrite Mesh_bind_run. unfold events_of at 1 3. cbn [snd].
    cbn [vao vdata faces].
    pose proof (BindMesh_clean_no_upload gc2 keys2
                  (result_of (BindMesh gc keys (vao m) (vdata m) (faces m) s)).1.1.2
                  _ _ Hclean s2) as Hno.
    split.
    + apply (count_none _ no_upload); [apply no_upload_not_BufferData | exact Hno].
    + apply (count_none _ no_upload); [apply no_upload_not_upload | exact Hno].
Qed.

Lemma mesh_dirty_flag_protocol_witness :
  rebind (quad_at 0) = true
  /\ count is_BufferData (events_of first_bind) = 2%nat
  /\ rebind (result_of first_bind).2 = false
  /\ count is_BufferData
       (events_of (Mesh_bind newRenderer [0] (result_of first_bind).2
                     (device_of first_bind))) = 0%nat.
Proof.
  destruct (mesh_dirty_flag_protocol data_go) as (Hset & _ & Hbind).
  assert (Hord : range_order [0] (vdata (quad_at 0))).
  { unfold range_order. vm_compute. reflexivity. }
  assert (Hres : result_of first_bind = (None, (result_of first_bind).2)).
  { vm_compute. reflexivity. }
  destruct (Hbind newRenderer [0] (quad_at 0) _ dev0 Hord Hres) as (Hflag & _ & Hagain).
  split; [reflexivity|]. split; [vm_compute; reflexivity|]. split; [exact Hflag|].
  exact (proj1 (Hagain newRenderer [0] (device_of first_bind))).
Defined.

(** C10.  [Mesh.bind] lowers the mesh's rebind flag whatever the device
    bind returns.  In particular, when the device has an error pending the
    bind returns that error and the mesh comes back unchanged except for
    the lowered flag, the flags of its buffers still as they were.  Of the
    operations of the mesh store only [SetData] on an initialized slot and
    [SetFaces] on an initialized face channel raise the flag again;
    [InitData], [InitFaces] and the two setters on a missing channel leave
    it as it is.  With the flag down, an engine that binds a mesh only
    while its flag is up makes no device call for it. *)
Theorem Mesh_bind_marks_clean :
  (forall (gc : opengl) (keys : list Z) (m : Mesh) (s : gl.device),
     rebind (result_of (Mesh_bind gc keys m s)).2 = false)
  /\
  (forall (gc : opengl) (keys : list Z) (m : Mesh) (s : gl.device) (e : Z) (es : list Z),
     gl.pending_errors s = e :: es -> e <> gl.NO_ERROR ->
     Mesh_bind gc keys m s
     = (Some (BindMeshPriorError e), set_rebind false m,
        gl.apply (gl.GetError e) s, [Gl (gl.GetError e)]))
  /\
  (forall (ops : DataOps) (m : Mesh),
     (forall lloc span usage normalize,
        rebind (InitData m lloc span usage normalize) = rebind m) /\
     (forall usage, rebind (InitFaces m usage) = rebind m) /\
     (forall lloc data, vdata m !! lloc = None -> SetData m lloc data = m) /\
     (forall data, faces m = None -> SetFaces m data = m))
  /\
  (forall (gc gc2 : opengl) (keys keys2 : list Z) (m : Mesh) (s s2 : gl.device),
     let m' := (result_of (Mesh_bind gc keys m s)).2 in
     rebind_if_dirty gc2 keys2 m' s2 = (None, m', s2, [])).
Proof.
  split; [|split; [|split]].
  - intros gc keys m s. rewrite Mesh_bind_run. reflexivity.
  - intros gc keys m s e es Hpend Hne. rewrite Mesh_bind_run.
    assert (Hrun : BindMesh gc keys (vao m) (vdata m) (faces m) s
                   = (Some (BindMeshPriorError e), vao m, vdata m, faces m,
                      gl.apply (gl.GetError e) s, [Gl (gl.GetError e)])).
    { unfold BindMesh.
      eapply bind_run with (a := e) (t1 := [Gl (gl.GetError e)]).
      - unfold GetError. rewrite Hpend. reflexivity.
      - apply Z.eqb_neq in Hne. rewrite Hne. reflexivity. }
    rewrite Hrun. destruct m; reflexivity.
  - intros ops m. split; [|split; [|split]].
    + intros lloc span usage normalize. unfold InitData.
      destruct (vdata m !! lloc); reflexivity.
    + intros usage. unfold InitFaces. destruct (faces m); reflexivity.
    + intros lloc data Hnone. unfold SetData. rewrite Hnone. reflexivity.
    + intros data Hnone. unfold SetFaces. rewrite Hnone. reflexivity.
  - intros gc gc2 keys keys2 m s s2 m'. unfold rebind_if_dirty.
    assert (Hflag : rebind m' = false).
    { subst m'. rewrite Mesh_bind_run. reflexivity. }
    rewrite Hflag. reflexivity.
Qed.

Lemma Mesh_bind_marks_clean_witness :
  Mesh_bind newRenderer [0] (quad_at 0) dev_error
  = (Some (BindMeshPriorError 0x0502), set_rebind false (quad_at 0),
     gl.apply (gl.GetError 0x0502) dev_error, [Gl (gl.GetError 0x0502)])
  /\ SetData (newMesh "empty" 12) 0 (PFloats [1; 2; 3]) = newMesh "empty" 12.
Proof.
  destruct Mesh_bind_marks_clean as (_ & Herr & Hops & _).
  split.
  - apply (Herr newRenderer [0] (quad_at 0) dev_error 0x0502 []); [reflexivity|].
    unfold gl.NO_ERROR. lia.
  - destruct (Hops data_go (newMesh "empty" 12)) as (_ & _ & Hset & _).
    apply Hset. reflexivity.
Defined.

(** ** The flow field example *)

Lemma int64_small (z : Z) : is_int64 z -> int64 z = z.
Proof.
  unfold is_int64, int64. intros Hz.
  rewrite Z.mod_small by lia. lia.
Qed.

(** X1.  The cell of an identifier is the cell it was made from: for a
    grid of positive width [msize], a row [x >= 0] and a column
    [0 <= y < msize] whose identifier fits an int, [at (id x y)] is
    [(x, y)]; so two such cells with one identifier are the same cell. *)
Theorem ff_at_id :
  forall (msize x y : Z),
    0 < msize -> 0 <= x -> 0 <= y < msize -> x * msize + y < 2 ^ 63 ->
    ff_at msize (ff_id msize x y) = Returned (x, y) /\
    (forall x' y',
       0 <= x' -> 0 <= y' < msize -> x' * msize + y' < 2 ^ 63 ->
       ff_id msize x' y' = ff_id msize x y -> x' = x /\ y' = y).
Proof.
  assert (Hid : forall msize x y,
            0 < msize -> 0 <= x -> 0 <= y < msize -> x * msize + y < 2 ^ 63 ->
            ff_id msize x y = x * msize + y).
  { intros msize x y Hm Hx Hy Hfit. unfold ff_id.
    rewrite (int64_small (x * msize)) by (unfold is_int64; nia).
    apply int64_small. unfold is_int64. nia. }
  assert (Hat : forall msize x y,
            0 < msize -> 0 <= x -> 0 <= y < msize -> x * msize + y < 2 ^ 63 ->
            ff_at msize (x * msize + y) = Returned (x, y)).
  { intros msize x y Hm Hx Hy Hfit. unfold ff_at.
    destruct (Z.eqb_spec msize 0) as [->|_]; [lia|].
    assert (Hq : Z.quot (x * msize + y) msize = x).
    { rewrite Z.quot_div_nonneg by nia.
      rewrite Z.div_add_l by lia. rewrite Z.div_small by lia. lia. }
    assert (Hr : Z.rem (x * msize + y) msize = y).
    { rewrite Z.rem_mod_nonneg by nia.
      rewrite Z.add_comm, Z.mod_add by lia. apply Z.mod_small. lia. }
    rewrite Hq, Hr, int64_small; [reflexivity|]. unfold is_int64. nia. }
  intros msize x y Hm Hx Hy Hfit. split.
  - rewrite Hid by assumption. apply Hat; assumption.
  - intros x' y' Hx' Hy' Hfit' Heq.
    pose proof (Hat msize x' y' Hm Hx' Hy' Hfit') as H1.
    pose proof (Hat msize x y Hm Hx Hy Hfit) as H2.
    rewrite <- (Hid msize x' y') in H1 by assumption.
    rewrite <- (Hid msize x y) in H2 by assumption.
    rewrite Heq in H1. rewrite H1 in H2. injection H2 as -> ->. split; reflexivity.
Qed.

Lemma ff_at_id_witness : ff_at 69 (ff_id 69 12 68) = Returned (12, 68).
Proof. apply (ff_at_id 69 12 68); lia. Defined.

(** X2.  The identifier of a cell is the identifier it was taken from:
    for every width other than 0 and every int [id], [at] returns a cell
    [(x, y)] with [id x y = id], also where the division wraps; for
    width 0 [at] panics (integer divide by zero). *)
Theorem ff_id_at :
  forall (msize id : Z),
    is_int64 msize -> is_int64 id ->
    (msize <> 0 ->
     exists x y, ff_at msize id = Returned (x, y) /\ ff_id msize x y = id) /\
    (msize = 0 -> ff_at msize id = Panicked "integer divide by zero").
Proof.
  intros msize id Hm Hi. split.
  - intros Hne. unfold ff_at. destruct (Z.eqb_spec msize 0) as [?|_]; [contradiction|].
    eexists. eexists. split; [reflexivity|].
    unfold ff_id.
    rewrite (Z.quot_div id msize) by exact Hne. rewrite (Z.rem_mod id msize) by exact Hne.
    pose proof (Z.div_mod (Z.abs id) (Z.abs msize)) as Hdm.
    pose proof (Z.mod_pos_bound (Z.abs id) (Z.abs msize)) as Hmb.
    assert (Hk : 0 <= Z.abs id / Z.abs msize) by (apply Z.div_pos; lia).
    set (k := Z.abs id / Z.abs msize) in *.
    set (r := Z.abs id mod Z.abs msize) in *.
    unfold is_int64 in *.
    assert (Hkr : Z.abs id = Z.abs msize * k + r) by (apply Hdm; lia).
    assert (Hr : 0 <= r < Z.abs msize) by (apply Hmb; lia).
    clearbody k r. clear Hdm Hmb.
    assert (Hkle : k <= Z.abs id) by nia.
    destruct (Z.eq_dec k (2 ^ 63)) as [Hwrap|Hnowrap].
    + assert (Hcase : id = - 2 ^ 63 /\ Z.abs msize = 1 /\ r = 0) by nia.
      destruct Hcase as (-> & Habs & ->).
      assert (Hm1 : msize = 1 \/ msize = -1) by lia.
      subst k. destruct Hm1 as [-> | ->]; reflexivity.
    + assert (Hq : is_int64 (Z.sgn id * Z.sgn msize * k)).
      { unfold is_int64.
        destruct (Z.sgn_spec id) as [[? ->]|[[? ->]|[? ->]]];
          destruct (Z.sgn_spec msize) as [[? ->]|[[? ->]|[? ->]]]; lia. }
      rewrite (int64_small _ Hq).
      assert (Hprod : Z.sgn id * Z.sgn msize * k * msize = Z.sgn id * (Z.abs msize * k)).
      { destruct (Z.sgn_spec msize) as [[? Hs]|[[? Hs]|[? Hs]]]; rewrite Hs; lia. }
      rewrite Hprod.
      assert (Hp : is_int64 (Z.sgn id * (Z.abs msize * k))).
      { unfold is_int64.
        destruct (Z.sgn_spec id) as [[? ->]|[[? ->]|[? ->]]]; nia. }
      rewrite (int64_small _ Hp).
      assert (Hsum : Z.sgn id * (Z.abs msize * k) + Z.sgn id * r = id).
      { destruct (Z.sgn_spec id) as [[? Hs]|[[? Hs]|[? Hs]]]; rewrite Hs; lia. }
      rewrite Hsum. apply int64_small. unfold is_int64. lia.
  - intros ->. reflexivity.
Qed.

Lemma ff_id_at_witness :
  exists x y, ff_at 69 1234 = Returned (x, y) /\ ff_id 69 x y = 1234.
Proof. apply (proj1 (ff_id_at 69 1234 ltac:(unfold is_int64; lia) ltac:(unfold is_int64; lia))). lia. Defined.

(** ** More on the cullers *)

Lemma Qsq_nonneg (a : Q) : (0 <= a * a)%Q.
Proof. destruct a as [n d]. unfold Qle, Qmult. simpl. nia. Qed.

Lemma Qsq_pos (a : Q) : ~ (a == 0)%Q -> (0 < a * a)%Q.
Proof. destruct a as [n d]. unfold Qlt, Qeq, Qmult. simpl. nia. Qed.

Lemma Qsum_sq_pos (a b c : Q) :
  (0 < a * a + b * b + c * c)%Q <-> ~ (a == 0 /\ b == 0 /\ c == 0)%Q.
Proof.
  split.
  - intros Hpos (Ha & Hb & Hc). rewrite Ha, Hb, Hc in Hpos.
    apply (Qlt_irrefl 0). exact Hpos.
  - intros Hne.
    pose proof (Qsq_nonneg a) as Ha0. pose proof (Qsq_nonneg b) as Hb0.
    pose proof (Qsq_nonneg c) as Hc0.
    destruct (Qeq_dec a 0) as [Ha|Ha]; [destruct (Qeq_dec b 0) as [Hb|Hb];
      [destruct (Qeq_dec c 0) as [Hc|Hc]; [exfalso; apply Hne; auto|]|]|].
    + apply Qsq_pos in Hc.
      apply Qlt_le_trans with (0 + 0 + c * c)%Q; [rewrite !Qplus_0_l; exact Hc|].
      apply Qplus_le_compat; [apply Qplus_le_compat; assumption | apply Qle_refl].
    + apply Qsq_pos in Hb.
      apply Qlt_le_trans with (0 + b * b + 0)%Q;
        [rewrite Qplus_0_l, Qplus_0_r; exact Hb|].
      apply Qplus_le_compat; [apply Qplus_le_compat; [assumption | apply Qle_refl]
                             | assumption].
    + apply Qsq_pos in Ha.
      apply Qlt_le_trans with (a * a + 0 + 0)%Q; [rewrite !Qplus_0_r; exact Ha|].
      apply Qplus_le_compat; [apply Qplus_le_compat; [apply Qle_refl | assumption]
                             | assumption].
Qed.

Lemma Qsub_zero (x y : Q) : (x - y == 0)%Q <-> (x == y)%Q.
Proof.
  split; intros H.
  - assert (E : (x == (x - y) + y)%Q) by ring. rewrite E, H. ring.
  - rewrite H. ring.
Qed.

Lemma clamp_sq_zero (r : Q) :
  (r <= 0)%Q -> ((if Qltb r 0 then 0 else r) * (if Qltb r 0 then 0 else r) == 0)%Q.
Proof.
  intros Hr. destruct (Qltb r 0) eqn:E; [ring|].
  apply Qltb_nlt in E. assert (Hz : (r == 0)%Q) by (apply Qle_antisym; assumption).
  rewrite Hz. ring.
Qed.

(** X3.  A negative radius is clamped, not used as given.  On any float64
    arithmetic a culler made with a radius below 0 is the culler made with
    radius 0.  On binary64 the radius culler then culls exactly the
    candidates whose computed squared distance from the camera is greater
    than 0: a candidate so close that the squares underflow is kept, as
    the one at 2^-600 from the camera is.  In exact arithmetic it culls
    every candidate except one at the camera's own position. *)
Theorem radiusCull_clamped :
  (forall (F : Type) (ops : Float64 F) (r : F),
     fltb r f0 = true ->
     NewRadiusCull r = NewRadiusCull f0 /\ NewFrontCull r = NewFrontCull f0)
  /\
  (forall (r : float) (cam : Camera float) (wx wy wz : float),
     PrimFloat.ltb r 0%float = true ->
     radiusCull_Culled (NewRadiusCull r) cam wx wy wz
     = PrimFloat.ltb 0%float (Distance cam wx wy wz))
  /\
  radiusCull_Culled (NewRadiusCull (-5)%float) origin_float 0x1p-600%float 0%float 0%float
  = false
  /\
  (forall (r : Q) (cam : Camera Q) (wx wy wz : Q),
     (r <= 0)%Q ->
     (radiusCull_Culled (NewRadiusCull r) cam wx wy wz = true
      <-> ~ (wx == vX (Loc (at_ cam)) /\ wy == vY (Loc (at_ cam))
             /\ wz == vZ (Loc (at_ cam)))%Q)).
Proof.
  split; [|split; [|split]].
  - intros F ops r Hr. unfold NewRadiusCull, NewFrontCull. rewrite Hr.
    destruct (fltb f0 f0); split; reflexivity.
  - intros r cam wx wy wz Hr. unfold radiusCull_Culled, NewRadiusCull.
    cbn [rc_rr fltb fmul f0 binary64]. rewrite Hr. reflexivity.
  - reflexivity.
  - intros r cam wx wy wz Hr. unfold radiusCull_Culled, NewRadiusCull, Distance.
    cbn [rc_rr fltb fsub fadd fmul f0 exact].
    rewrite Qltb_lt.
    pose proof (clamp_sq_zero r Hr) as Hz.
    set (dx := (wx - vX (Loc (at_ cam)))%Q). set (dy := (wy - vY (Loc (at_ cam)))%Q).
    set (dz := (wz - vZ (Loc (at_ cam)))%Q).
    assert (Hiff : (0 < dx * dx + dy * dy + dz * dz)%Q
                   <-> ((if Qltb r 0 then 0 else r) * (if Qltb r 0 then 0 else r)
                        < dx * dx + dy * dy + dz * dz)%Q).
    { split; intros H.
      - eapply Qle_lt_trans; [|exact H]. rewrite Hz. apply Qle_refl.
      - eapply Qle_lt_trans; [|exact H]. rewrite Hz. apply Qle_refl. }
    rewrite <- Hiff, Qsum_sq_pos. subst dx dy dz.
    rewrite !Qsub_zero. reflexivity.
Qed.

Lemma radiusCull_clamped_witness :
  radiusCull_Culled (NewRadiusCull (-5)%float) origin_float 3%float 0%float 0%float = true
  /\ radiusCull_Culled (NewRadiusCull (-5 # 1)%Q) origin_exact 1%Q 0%Q 0%Q = true.
Proof.
  destruct radiusCull_clamped as (_ & Hf & _ & Hq). split.
  - rewrite (Hf (-5)%float origin_float 3%float 0%float 0%float eq_refl). reflexivity.
  - apply (proj2 (Hq (-5 # 1)%Q origin_exact 1%Q 0%Q 0%Q ltac:(unfold Qle; simpl; lia))).
    intros (H & _). vm_compute in H. discriminate H.
Defined.

Lemma ltb_nan_l (y : float) : PrimFloat.ltb nan y = false.
Proof. rewrite ltb_spec. reflexivity. Qed.

Lemma ltb_nan_r (x : float) : PrimFloat.ltb x nan = false.
Proof.
  rewrite ltb_spec. unfold SFltb, SFcompare.
  destruct (Prim2SF x) as [s|s| |s m e]; try reflexivity; destruct s; reflexivity.
Qed.

(** X4.  On binary64 a culler made with a NaN radius culls nothing: the
    clamp [r < 0] does not catch NaN, the squared radius is NaN, and the
    comparison [toc > rr] is false whatever the distance.  This holds for
    the radius culler and, for any rotation operation, the front culler,
    at every camera and every candidate position. *)
Theorem cull_nan_radius_keeps_all :
  (forall (cam : Camera float) (wx wy wz : float),
     radiusCull_Culled (NewRadiusCull nan) cam wx wy wz = false)
  /\
  (forall (MultSQ : rotation float) (cam : Camera float) (wx wy wz : float),
     frontCull_Culled MultSQ (NewFrontCull nan) cam wx wy wz = false).
Proof.
  split.
  - intros cam wx wy wz. unfold radiusCull_Culled.
    change (rc_rr (NewRadiusCull nan)) with nan. apply ltb_nan_l.
  - intros MultSQ cam wx wy wz. unfold frontCull_Culled.
    change (fc_rr (NewFrontCull nan)) with nan.
    destruct (MultSQ _ _ _ _) as [[cx cy] cz]. apply ltb_nan_l.
Qed.

(** ** More on [Render] *)

Lemma replay_keeps (t : list event) (s : gl.device) :
  forallb keeps_bindings t = true ->
  gl.program (replay t s) = gl.program s /\
  gl.framebuffer (replay t s) = gl.framebuffer s /\
  gl.viewport (replay t s) = gl.viewport s.
Proof.
  revert s. induction t as [|e t IH]; intros s Ht; [repeat split|].
  simpl in Ht. apply andb_true_iff in Ht as [He Ht].
  change (replay (e :: t) s) with (replay t (replay1 s e)).
  destruct (IH (replay1 s e) Ht) as (Hp & Hf & Hv). rewrite Hp, Hf, Hv.
  destruct e as [c|l]; [apply keeps_bindings_apply, He | repeat split].
Qed.

Lemma cache_neutral_keeps (e : event) : cache_neutral e = true -> keeps_bindings e = true.
Proof. unfold cache_neutral. intros H. apply andb_true_iff in H. tauto. Qed.

Lemma cache_neutral_leaves_depth (e : event) :
  cache_neutral e = true -> leaves_cap gl.DEPTH_TEST e = true.
Proof. unfold cache_neutral. intros H. apply andb_true_iff in H. tauto. Qed.

(** What the device is left with after [Render], relative to the state the
    switches lead to. *)
Lemma Render_after_switches (gc : opengl) (d : Draw) (s : gl.device) :
  let s1 := replay (state_switches gc d) s in
  let s2 := device_of (Render gc d s) in
  gl.program s2 = gl.program s1 /\
  gl.framebuffer s2 = gl.framebuffer s1 /\
  gl.viewport s2 = gl.viewport s1 /\
  gl.is_enabled gl.DEPTH_TEST s2 = gl.is_enabled gl.DEPTH_TEST s1.
Proof.
  intros s1 s2. subst s2.
  assert (Hdev : device_of (Render gc d s)
                 = replay (draw_events d)
                     (replay (events_of (bindUniforms (rendered gc d) d s1)) s1)).
  { rewrite Render_run. unfold device_of at 1. cbn [fst snd].
    unfold bindUniforms. rewrite (bindUniforms_loop_sound d (Uniforms d)). reflexivity. }
  rewrite Hdev, <- replay_app.
  assert (Hn : forallb cache_neutral
                 (events_of (bindUniforms (rendered gc d) d s1) ++ draw_events d) = true).
  { rewrite forallb_app, draw_events_neutral, andb_true_r.
    apply (forallb_weaken uniform_event); [apply uniform_event_neutral|].
    apply bindUniforms_loop_emits. }
  destruct (replay_keeps _ s1 (forallb_weaken _ _ _ cache_neutral_keeps Hn))
    as (Hp & Hf & Hv).
  rewrite Hp, Hf, Hv.
  rewrite (is_enabled_replay _ _ s1 (forallb_weaken _ _ _ cache_neutral_leaves_depth Hn)).
  repeat split.
Qed.

(** X7.  [Enable] acts on the device for three attributes only: for any
    other attribute, the exported [PointSize] included, it makes no device
    call.  And [Enable] of [DepthTest] sets the device's depth test
    without telling the cache: a [Render] whose depth flag equals the
    cached one then issues no toggle and draws with the depth test as
    [Enable] left it, whatever the draw asked for. *)
Theorem Enable_bypasses_cache :
  (forall (gc : opengl) (attribute : Z) (b : bool) (s : gl.device),
     attribute <> CullFace -> attribute <> DepthTest -> attribute <> Blend ->
     Enable gc attribute b s = (tt, s, []))
  /\
  (forall (gc : opengl) (b : bool) (s : gl.device),
     Enable gc PointSize b s = (tt, s, []))
  /\
  (forall (gc : opengl) (b : bool) (s : gl.device) (d : Draw),
     Depth d = depthTest gc ->
     let s' := device_of (Enable gc DepthTest b s) in
     gl.is_enabled gl.DEPTH_TEST s' = b /\
     count is_depth_toggle (events_of (Render gc d s')) = 0%nat /\
     gl.is_enabled gl.DEPTH_TEST (device_of (Render gc d s')) = b).
Proof.
  split; [|split].
  - intros gc attribute b s H1 H2 H3. unfold Enable.
    rewrite !bool_decide_eq_false_2 by assumption. reflexivity.
  - intros gc b s. reflexivity.
  - intros gc b s d Hd s'.
    assert (Hs' : gl.is_enabled gl.DEPTH_TEST s' = b).
    { subst s'. destruct b; [apply is_enabled_Enable | apply is_enabled_Disable]. }
    split; [exact Hs'|]. split.
    + rewrite Render_count_depth_toggle, Hd. destruct (depthTest gc); reflexivity.
    + destruct (Render_after_switches gc d s') as (_ & _ & _ & He). rewrite He.
      rewrite <- Hs'. apply is_enabled_replay.
      unfold state_switches, scissor_on, depth_switch, fbo_switch, shader_switch.
      rewrite Hd.
      assert (Er : eqb (depthTest gc) (depthTest gc) = true) by (destruct (depthTest gc); reflexivity).
      rewrite Er.
      destruct (Scissor d), (negb (fbo gc =? Fbo d)), (Fbo d =? 0),
        (negb (shader gc =? Shader d)); reflexivity.
Qed.

Lemma Enable_bypasses_cache_witness :
  gl.is_enabled gl.DEPTH_TEST
    (device_of (Render gc_window (with_Fbo 0 (mkDraw 3 1 Triangles 36 24 0 [] 0 [] 0 [] ∅ 7
                                              false 0 0 0 0 0 false))
                  (device_of (Enable gc_window DepthTest true dev0)))) = true.
Proof.
  destruct Enable_bypasses_cache as (_ & _ & H).
  refine (proj2 (proj2 (H gc_window true dev0 _ _))). reflexivity.
Defined.

Lemma switches_const (p c : Z) (n : nat) :
  switches Z.eqb c (List.repeat p (S n)) = if c =? p then 0%nat else 1%nat.
Proof.
  cbn [List.repeat switches].
  assert (Hz : forall k, switches Z.eqb p (List.repeat p k) = 0%nat).
  { induction k as [|k IH]; [reflexivity|]. cbn [List.repeat switches].
    rewrite Z.eqb_refl, IH. reflexivity. }
  rewrite Hz. lia.
Qed.

Lemma Render_count_draw_call (gc : opengl) (d : Draw) (s : gl.device) :
  count is_draw_call (events_of (Render gc d s))
  = if known_mode d then 1%nat else 0%nat.
Proof.
  rewrite Render_events, !count_app.
  rewrite (bindUniforms_count is_draw_call).
  2:{ intros [[]|]; simpl; congruence. }
  unfold known_mode, state_switches, scissor_on, depth_switch, fbo_switch, shader_switch,
    draw_events, draw_calls, scissor_off.
  destruct (Scissor d), (negb (eqb (depthTest gc) (Depth d))),
    (negb (fbo gc =? Fbo d)), (Fbo d =? 0), (negb (shader gc =? Shader d)), (mode d),
    (0 <? Instances d), (Depth d); reflexivity.
Qed.

(** X8.  [Render] makes exactly one draw call for a draw in mode
    Triangles, Lines or Points and none for any other mode value (the
    state switches and the unbind still happen); so a sequence of draws
    makes as many draw calls as it has draws of a known mode.  A
    sequence of one or more draws that all name shader [p] and framebuffer
    [f] makes one [UseProgram] and one [BindFramebuffer] call in all when
    the context had other values cached, and none when it had these. *)
Theorem Render_draw_calls :
  (forall (gc : opengl) (d : Draw) (s : gl.device),
     count is_draw_call (events_of (Render gc d s))
     = (if known_mode d then 1%nat else 0%nat))
  /\
  (forall (ds : list Draw) (gc : opengl) (s : gl.device),
     count is_draw_call (events_of (RenderAll gc ds s))
     = length (List.filter known_mode ds))
  /\
  (forall (ds : list Draw) (gc : opengl) (s : gl.device) (p f : Z),
     ds <> [] ->
     List.map Shader ds = List.repeat p (length ds) ->
     List.map Fbo ds = List.repeat f (length ds) ->
     count is_UseProgram (events_of (RenderAll gc ds s))
       = (if shader gc =? p then 0%nat else 1%nat) /\
     count is_BindFramebuffer (events_of (RenderAll gc ds s))
       = (if fbo gc =? f then 0%nat else 1%nat)).
Proof.
  split; [exact Render_count_draw_call|]. split.
  - induction ds as [|d ds IH]; intros gc s; [reflexivity|].
    cbn [RenderAll List.filter]. rewrite events_bind, count_app, Render_count_draw_call, IH.
    destruct (known_mode d); reflexivity.
  - intros ds gc s p f Hne Hp Hf.
    destruct ds as [|d ds]; [contradiction|]. split.
    + rewrite (RenderAll_count is_UseProgram Z.eqb shader Shader
                 Render_count_UseProgram (fun _ _ => eq_refl)).
      rewrite Hp. apply switches_const.
    + rewrite (RenderAll_count is_BindFramebuffer Z.eqb fbo Fbo
                 Render_count_BindFramebuffer (fun _ _ => eq_refl)).
      rewrite Hf. apply switches_const.
Qed.

Lemma Render_draw_calls_witness :
  count is_UseProgram
    (events_of (RenderAll newRenderer (List.repeat (with_Fbo 5 draw0) 30) dev0)) = 1%nat
  /\ count is_BindFramebuffer
    (events_of (RenderAll newRenderer (List.repeat (with_Fbo 5 draw0) 30) dev0)) = 1%nat.
Proof.
  destruct Render_draw_calls as (_ & _ & H).
  apply (H (List.repeat (with_Fbo 5 draw0) 30) newRenderer dev0 3 5).
  - discriminate.
  - reflexivity.
  - reflexivity.
Defined.

(** X9.  What [Render] does to framebuffer and viewport, from any state:
    when the draw's framebuffer is the cached one neither is touched;
    otherwise the draw's framebuffer is bound and the viewport is set to
    the remembered window size for the default framebuffer 0, and to
    [LayerSize] square, after one clear of the depth buffer, for any other
    framebuffer. *)
Theorem Render_framebuffer_switch :
  forall (gc : opengl) (d : Draw) (s : gl.device),
    gl.framebuffer (device_of (Render gc d s))
      = (if fbo gc =? Fbo d then gl.framebuffer s else Fbo d) /\
    gl.viewport (device_of (Render gc d s))
      = (if fbo gc =? Fbo d then gl.viewport s
         else if Fbo d =? 0 then (0, 0, vw gc, vh gc)
         else (0, 0, LayerSize, LayerSize)) /\
    count is_depth_clear (events_of (Render gc d s))
      = (if fbo gc =? Fbo d then 0%nat else if Fbo d =? 0 then 0%nat else 1%nat).
Proof.
  intros gc d s.
  destruct (Render_after_switches gc d s) as (_ & Hf & Hv & _).
  rewrite Hf, Hv. split; [|split].
  - unfold state_switches, scissor_on, depth_switch, fbo_switch, shader_switch.
    destruct (Scissor d), (negb (eqb (depthTest gc) (Depth d))),
      (fbo gc =? Fbo d), (Fbo d =? 0), (negb (shader gc =? Shader d)), (Depth d);
      reflexivity.
  - unfold state_switches, scissor_on, depth_switch, fbo_switch, shader_switch.
    destruct (Scissor d), (negb (eqb (depthTest gc) (Depth d))),
      (fbo gc =? Fbo d), (Fbo d =? 0), (negb (shader gc =? Shader d)), (Depth d);
      reflexivity.
  - rewrite Render_events, !count_app.
    rewrite (bindUniforms_count is_depth_clear).
    2:{ intros [[]|]; simpl; congruence. }
    unfold state_switches, scissor_on, depth_switch, fbo_switch, shader_switch,
      draw_events, draw_calls, scissor_off.
    destruct (Scissor d), (negb (eqb (depthTest gc) (Depth d))),
      (fbo gc =? Fbo d), (Fbo d =? 0), (negb (shader gc =? Shader d)), (mode d),
      (0 <? Instances d), (Depth d); reflexivity.
Qed.

(** ** More on [BindMesh] *)

Lemma bindVertexBuffers_emits (p : event -> bool) (gc : opengl) (keys : list Z) :
  (forall vdata, emits p (bindVertexBuffer gc vdata)) ->
  forall vdata, emits p (bindVertexBuffers gc keys vdata).
Proof.
  intros Hone. induction keys as [|k keys IH]; intros vdata; cbn [bindVertexBuffers].
  - apply emits_ret.
  - apply emits_bind; [|intros m; apply IH].
    destruct (vdata !! k) as [[vd|fd]|]; try apply emits_ret.
    destruct (vd_rebind vd); [|apply emits_ret].
    apply emits_bind; [apply Hone|].
    intros [vd'|fd']; apply emits_ret.
Qed.

Lemma bindVertexBuffer_keeps_vao (gc : opengl) (vdata : Data) :
  emits keeps_vao (bindVertexBuffer gc vdata).
Proof. unfold bindVertexBuffer, instanced_rows. cbn [foldr]. emits_auto. Qed.

Lemma bindFaceBuffer_keeps_vao (gc : opengl) (fd : faceData) :
  emits keeps_vao (bindFaceBuffer gc fd).
Proof. unfold bindFaceBuffer. emits_auto. Qed.

Lemma vertex_array_replay (t : list event) (s : gl.device) :
  forallb keeps_vao t = true -> gl.vertex_array (replay t s) = gl.vertex_array s.
Proof.
  revert s. induction t as [|e t IH]; intros s Ht; [reflexivity|].
  simpl in Ht. apply andb_true_iff in Ht as [He Ht].
  change (replay (e :: t) s) with (replay t (replay1 s e)). rewrite (IH _ Ht).
  destruct e as [c|l]; [|reflexivity]. destruct c; try discriminate He; reflexivity.
Qed.

Lemma hoare_keeps_vao {A : Type} (v : Z) (m : M A) :
  sound m -> emits keeps_vao m ->
  hoare (fun s => gl.vertex_array s = v) m (fun _ s => gl.vertex_array s = v).
Proof.
  intros Hs He s Hv. rewrite Hs, vertex_array_replay; [exact Hv | apply He].
Qed.

(** X10.  How [BindMesh] leaves the vertex array binding.  When it
    returns no error the binding is reset to 0.  When it returns one of
    its two late errors ("failed to bind vb", "failed to bind fb") the
    mesh's vertex array, the handle it returns through [*vao], is left
    bound; that handle is the one passed in unless that was 0. *)
Theorem BindMesh_vertex_array :
  forall (gc : opengl) (keys : list Z) (vao : Z) (vdata : gmap Z Data)
         (fdata : option Data) (s : gl.device),
    let r := BindMesh gc keys vao vdata fdata s in
    match (result_of r).1.1.1 with
    | None => gl.vertex_array (device_of r) = 0
    | Some (BindMeshVbFailed _) | Some (BindMeshFbFailed _) =>
        gl.vertex_array (device_of r) = (result_of r).1.1.2
    | Some _ => True
    end
    /\ (vao <> 0 -> (result_of r).1.1.2 = vao).
Proof.
  intros gc keys vao vdata fdata s r. subst r. split.
  - assert (H : hoare (fun _ => True) (BindMesh gc keys vao vdata fdata)
                  (fun r s' => match r.1.1.1 with
                               | None => gl.vertex_array s' = 0
                               | Some (BindMeshVbFailed _) | Some (BindMeshFbFailed _) =>
                                   gl.vertex_array s' = r.1.1.2
                               | Some _ => True
                               end)); [|exact (H s I)].
    unfold BindMesh.
    apply hoare_bind with (R := fun _ _ => True); [apply hoare_any|]. intros glerr.
    destruct (negb (glerr =? gl.NO_ERROR)); [apply hoare_ret; intros; exact I|].
    apply hoare_bind with (R := fun _ _ => True); [apply hoare_any|]. intros vao'.
    apply hoare_bind with (R := fun _ s' => gl.vertex_array s' = vao').
    { apply hoare_call. intros s' _. reflexivity. }
    intros _.
    apply hoare_bind with (R := fun _ s' => gl.vertex_array s' = vao').
    { apply hoare_keeps_vao; [apply bindVertexBuffers_sound|].
      apply bindVertexBuffers_emits. apply bindVertexBuffer_keeps_vao. }
    intros vdata'.
    apply hoare_bind with (R := fun _ s' => gl.vertex_array s' = vao').
    { apply hoare_keeps_vao; [apply sound_GetError | emits_step]. }
    intros glerr2.
    destruct (negb (glerr2 =? gl.NO_ERROR)); [apply hoare_ret; intros s' Hs'; exact Hs'|].
    apply hoare_bind with (R := fun _ s' => gl.vertex_array s' = vao').
    { apply hoare_keeps_vao.
      - destruct fdata as [[vd|fd]|]; try apply sound_ret.
        destruct (fd_rebind fd); [|apply sound_ret].
        apply sound_bind; [apply bindFaceBuffer_sound | intros ?; apply sound_ret].
      - destruct fdata as [[vd|fd]|]; try apply emits_ret.
        destruct (fd_rebind fd); [|apply emits_ret].
        apply emits_bind; [apply bindFaceBuffer_keeps_vao | intros ?; apply emits_ret]. }
    intros fdata'.
    apply hoare_bind with (R := fun _ s' => gl.vertex_array s' = vao').
    { apply hoare_keeps_vao; [apply sound_GetError | emits_step]. }
    intros glerr3.
    destruct (negb (glerr3 =? gl.NO_ERROR)); [apply hoare_ret; intros s' Hs'; exact Hs'|].
    apply hoare_bind with (R := fun _ s' => gl.vertex_array s' = 0).
    { apply hoare_call. intros s' _. reflexivity. }
    intros _. apply hoare_ret. intros s' Hs'. exact Hs'.
  - intros Hvao.
    assert (H : hoare (fun _ => True) (BindMesh gc keys vao vdata fdata)
                  (fun r _ => r.1.1.2 = vao)); [|exact (H s I)].
    unfold BindMesh.
    apply hoare_bind with (R := fun _ _ => True); [apply hoare_any|]. intros glerr.
    destruct (negb (glerr =? gl.NO_ERROR)); [apply hoare_ret; reflexivity|].
    apply Z.eqb_neq in Hvao. rewrite Hvao.
    apply hoare_bind with (R := fun v _ => v = vao); [apply hoare_ret; reflexivity|].
    intros vao' s' ->.
    repeat first
      [ rewrite result_bind
      | match goal with
        | |- context [if negb ?b then _ else _] => destruct (negb b)
        end ];
      reflexivity.
Qed.

Lemma BindMesh_vertex_array_witness :
  let r := BindMesh newRenderer [0] 7 (vdata (quad_at 0)) (faces (quad_at 0))
             dev_late_error in
  (result_of r).1.1.1 = Some (BindMeshVbFailed 0x0502)
  /\ gl.vertex_array (device_of r) = 7.
Proof.
  intros r.
  destruct (BindMesh_vertex_array newRenderer [0] 7 (vdata (quad_at 0))
              (faces (quad_at 0)) dev_late_error) as [H1 H2].
  fold r in H1, H2.
  assert (E : (result_of r).1.1.1 = Some (BindMeshVbFailed 0x0502)).
  { vm_compute. reflexivity. }
  split; [exact E|]. rewrite E in H1. rewrite H1. apply H2. lia.
Defined.

Lemma emits_with_bind {A B : Type} (p : event -> bool) (m : M A) (k : A -> M B)
    (R : A -> Prop) (Q : B -> Prop) :
  emits_with p m R -> (forall a, R a -> emits_with p (k a) Q) ->
  emits_with p (m ≫= k) Q.
Proof.
  intros Hm Hk s. destruct (Hm s) as [Hp HR].
  destruct (Hk _ HR (device_of (m s))) as [Hp' HQ].
  rewrite events_bind, result_bind, forallb_app, Hp, Hp'. split; [reflexivity | exact HQ].
Qed.

Lemma emits_with_ret {A : Type} (p : event -> bool) (a : A) (Q : A -> Prop) :
  Q a -> emits_with p (mret a) Q.
Proof. intros HQ s. split; [reflexivity | exact HQ]. Qed.

Lemma emits_with_any {A : Type} (p : event -> bool) (m : M A) :
  emits p m -> emits_with p m (fun _ => True).
Proof. intros Hm s. split; [apply Hm | exact I]. Qed.

Lemma bindVertexBuffer_no_gen (gc : opengl) (vd : vertexData) :
  vd_ref vd <> 0 ->
  emits_with no_gen (bindVertexBuffer gc (VD vd)) (fun r => r = VD vd).
Proof.
  intros Href s. apply Z.eqb_neq in Href. split.
  - revert s. fold (emits no_gen (bindVertexBuffer gc (VD vd))).
    unfold bindVertexBuffer, instanced_rows. rewrite Href. cbn [foldr]. emits_auto.
  - unfold bindVertexBuffer. rewrite Href, !result_bind. reflexivity.
Qed.

Lemma bindFaceBuffer_no_gen (gc : opengl) (fd : faceData) :
  fd_ref fd <> 0 ->
  emits_with no_gen (bindFaceBuffer gc fd) (fun r => r = fd).
Proof.
  intros Href s. apply Z.eqb_neq in Href. split.
  - revert s. fold (emits no_gen (bindFaceBuffer gc fd)).
    unfold bindFaceBuffer. rewrite Href. emits_auto.
  - unfold bindFaceBuffer. rewrite Href.
    destruct (0 <? len (fd_data fd)); [rewrite !result_bind|]; reflexivity.
Qed.

Lemma bindVertexBuffers_no_gen (gc : opengl) (keys : list Z) :
  forall vdata : gmap Z Data,
    (forall k vd, vdata !! k = Some (VD vd) -> vd_ref vd <> 0) ->
    emits_with no_gen (bindVertexBuffers gc keys vdata)
      (fun m => forall k vd, m !! k = Some (VD vd) -> vd_ref vd <> 0).
Proof.
  induction keys as [|k0 keys IH]; intros vdata Hh; cbn [bindVertexBuffers].
  - apply emits_with_ret, Hh.
  - apply emits_with_bind
      with (R := fun m => forall k vd, m !! k = Some (VD vd) -> vd_ref vd <> 0);
      [|intros m Hm; apply IH, Hm].
    destruct (vdata !! k0) as [[vd|fd]|] eqn:E0; try (apply emits_with_ret, Hh).
    destruct (vd_rebind vd); [|apply emits_with_ret, Hh].
    apply emits_with_bind with (R := fun r => r = VD vd);
      [apply bindVertexBuffer_no_gen, (Hh k0 vd E0)|].
    intros r ->. apply emits_with_ret. intros k vd'.
    destruct (decide (k0 = k)) as [<-|Hne].
    + rewrite lookup_insert_eq. intros [= <-]. apply (Hh k0 vd E0).
    + rewrite lookup_insert_ne by exact Hne. apply Hh.
Qed.

(** X11.  GPU names are handed out once: on a mesh whose vertex array
    handle and buffer handles are already non-zero, [BindMesh] generates
    no vertex array and no buffer, whatever it uploads and however it
    returns; it hands back the same vertex array handle, and the buffers
    keep non-zero handles. *)
Theorem BindMesh_reuses_handles :
  forall (gc : opengl) (keys : list Z) (vao : Z) (vdata : gmap Z Data)
         (fdata : option Data) (s : gl.device),
    vao <> 0 -> has_handles vdata fdata ->
    let r := BindMesh gc keys vao vdata fdata s in
    count is_gen (events_of r) = 0%nat /\
    (result_of r).1.1.2 = vao /\
    has_handles (result_of r).1.2 (result_of r).2.
Proof.
  intros gc keys vao vdata fdata s Hvao [Hv Hf] r. subst r.
  assert (H : emits_with no_gen (BindMesh gc keys vao vdata fdata)
                (fun r => r.1.1.2 = vao /\ has_handles r.1.2 r.2)).
  { unfold BindMesh.
    apply emits_with_bind with (R := fun _ => True);
      [apply emits_with_any; emits_step|]. intros glerr _.
    destruct (negb (glerr =? gl.NO_ERROR)).
    { apply emits_with_ret. split; [reflexivity | split; assumption]. }
    apply Z.eqb_neq in Hvao. rewrite Hvao.
    apply emits_with_bind with (R := fun v => v = vao);
      [apply emits_with_ret; reflexivity|]. intros vao' ->.
    apply emits_with_bind with (R := fun _ => True);
      [apply emits_with_any; emits_step|]. intros _ _.
    apply emits_with_bind
      with (R := fun m => forall k vd, m !! k = Some (VD vd) -> vd_ref vd <> 0);
      [apply bindVertexBuffers_no_gen, Hv|]. intros vdata' Hv'.
    apply emits_with_bind with (R := fun _ => True);
      [apply emits_with_any; emits_step|]. intros glerr2 _.
    destruct (negb (glerr2 =? gl.NO_ERROR)).
    { apply emits_with_ret. split; [reflexivity | split; assumption]. }
    apply emits_with_bind
      with (R := fun f => forall fd, f = Some (FD fd) -> fd_ref fd <> 0).
    { destruct fdata as [[vd|fd]|]; try (apply emits_with_ret, Hf).
      destruct (fd_rebind fd); [|apply emits_with_ret, Hf].
      apply emits_with_bind with (R := fun r => r = fd);
        [apply bindFaceBuffer_no_gen, (Hf fd eq_refl)|].
      intros r ->. apply emits_with_ret. intros fd' [= <-]. apply (Hf fd eq_refl). }
    intros fdata' Hf'.
    apply emits_with_bind with (R := fun _ => True);
      [apply emits_with_any; emits_step|]. intros glerr3 _.
    destruct (negb (glerr3 =? gl.NO_ERROR)).
    { apply emits_with_ret. split; [reflexivity | split; assumption]. }
    apply emits_with_bind with (R := fun _ => True);
      [apply emits_with_any; emits_step|]. intros _ _.
    apply emits_with_ret. split; [reflexivity | split; assumption]. }
  destruct (H s) as [Hno [Hr Hh]]. split; [|split; assumption].
  apply (count_none is_gen no_gen); [|exact Hno].
  intros e He. unfold no_gen in He. apply negb_true_iff in He. exact He.
Qed.

Lemma quad_again_handles : has_handles (vdata quad_again) (faces quad_again).
Proof.
  split.
  - assert (H : map_Forall (fun _ d => match d with
                                        | VD vd => vd_ref vd <> 0
                                        | FD _ => True
                                        end) (vdata quad_again)).
    { apply map_Forall_to_list. vm_compute. repeat constructor. discriminate. }
    intros k vd Hk. exact (H k (VD vd) Hk).
  - intros fd Hfd. vm_compute in Hfd. injection Hfd as <-. simpl. discriminate.
Qed.

Lemma BindMesh_reuses_handles_witness :
  let r := BindMesh newRenderer [0] (vao quad_again) (vdata quad_again)
             (faces quad_again) (device_of first_bind) in
  count is_BufferData (events_of r) = 1%nat /\ count is_gen (events_of r) = 0%nat.
Proof.
  intros r. split; [vm_compute; reflexivity|].
  refine (proj1 (BindMesh_reuses_handles newRenderer [0] (vao quad_again)
                   (vdata quad_again) (faces quad_again) (device_of first_bind)
                   _ quad_again_handles)).
  vm_compute. discriminate.
Defined.

(** X12.  Which vertex buffers are uploaded.  [bindVertexBuffer] makes
    one [BufferData] call for a static buffer holding floats or bytes and
    for a dynamic buffer holding floats, and none for any other buffer: a
    dynamic buffer holding only bytes, an empty buffer, a buffer with any
    other usage value.  The loop of [BindMesh] lowers the buffer's rebind
    flag in either case, so data that is not uploadable is dropped
    silently. *)
Theorem bindVertexBuffer_uploads :
  forall (gc : opengl) (vd : vertexData) (s : gl.device),
    count is_BufferData (events_of (bindVertexBuffer gc (VD vd) s))
      = (if uploadable vd then 1%nat else 0%nat)
    /\
    (forall k : Z,
       exists vd',
         result_of (bindVertexBuffers gc [k] {[k := VD vd]} s) !! k = Some (VD vd')
         /\ vd_rebind vd' = false).
Proof.
  intros gc vd s. split.
  - unfold bindVertexBuffer. rewrite events_bind, count_app.
    set (step := if vd_ref vd =? 0 then _ else _).
    assert (Hstep : count is_BufferData (events_of (step s)) = 0%nat
                    /\ uploadable (result_of (step s)) = uploadable vd).
    { subst step. destruct (vd_ref vd =? 0); split; reflexivity. }
    destruct Hstep as [-> <-].
    generalize (device_of (step s)) (result_of (step s)). clear step.
    intros s1 vd1. unfold uploadable, instanced_rows. cbn [foldr].
    rewrite !events_bind, !count_app.
    destruct (vd_usage vd1 =? StaticDraw), (vd_usage vd1 =? DynamicDraw),
      (0 <? len (vd_floats vd1)), (0 <? len (vd_bytes vd1)), (vd_instanced vd1);
      reflexivity.
  - intros k. cbn [bindVertexBuffers]. rewrite result_bind.
    rewrite lookup_singleton_eq.
    destruct (vd_rebind vd) eqn:Er.
    + rewrite result_bind. destruct (bindVertexBuffer_VD gc vd s) as [vd' ->].
      exists (vd_set_rebind false vd'). split; [|reflexivity].
      cbn. apply lookup_insert_eq.
    + exists vd. split; [|exact Er]. cbn. apply lookup_singleton_eq.
Qed.

Example dynamic_bytes_dropped :
  uploadable dynamic_bytes = false
  /\ count is_BufferData (events_of (bindVertexBuffer newRenderer (VD dynamic_bytes) dev0))
     = 0%nat.
Proof. split; reflexivity. Qed.

(** ** More on textures, shaders and render targets *)

Lemma when_log_run (c : bool) (l : logline) (s : gl.device) :
  when c (log l) s = (tt, s, if c then [Log l] else []).
Proof. destruct c; reflexivity. Qed.

Lemma if_ret_run {A : Type} (c : bool) (a b : A) (s : gl.device) :
  ((if c then mret a else mret b) : M A) s = (if c then a else b, s, []).
Proof. destruct c; reflexivity. Qed.

Lemma texture_name_run (tid : Z) (s : gl.device) :
  (if tid =? 0 then gen gl.GenTextures else mret tid) s
  = (if tid =? 0 then gl.next_name s else tid,
     if tid =? 0 then gl.apply (gl.GenTextures (gl.next_name s)) s else s,
     if tid =? 0 then [Gl (gl.GenTextures (gl.next_name s))] else []).
Proof. destruct (tid =? 0); reflexivity. Qed.

(** X13.  [BindTexture] on an image of one of the two supported types,
    from any device state.  With no pixel bytes the call panics (index
    out of range), after the texture name has been generated and bound and
    before anything is uploaded.  With pixel bytes it uploads them once,
    sized by the image bounds as int32, generates mipmaps and sets the
    wrap mode of both axes to REPEAT; a texture name is generated only
    when [*tid] was 0; and the error returned is the device's answer to
    the [GetError] that follows the upload, nil when that is NO_ERROR
    (an error pending before the call is only logged). *)
Theorem BindTexture_rgba :
  forall (gc : opengl) (tid : Z) (img : image) (s : gl.device),
    is_rgba img = true ->
    let r := BindTexture gc tid img s in
    let tid' := if tid =? 0 then gl.next_name s else tid in
    let e2 := hd gl.NO_ERROR (tl (gl.pending_errors s)) in
    match pixels img with
    | [] =>
        result_of r = (Panicked "index out of range", tid') /\
        events_of r
          = texture_open_events tid s ++ [Gl (gl.BindTexture gl.TEXTURE_2D tid')]
    | _ :: _ =>
        result_of r
          = (Returned (if e2 =? gl.NO_ERROR then None
                       else Some (FailedBindingTexture e2)), tid') /\
        events_of r
          = texture_open_events tid s
            ++ texture_upload_events tid' (int32 (image_size img).1)
                 (int32 (image_size img).2) (pixels img)
            ++ [Gl (gl.GetError e2)]
    end.
Proof.
  intros gc tid img s Hrgba r tid' e2. subst r.
  assert (Hopen : forall (B : Type) (k : Z -> M B) (b : B) (s2 : gl.device) (t2 : list event),
     k tid' (gl.apply (gl.BindTexture gl.TEXTURE_2D tid')
               (if tid =? 0
                then gl.apply (gl.GenTextures (gl.next_name s))
                       (gl.apply (gl.GetError (hd gl.NO_ERROR (gl.pending_errors s))) s)
                else gl.apply (gl.GetError (hd gl.NO_ERROR (gl.pending_errors s))) s))
       = (b, s2, t2) ->
     (glerr ← GetError;
      when (negb (glerr =? gl.NO_ERROR)) (log (BindTexturePriorError glerr)) ;;
      tid ← (if tid =? 0 then gen gl.GenTextures else mret tid);
      call (gl.BindTexture gl.TEXTURE_2D tid) ;; k tid) s
     = (b, s2, texture_open_events tid s
               ++ [Gl (gl.BindTexture gl.TEXTURE_2D tid')] ++ t2)).
  { intros B k b s2 t2 Hk.
    erewrite bind_run; [|reflexivity|].
    2:{ eapply bind_run; [apply when_log_run|].
        eapply bind_run; [apply texture_name_run|].
        eapply bind_run; [reflexivity|].
        subst tid'. destruct (tid =? 0); exact Hk. }
    unfold texture_open_events. subst tid'.
    destruct (hd gl.NO_ERROR (gl.pending_errors s) =? gl.NO_ERROR), (tid =? 0);
      reflexivity. }
  unfold BindTexture.
  destruct img as [dx dy Pix|dx dy Pix|type dx dy]; try discriminate Hrgba;
    cbn [pixels image_size fst snd]; cbv zeta iota beta.
  all: destruct Pix as [|p Pix].
  all: try (erewrite Hopen; [|reflexivity]; split; reflexivity).
  all: erewrite Hopen;
    [| unfold SetTextureMode;
       repeat (eapply bind_run; [reflexivity|]); apply if_ret_run ].
  all: subst tid' e2; unfold result_of, events_of, texture_upload_events; cbn [fst snd].
  all: destruct (tid =? 0); cbn;
    destruct (hd gl.NO_ERROR (tail (gl.pending_errors s)) =? gl.NO_ERROR);
    split; reflexivity.
Qed.

Lemma BindTexture_rgba_witness :
  result_of (BindTexture newRenderer 0 (RGBA 1 1 []) dev0)
    = (Panicked "index out of range", 1)
  /\ result_of (BindTexture newRenderer 9 (NRGBA 1 1 [255; 255; 255; 255]) dev_error)
    = (Returned None, 9).
Proof.
  split.
  - exact (proj1 (BindTexture_rgba newRenderer 0 (RGBA 1 1 []) dev0 eq_refl)).
  - exact (proj1 (BindTexture_rgba newRenderer 9 (NRGBA 1 1 [255; 255; 255; 255])
                    dev_error eq_refl)).
Defined.

(** X14.  [BindShader] creates a program and returns its handle in every
    case.  When compiling and linking fails it returns the error with
    that handle and makes no further device call (the program is not
    deleted).  When it succeeds it queries uniforms and layouts and
    returns no error, even if the device then reports an error: that one
    is only logged. *)
Theorem BindShader_outcomes :
  forall (gc : opengl) (vsh fsh : list string) (s : gl.device),
    let n := gl.next_name s in
    let e := hd gl.NO_ERROR (gl.pending_errors s) in
    match hd None (gl.pending_links s) with
    | Some msg =>
        result_of (BindShader gc vsh fsh s) = (n, Some (ShaderProgramFailed msg)) /\
        events_of (BindShader gc vsh fsh s)
          = [Gl (gl.CreateProgram n); Gl (gl.BindProgram n vsh fsh (Some msg))]
    | None =>
        result_of (BindShader gc vsh fsh s) = (n, None) /\
        events_of (BindShader gc vsh fsh s)
          = [Gl (gl.CreateProgram n); Gl (gl.BindProgram n vsh fsh None);
             Gl (gl.Uniforms n); Gl (gl.Layouts n); Gl (gl.GetError e)]
            ++ (if e =? gl.NO_ERROR then [] else [Log (ShaderBindError e)])
    end.
Proof.
  intros gc vsh fsh s n e. subst n e. unfold BindShader.
  destruct (hd None (gl.pending_links s)) as [msg|] eqn:El.
  - erewrite bind_run; [|reflexivity|].
    2:{ eapply bind_run; [reflexivity|]. cbn [gl.pending_links gl.apply gl.set_next_name].
        rewrite El. reflexivity. }
    unfold result_of, events_of. cbn. rewrite El. split; reflexivity.
  - erewrite bind_run; [|reflexivity|].
    2:{ eapply bind_run; [reflexivity|]. cbn [gl.pending_links gl.apply gl.set_next_name].
        rewrite El.
        eapply bind_run; [reflexivity|]. eapply bind_run; [reflexivity|].
        eapply bind_run; [reflexivity|]. eapply bind_run; [apply when_log_run|].
        reflexivity. }
    unfold result_of, events_of. cbn. rewrite El.
    destruct (hd gl.NO_ERROR (gl.pending_errors s) =? gl.NO_ERROR); split; reflexivity.
Qed.

Lemma Render_framebuffer (gc : opengl) (d : Draw) (s : gl.device) :
  gl.framebuffer (device_of (Render gc d s))
  = (if fbo gc =? Fbo d then gl.framebuffer s else Fbo d).
Proof.
  destruct (Render_after_switches gc d s) as (_ & Hf & _). rewrite Hf.
  unfold state_switches, scissor_on, depth_switch, fbo_switch, shader_switch.
  destruct (Scissor d), (negb (eqb (depthTest gc) (Depth d))),
    (fbo gc =? Fbo d), (Fbo d =? 0), (negb (shader gc =? Shader d)), (Depth d);
    reflexivity.
Qed.

Lemma BindTarget_run (gc : opengl) (fbo0 tid0 db0 : Z) (s : gl.device) :
  let st := hd gl.FRAMEBUFFER_COMPLETE (gl.pending_status s) in
  let r := BindTarget gc fbo0 tid0 db0 s in
  (result_of r).1.1.1
    = (if st =? gl.FRAMEBUFFER_COMPLETE
       then if hd gl.NO_ERROR (gl.pending_errors s) =? gl.NO_ERROR then None
            else Some (FailedBindingFramebuffer (hd gl.NO_ERROR (gl.pending_errors s)))
       else Some (BindFrameError st))
  /\ gl.framebuffer (device_of r)
     = (if st =? gl.FRAMEBUFFER_COMPLETE then 0 else (result_of r).1.1.2)
  /\ count is_gen (events_of r) = 3%nat.
Proof.
  intros st r. subst st r. unfold BindTarget. cbv zeta.
  destruct (hd gl.FRAMEBUFFER_COMPLETE (gl.pending_status s) =? gl.FRAMEBUFFER_COMPLETE)
    eqn:Est.
  - erewrite bind_run; [|reflexivity|].
    2:{ do 13 (eapply bind_run; [reflexivity|]). cbn. rewrite Est. cbn [negb].
        eapply bind_run; [reflexivity|]. eapply bind_run; [reflexivity|]. reflexivity. }
    unfold result_of, device_of, events_of. cbn.
    destruct (hd gl.NO_ERROR (gl.pending_errors s) =? gl.NO_ERROR); repeat split.
  - erewrite bind_run; [|reflexivity|].
    2:{ do 13 (eapply bind_run; [reflexivity|]). cbn. rewrite Est. reflexivity. }
    unfold result_of, device_of, events_of. cbn. repeat split.
Qed.

(** X15.  [BindTarget] and the framebuffer binding.  Whatever handles are
    passed in, the call generates three new objects (a framebuffer, a
    texture, a renderbuffer).  When the device reports the framebuffer
    incomplete the call returns that status as an error and leaves the
    new framebuffer, the one whose handle it returns, bound; otherwise it
    leaves the default framebuffer 0 bound.  In neither case is the cache
    told: a following [Render] of a draw into the cached framebuffer
    issues no bind and draws into whatever [BindTarget] left bound. *)
Theorem BindTarget_framebuffer :
  forall (gc : opengl) (fbo0 tid0 db0 : Z) (s : gl.device),
    let st := hd gl.FRAMEBUFFER_COMPLETE (gl.pending_status s) in
    let r := BindTarget gc fbo0 tid0 db0 s in
    count is_gen (events_of r) = 3%nat
    /\ (st <> gl.FRAMEBUFFER_COMPLETE ->
        (result_of r).1.1.1 = Some (BindFrameError st) /\
        gl.framebuffer (device_of r) = (result_of r).1.1.2)
    /\ (st = gl.FRAMEBUFFER_COMPLETE ->
        incomplete (result_of r).1.1.1 = false /\
        gl.framebuffer (device_of r) = 0)
    /\ (forall d : Draw,
          Fbo d = fbo gc ->
          count is_BindFramebuffer (events_of (Render gc d (device_of r))) = 0%nat /\
          gl.framebuffer (device_of (Render gc d (device_of r)))
            = gl.framebuffer (device_of r)).
Proof.
  intros gc fbo0 tid0 db0 s st r.
  destruct (BindTarget_run gc fbo0 tid0 db0 s) as (Hres & Hfb & Hgen).
  fold st r in Hres, Hfb, Hgen.
  split; [exact Hgen|]. split; [|split].
  - intros Hst. apply Z.eqb_neq in Hst. rewrite Hst in Hres, Hfb. split; assumption.
  - intros Hst. apply Z.eqb_eq in Hst. rewrite Hst in Hres, Hfb.
    split; [|exact Hfb]. rewrite Hres.
    destruct (hd gl.NO_ERROR (gl.pending_errors s) =? gl.NO_ERROR); reflexivity.
  - intros d Hd. split.
    + rewrite Render_count_BindFramebuffer, Hd, Z.eqb_refl. reflexivity.
    + rewrite Render_framebuffer, Hd, Z.eqb_refl. reflexivity.
Qed.

Lemma BindTarget_framebuffer_witness :
  gl.framebuffer
    (device_of (Render (result_of resized) (with_Fbo 5 draw0)
                  (device_of (BindTarget (result_of resized) 0 0 0 (device_of resized)))))
  = 0.
Proof.
  destruct (BindTarget_framebuffer (result_of resized) 0 0 0 (device_of resized))
    as (_ & _ & Hok & Hdraw).
  destruct (Hok eq_refl) as [_ Hz].
  destruct (Hdraw (with_Fbo 5 draw0) eq_refl) as [_ Hfb].
  rewrite Hfb. exact Hz.
Defined.

(** ** More on the mesh store *)

(** X16.  [InitData] and [InitFaces] create a channel only where there is
    none and never replace one: after [InitData] the slot holds the
    buffer it held before, or a new one if it held none; every other slot,
    the face buffer and the rebind flag are untouched; a second
    [InitData] of the same slot, with whatever parameters, changes
    nothing, so data stored by [SetData] survives it.  The same holds for
    [InitFaces] and [SetFaces]. *)
Theorem Init_keeps_channels :
  forall (ops : DataOps) (m : Mesh) (lloc span usage : Z) (normalize : bool),
    vdata (InitData m lloc span usage normalize) !! lloc
      = Some (default (NewVertexData lloc span usage normalize) (vdata m !! lloc))
    /\ (forall l', l' <> lloc ->
          vdata (InitData m lloc span usage normalize) !! l' = vdata m !! l')
    /\ (faces (InitData m lloc span usage normalize) = faces m /\
        rebind (InitData m lloc span usage normalize) = rebind m /\
        vdata (InitFaces m usage) = vdata m /\
        rebind (InitFaces m usage) = rebind m)
    /\ (forall span' usage' normalize',
          InitData (InitData m lloc span usage normalize) lloc span' usage' normalize'
          = InitData m lloc span usage normalize)
    /\ (forall data span' usage' normalize',
          InitData (SetData (InitData m lloc span usage normalize) lloc data)
            lloc span' usage' normalize'
          = SetData (InitData m lloc span usage normalize) lloc data)
    /\ faces (InitFaces m usage) = Some (default (NewFaceData usage) (faces m))
    /\ (forall usage', InitFaces (InitFaces m usage) usage' = InitFaces m usage)
    /\ (forall data usage',
          InitFaces (SetFaces (InitFaces m usage) data) usage'
          = SetFaces (InitFaces m usage) data).
Proof.
  intros ops m lloc span usage normalize.
  assert (Hl : vdata (InitData m lloc span usage normalize) !! lloc
               = Some (default (NewVertexData lloc span usage normalize)
                         (vdata m !! lloc))).
  { unfold InitData. destruct (vdata m !! lloc) eqn:E; [exact E|].
    cbn. apply lookup_insert_eq. }
  assert (Hf : faces (InitFaces m usage) = Some (default (NewFaceData usage) (faces m))).
  { unfold InitFaces. destruct (faces m) eqn:E; [exact E | reflexivity]. }
  split; [exact Hl|]. split; [|split; [|split; [|split; [|split; [|split]]]]].
  - intros l' Hne. unfold InitData. destruct (vdata m !! lloc); [reflexivity|].
    cbn. apply lookup_insert_ne. congruence.
  - repeat split;
      first [ unfold InitData; destruct (vdata m !! lloc); reflexivity
            | unfold InitFaces; destruct (faces m); reflexivity ].
  - intros span' usage' normalize'. unfold InitData at 1. rewrite Hl. reflexivity.
  - intros data span' usage' normalize'.
    unfold SetData. rewrite Hl. unfold InitData at 1. cbn [vdata set_rebind set_vdata].
    rewrite lookup_insert_eq. reflexivity.
  - exact Hf.
  - intros usage'. unfold InitFaces at 1. rewrite Hf. reflexivity.
  - intros data usage'. unfold SetFaces. rewrite Hf. reflexivity.
Qed.

(** X17.  When [counts] panics.  [counts] panics exactly when the mesh
    has some attribute channel but none at layout location 0.  In every
    other case it returns: the face count is the face buffer's [Len], or 0
    without a face buffer, and the vertex count is the [Len] of the
    channel at location 0, or 0 for a mesh without channels. *)
Theorem counts_panics_iff :
  forall (ops : DataOps) (m : Mesh),
    ((exists why, counts m = Panicked why)
     <-> vdata m <> ∅ /\ vdata m !! 0 = None)
    /\ (vdata m = ∅ ->
        counts m = Returned (from_option Len 0 (faces m), 0))
    /\ (forall v, vdata m !! 0 = Some v ->
        counts m = Returned (from_option Len 0 (faces m), Len v)).
Proof.
  intros ops m.
  assert (Hsize : (0 <? Z.of_nat (size (vdata m))) = true <-> vdata m <> ∅).
  { rewrite Z.ltb_lt. split.
    - intros Hpos He. rewrite He, map_size_empty in Hpos. lia.
    - intros Hne. destruct (size (vdata m)) eqn:E; [|lia].
      apply map_size_empty_inv in E. contradiction. }
  assert (Hfaces : match faces m with Some f => Len f | None => 0 end
                   = from_option Len 0 (faces m)).
  { destruct (faces m); reflexivity. }
  unfold counts. rewrite Hfaces. split; [|split].
  - split.
    + intros [why Hp].
      destruct (0 <? Z.of_nat (size (vdata m))) eqn:E; [|discriminate Hp].
      destruct (vdata m !! 0) eqn:E0; [discriminate Hp|].
      split; [apply Hsize; reflexivity | reflexivity].
    + intros [Hne H0]. apply Hsize in Hne. rewrite Hne, H0. eexists. reflexivity.
  - intros Hempty. rewrite Hempty, map_size_empty. reflexivity.
  - intros v Hv.
    assert (Hne : vdata m <> ∅).
    { intros Hempty. rewrite Hempty, lookup_empty in Hv. discriminate Hv. }
    apply Hsize in Hne. rewrite Hne, Hv. reflexivity.
Qed.

Lemma counts_panics_iff_witness : counts (newMesh "none" 13) = Returned (0, 0).
Proof.
  exact (proj1 (proj2 (counts_panics_iff data_go (newMesh "none" 13))) eq_refl).
Defined.

(** ** validate *)

Lemma prefix_app (sub s : string) :
  String.prefix sub s = true <-> exists post, s = (sub ++ post)%string.
Proof.
  revert s. induction sub as [|c sub IH]; intros s.
  - split; [intros _; exists s; reflexivity | intros _; destruct s; reflexivity].
  - destruct s as [|c' s]; simpl.
    + split; [discriminate | intros [post H]; discriminate H].
    + destruct (Ascii.ascii_dec c c') as [<-|Hne].
      * rewrite IH. split; intros [post H]; exists post.
        -- cbn [String.append]. rewrite H. reflexivity.
        -- cbn [String.append] in H. injection H as H. exact H.
      * split; [discriminate|]. intros [post H]. cbn [String.append] in H.
        injection H as Hc _. congruence.
Qed.

Lemma Contains_spec (s sub : string) :
  Contains s sub = true <-> exists pre post, s = (pre ++ sub ++ post)%string.
Proof.
  induction s as [|c s IH].
  - cbn [Contains]. rewrite orb_false_r, prefix_app. split.
    + intros [post H]. exists EmptyString, post. exact H.
    + intros (pre & post & H). destruct pre; [exists post; exact H | discriminate H].
  - cbn [Contains]. rewrite orb_true_iff, prefix_app, IH. split.
    + intros [[post H] | (pre & post & H)].
      * exists EmptyString, post. exact H.
      * exists (String c pre), post. simpl. rewrite H. reflexivity.
    + intros (pre & post & H). destruct pre as [|c' pre].
      * left. exists post. exact H.
      * right. simpl in H. injection H as _ H. exists pre, post. exact H.
Qed.

Lemma validate_loop_spec (want : string) (report : list string) :
  validate_loop want report = true
  <-> exists line, In line report /\ Contains line want = true.
Proof.
  induction report as [|l report IH]; cbn [validate_loop].
  - split; [discriminate | intros (line & [] & _)].
  - destruct (Contains l want) eqn:E.
    + split; [intros _; exists l; split; [left; reflexivity | exact E] | reflexivity].
    + rewrite IH. split.
      * intros (line & Hin & Hc). exists line. split; [right; exact Hin | exact Hc].
      * intros (line & [<-|Hin] & Hc); [congruence|]. exists line. split; assumption.
Qed.

(** X18.  [validate] accepts a binding report exactly when one of its
    lines contains the text "[+] glFramebufferTexture"; an empty report
    is refused as "OpenGL unavailable" and any other report as "Need
    OpenGL 3.2 or higher". *)
Theorem validate_outcomes :
  forall (gc : opengl) (report : list string),
    (validate gc report = None
     <-> exists line pre post,
           In line report
           /\ line = (pre ++ "[+] glFramebufferTexture" ++ post)%string)
    /\ (validate gc report = Some OpenGLUnavailable <-> report = [])
    /\ (validate gc report = Some NeedOpenGL32
        <-> report <> []
            /\ forall line, In line report ->
                 Contains line "[+] glFramebufferTexture" = false).
Proof.
  intros gc report. unfold validate. cbv zeta.
  pose proof (validate_loop_spec "[+] glFramebufferTexture" report) as Hloop.
  destruct report as [|l report].
  - cbn. split; [|split].
    + split; [discriminate | intros (line & _ & _ & [] & _)].
    + split; reflexivity.
    + split; [discriminate | intros [H _]; contradiction].
  - assert (Hlen : (0 <? len (l :: report)) = true).
    { apply Z.ltb_lt. unfold len. cbn [length]. lia. }
    rewrite Hlen.
    destruct (validate_loop "[+] glFramebufferTexture" (l :: report)) eqn:E; cbn [negb].
    + split; [|split].
      * split; [|reflexivity]. intros _.
        destruct (proj1 Hloop eq_refl) as (line & Hin & Hc).
        apply Contains_spec in Hc as (pre & post & Hc).
        exists line, pre, post. split; assumption.
      * split; discriminate.
      * split; [discriminate|]. intros [_ Hnone].
        destruct (proj1 Hloop eq_refl) as (line & Hin & Hc).
        rewrite (Hnone line Hin) in Hc. discriminate Hc.
    + split; [|split].
      * split; [discriminate|]. intros (line & pre & post & Hin & Hc).
        assert (Ht : false = true).
        { apply Hloop. exists line. split; [exact Hin|].
          apply Contains_spec. exists pre, post. exact Hc. }
        discriminate Ht.
      * split; discriminate.
      * split; [|reflexivity]. intros _. split; [discriminate|].
        intros line Hin. destruct (Contains line "[+] glFramebufferTexture") eqn:Ec;
          [|reflexivity].
        assert (Ht : false = true).
        { apply Hloop. exists line. split; assumption. }
        discriminate Ht.
Qed.

Lemma Init_keeps_channels_witness :
  vdata (InitData (quad_at 0) 1 2 StaticDraw false) !! 0 = vdata (quad_at 0) !! 0.
Proof.
  destruct (Init_keeps_channels data_go (quad_at 0) 1 2 StaticDraw false)
    as (_ & Hrest & _).
  apply Hrest. lia.
Defined.

Lemma BindMap_run (gc : opengl) (fbo0 tid0 : Z) (s : gl.device) :
  let st := hd gl.FRAMEBUFFER_COMPLETE (gl.pending_status s) in
  let r := BindMap gc fbo0 tid0 s in
  (result_of r).1.1
    = (if st =? gl.FRAMEBUFFER_COMPLETE
       then if hd gl.NO_ERROR (gl.pending_errors s) =? gl.NO_ERROR then None
            else Some (FailedBindingFramebuffer (hd gl.NO_ERROR (gl.pending_errors s)))
       else Some (BindFrameError st))
  /\ gl.framebuffer (device_of r)
     = (if st =? gl.FRAMEBUFFER_COMPLETE then 0 else (result_of r).1.2)
  /\ count is_gen (events_of r) = 2%nat.
Proof.
  intros st r. subst st r. unfold BindMap. cbv zeta.
  destruct (hd gl.FRAMEBUFFER_COMPLETE (gl.pending_status s) =? gl.FRAMEBUFFER_COMPLETE)
    eqn:Est.
  - erewrite bind_run; [|reflexivity|].
    2:{ do 13 (eapply bind_run; [reflexivity|]). cbn. rewrite Est. cbn [negb].
        eapply bind_run; [reflexivity|]. eapply bind_run; [reflexivity|]. reflexivity. }
    unfold result_of, device_of, events_of. cbn.
    destruct (hd gl.NO_ERROR (gl.pending_errors s) =? gl.NO_ERROR); repeat split.
  - erewrite bind_run; [|reflexivity|].
    2:{ do 13 (eapply bind_run; [reflexivity|]). cbn. rewrite Est. reflexivity. }
    unfold result_of, device_of, events_of. cbn. repeat split.
Qed.

(** X19.  [BindMap] and the framebuffer binding: as for [BindTarget].
    Whatever handles are passed in, the call generates two new objects (a
    framebuffer and a texture); on an incomplete framebuffer it returns
    the status as an error and leaves the new framebuffer, the one whose
    handle it returns, bound; otherwise it leaves framebuffer 0 bound and
    returns an error only if the device reports one; and a following
    [Render] into the cached framebuffer leaves the binding as [BindMap]
    left it. *)
Theorem BindMap_framebuffer :
  forall (gc : opengl) (fbo0 tid0 : Z) (s : gl.device),
    let st := hd gl.FRAMEBUFFER_COMPLETE (gl.pending_status s) in
    let e := hd gl.NO_ERROR (gl.pending_errors s) in
    let r := BindMap gc fbo0 tid0 s in
    count is_gen (events_of r) = 2%nat
    /\ (st <> gl.FRAMEBUFFER_COMPLETE ->
        (result_of r).1.1 = Some (BindFrameError st) /\
        gl.framebuffer (device_of r) = (result_of r).1.2)
    /\ (st = gl.FRAMEBUFFER_COMPLETE ->
        (result_of r).1.1
          = (if e =? gl.NO_ERROR then None else Some (FailedBindingFramebuffer e)) /\
        gl.framebuffer (device_of r) = 0)
    /\ (forall d : Draw,
          Fbo d = fbo gc ->
          gl.framebuffer (device_of (Render gc d (device_of r)))
            = gl.framebuffer (device_of r)).
Proof.
  intros gc fbo0 tid0 s st e r.
  destruct (BindMap_run gc fbo0 tid0 s) as (Hres & Hfb & Hgen).
  fold st e r in Hres, Hfb, Hgen.
  split; [exact Hgen|]. split; [|split].
  - intros Hst. apply Z.eqb_neq in Hst. rewrite Hst in Hres, Hfb. split; assumption.
  - intros Hst. apply Z.eqb_eq in Hst. rewrite Hst in Hres, Hfb. split; assumption.
  - intros d Hd. rewrite Render_framebuffer, Hd, Z.eqb_refl. reflexivity.
Qed.

Lemma BindMap_framebuffer_witness :
  gl.framebuffer
    (device_of (BindMap gc_window 0 0 (gl.set_pending_status [0x8CD6] dev0)))
  = (result_of (BindMap gc_window 0 0 (gl.set_pending_status [0x8CD6] dev0))).1.2.
Proof.
  destruct (BindMap_framebuffer gc_window 0 0 (gl.set_pending_status [0x8CD6] dev0))
    as (_ & Hbad & _).
  refine (proj2 (Hbad _)). vm_compute. discriminate.
Defined.

(** ** More on uniforms and uploads *)











Lemma no_gen_apply (c : gl.call) (s : gl.device) :
  no_gen (Gl c) = true ->
  gl.next_name (gl.apply c s) = gl.next_name s /\
  gl.textures (gl.apply c s) = gl.textures s.
Proof. destruct c; simpl; first [discriminate | intros _; split; reflexivity]. Qed.

Lemma no_gen_replay (t : list event) (s : gl.device) :
  forallb no_gen t = true ->
  gl.next_name (replay t s) = gl.next_name s /\
  gl.textures (replay t s) = gl.textures s.
Proof.
  revert s. induction t as [|e t IH]; intros s Ht; [split; reflexivity|].
  simpl in Ht. apply andb_true_iff in Ht as [He Ht].
  change (replay (e :: t) s) with (replay t (replay1 s e)).
  destruct (IH (replay1 s e) Ht) as [Hn Hx]. rewrite Hn, Hx.
  destruct e as [c|l]; [apply no_gen_apply, He | split; reflexivity].
Qed.

Lemma uniform_event_draws_only (e : event) :
  uniform_event e = true -> draws_only e = true.
Proof. destruct e as [[]|]; cbv; congruence. Qed.

Lemma draws_only_no_gen (e : event) : draws_only e = true -> no_gen e = true.
Proof.
  unfold draws_only. intros H. apply andb_true_iff in H as [H _].
  apply andb_true_iff in H. tauto.
Qed.

Lemma Render_draws_only (gc : opengl) (d : Draw) (s : gl.device) :
  forallb draws_only (events_of (Render gc d s)) = true.
Proof.
  rewrite Render_events, !forallb_app.
  assert (Hu : forall gc' s',
             forallb draws_only (events_of (bindUniforms gc' d s')) = true).
  { intros gc' s'. apply (forallb_weaken uniform_event _ _ uniform_event_draws_only).
    apply bindUniforms_loop_emits. }
  rewrite Hu.
  unfold state_switches, scissor_on, depth_switch, fbo_switch, shader_switch,
    draw_events, draw_calls, scissor_off.
  destruct (Scissor d), (negb (eqb (depthTest gc) (Depth d))),
    (negb (fbo gc =? Fbo d)), (Fbo d =? 0), (negb (shader gc =? Shader d)), (mode d),
    (0 <? Instances d), (Depth d); reflexivity.
Qed.

Lemma RenderAll_sound (ds : list Draw) : forall gc, sound (RenderAll gc ds).
Proof.
  induction ds as [|d ds IH]; intros gc; cbn [RenderAll].
  - apply sound_ret.
  - apply sound_bind; [apply Render_sound | intros gc'; apply IH].
Qed.

(** X21.  Drawing allocates nothing.  Over any sequence of draws, from any
    device state, [Render] generates no vertex array, buffer, texture,
    framebuffer, renderbuffer or program, uploads no buffer data and no
    texture data; the device hands out no name and knows the same textures
    afterwards as before. *)
Theorem Render_allocates_nothing :
  forall (ds : list Draw) (gc : opengl) (s : gl.device),
    forallb draws_only (events_of (RenderAll gc ds s)) = true
    /\ gl.next_name (device_of (RenderAll gc ds s)) = gl.next_name s
    /\ gl.textures (device_of (RenderAll gc ds s)) = gl.textures s.
Proof.
  intros ds gc s.
  assert (Hev : forallb draws_only (events_of (RenderAll gc ds s)) = true).
  { revert gc s. induction ds as [|d ds IH]; intros gc s; [reflexivity|].
    cbn [RenderAll]. rewrite events_bind, forallb_app, Render_draws_only, IH.
    reflexivity. }
  split; [exact Hev|].
  rewrite (RenderAll_sound ds gc s).
  apply no_gen_replay, (forallb_weaken draws_only no_gen _ draws_only_no_gen Hev).
Qed.

Lemma bindVertexBuffer_count (gc : opengl) (vd : vertexData) (s : gl.device) :
  count is_BufferData (events_of (bindVertexBuffer gc (VD vd) s))
  = if uploadable vd then 1%nat else 0%nat.
Proof.
  unfold bindVertexBuffer. rewrite events_bind, count_app.
  set (step := if vd_ref vd =? 0 then _ else _).
  assert (Hstep : count is_BufferData (events_of (step s)) = 0%nat
                  /\ uploadable (result_of (step s)) = uploadable vd).
  { subst step. destruct (vd_ref vd =? 0); split; reflexivity. }
  destruct Hstep as [-> <-].
  generalize (device_of (step s)) (result_of (step s)). clear step.
  intros s1 vd1. unfold uploadable, instanced_rows. cbn [foldr].
  rewrite !events_bind, !count_app.
  destruct (vd_usage vd1 =? StaticDraw), (vd_usage vd1 =? DynamicDraw),
    (0 <? len (vd_floats vd1)), (0 <? len (vd_bytes vd1)), (vd_instanced vd1);
    reflexivity.
Qed.

(** One iteration of the loop of [BindMesh]: what it uploads and which
    buffers it leaves as they were. *)
Lemma bindVertexBuffers_step (gc : opengl) (k0 : Z) (vdata : gmap Z Data) (s : gl.device) :
  let step :=
    match vdata !! k0 with
    | Some (VD vd) =>
        if vd_rebind vd then
          vbuff ← bindVertexBuffer gc (VD vd);
          match vbuff with
          | VD vd => mret (<[k0 := VD (vd_set_rebind false vd)]> vdata)
          | FD _ => mret vdata
          end
        else mret vdata
    | _ => mret vdata
    end in
  count is_BufferData (events_of (step s))
    = (if uploads (vdata !! k0) then 1%nat else 0%nat)
  /\ (forall k, k <> k0 -> result_of (step s) !! k = vdata !! k).
Proof.
  cbv zeta. destruct (vdata !! k0) as [[vd|fd]|] eqn:E0; cbn [uploads];
    try (split; [reflexivity | intros k _; reflexivity]).
  destruct (vd_rebind vd) eqn:Er; cbn [andb];
    [|split; [reflexivity | intros k _; reflexivity]].
  rewrite events_bind, count_app, result_bind, bindVertexBuffer_count.
  destruct (bindVertexBuffer_VD gc vd s) as [vd' ->]. split.
  - cbn. destruct (uploadable vd); reflexivity.
  - intros k Hk. cbn. apply lookup_insert_ne. congruence.
Qed.

(** X22.  The loop of [BindMesh] uploads exactly the buffers that need
    it.  Visiting every key once, it makes one [BufferData] call for each
    vertex buffer whose rebind flag is up and whose data is uploadable,
    and none for any other: the number of [BufferData] calls is the number
    of such keys. *)
Theorem bindVertexBuffers_uploads_dirty :
  forall (gc : opengl) (keys : list Z) (vdata : gmap Z Data) (s : gl.device),
    NoDup keys ->
    count is_BufferData (events_of (bindVertexBuffers gc keys vdata s))
    = length (List.filter (fun k => uploads (vdata !! k)) keys).
Proof.
  intros gc keys. induction keys as [|k0 keys IH]; intros vdata s Hnd; [reflexivity|].
  apply NoDup_cons in Hnd as [Hk0 Hnd].
  cbn [bindVertexBuffers]. rewrite events_bind, count_app.
  destruct (bindVertexBuffers_step gc k0 vdata s) as [Hcount Hrest].
  cbv zeta in Hcount, Hrest. rewrite Hcount, (IH _ _ Hnd).
  cbn [List.filter].
  assert (Hsame : List.filter (fun k => uploads (result_of (match vdata !! k0 with
            | Some (VD vd) =>
                if vd_rebind vd then
                  vbuff ← bindVertexBuffer gc (VD vd);
                  match vbuff with
                  | VD vd => mret (<[k0 := VD (vd_set_rebind false vd)]> vdata)
                  | FD _ => mret vdata
                  end
                else mret vdata
            | _ => mret vdata
            end s) !! k)) keys
          = List.filter (fun k => uploads (vdata !! k)) keys).
  { apply List.filter_ext_in. intros k Hk. rewrite Hrest; [reflexivity|].
    intros ->. apply Hk0, list_elem_of_In, Hk. }
  rewrite Hsame. destruct (uploads (vdata !! k0)); reflexivity.
Qed.

Lemma bindVertexBuffers_uploads_dirty_witness :
  count is_BufferData
    (events_of (bindVertexBuffers newRenderer [0; 2; 5]
                  (<[2 := VD dynamic_bytes]> (vdata (quad_at 0))) dev0))
  = 1%nat.
Proof.
  rewrite (bindVertexBuffers_uploads_dirty newRenderer [0; 2; 5]).
  - reflexivity.
  - apply (bool_decide_unpack _). vm_compute. exact I.
Defined.
